(** * Snapshot diff engine and fetcher of torn_scripts

    A shallow embedding of [xantaken_diff.py] (the snapshot diff engine)
    and of [xans.py] (the snapshot fetcher: the GET wrapper, the two
    calls of the API and the loop of [main]), with the properties of
    their specification and further properties of the code.

    Modelling choices.
    - A pandas [DataFrame] is its list of column names and its list of
      rows; a row is a finite map from column name to cell.
    - A cell is the pandas null ([NaN]), a number or a text.  Numbers are
      exact rationals: the rounding of binary floating point is not
      modelled.
    - Exceptions are explicit: a function that can raise returns a
      [result]; [try]/[except] is a match on it.
    - The conversions pandas performs on a single cell (text to number,
      number to text, anything to a calendar date) are the variables of
      the section [Engine].
    - The outside world of the fetcher is a session: the answer to each
      request, by the number of requests sent before it.  A call returns
      its result together with the requests and sleeps it made.
    - A JSON document is a tree; the decoding of a body and [int] on a
      text are the variables of the section [Documents]. *)

From Stdlib Require Import ZArith QArith Qminmax Qabs String Ascii List Bool
  Lia.
From Stdlib Require Import Sorted Permutation DecimalString.
From stdpp Require Import gmap strings list fin_maps.

Open Scope string_scope.
Open Scope Z_scope.

(** ** Cells, exceptions *)

Inductive value : Type :=
| NaN
| Num (q : Q)
| Str (s : string).

Definition isna (v : value) : bool :=
  match v with NaN => true | _ => false end.

Definition is_num (v : value) : bool :=
  match v with Num _ => true | _ => false end.

Definition is_str (v : value) : bool :=
  match v with Str _ => true | _ => false end.

Inductive exn : Type :=
| ValueError (msg : string)
| KeyError (key : string)
| TypeError (msg : string)
| RuntimeError (msg : string)
| OSError (msg : string).

Inductive result (A : Type) : Type :=
| Ok (a : A)
| Raise (e : exn).
Arguments Ok {A} a.
Arguments Raise {A} e.

Definition bind {A B} (r : result A) (k : A -> result B) : result B :=
  match r with
  | Ok a => k a
  | Raise e => Raise e
  end.

Notation "'let!' x ':=' r 'in' k" := (bind r (fun x => k))
  (at level 10, x name, r at level 100, k at level 200).

(** ** Data frames *)

Record DataFrame : Type := mkDataFrame {
  columns : list string;
  rows : list (gmap string value)
}.

(** [row[c]]; every column the program reads is present in the frame it
    reads it from, so the default is never observed. *)
Definition cell (r : gmap string value) (c : string) : value :=
  default NaN (r !! c).

Definition has_col (c : string) (cols : list string) : bool :=
  existsb (String.eqb c) cols.

(** [df[c]] as the list of its cells in row order. *)
Definition column (df : DataFrame) (c : string) : list value :=
  map (fun r => cell r c) (rows df).

(** [df[c] = f(row)]: the column is overwritten in place, or appended. *)
Definition with_column (c : string) (f : gmap string value -> value)
    (df : DataFrame) : DataFrame :=
  {| columns := if has_col c (columns df) then columns df
                else columns df ++ [c];
     rows := map (fun r => <[c := f r]> r) (rows df) |}.

(** [df[cols]]: projection on the listed columns. *)
Definition select_row (cols : list string) (r : gmap string value)
  : gmap string value :=
  list_to_map (map (fun c => (c, cell r c)) cols).

Definition select (cols : list string) (df : DataFrame) : DataFrame :=
  {| columns := cols; rows := map (select_row cols) (rows df) |}.

(** [df.rename(columns=f)]. *)
Definition rename_row (f : string -> string) (cols : list string)
    (r : gmap string value) : gmap string value :=
  list_to_map (map (fun c => (f c, cell r c)) cols).

Definition rename (f : string -> string) (df : DataFrame) : DataFrame :=
  {| columns := map f (columns df);
     rows := map (rename_row f (columns df)) (rows df) |}.

(** [series.dropna()]. *)
Definition dropna (s : list value) : list value :=
  List.filter (fun v => negb (isna v)) s.

(** ** Calendar dates ([datetime.date]) *)

Record date : Type := mkDate { year : Z; month : Z; day : Z }.

Definition _is_leap (y : Z) : bool :=
  (y mod 4 =? 0) && (negb (y mod 100 =? 0) || (y mod 400 =? 0)).

Definition _days_in_month (y m : Z) : Z :=
  if (m =? 2) && _is_leap y then 29
  else nth (Z.to_nat m) [0; 31; 28; 31; 30; 31; 30; 31; 31; 30; 31; 30; 31] 0.

Definition _days_before_year (y : Z) : Z :=
  let y' := y - 1 in y' * 365 + y' / 4 - y' / 100 + y' / 400.

Definition _days_before_month (y m : Z) : Z :=
  nth (Z.to_nat m) [0; 0; 31; 59; 90; 120; 151; 181; 212; 243; 273; 304; 334] 0
  + (if (2 <? m) && _is_leap y then 1 else 0).

Definition toordinal (d : date) : Z :=
  _days_before_year (year d) + _days_before_month (year d) (month d) + day d.

(** [date(y, m, d)] raises [ValueError] outside the calendar. *)
Definition valid_date (y m d : Z) : bool :=
  (1 <=? y) && (y <=? 9999) && (1 <=? m) && (m <=? 12)
  && (1 <=? d) && (d <=? _days_in_month y m).

(** [a <= b] on dates compares (year, month, day). *)
Definition date_leb (a b : date) : bool :=
  if year a <? year b then true
  else if year b <? year a then false
  else if month a <? month b then true
  else if month b <? month a then false
  else day a <=? day b.

(** [(b - a).days]. *)
Definition days_from (a b : date) : Z := toordinal b - toordinal a.

(** ** File names and the date pattern *)

Record Path : Type := mkPath { parent : string; name : string }.

(** [str(path)]. *)
Definition path_str (p : Path) : string :=
  if String.eqb (parent p) "" then name p else parent p ++ "/" ++ name p.

Definition is_digit (c : ascii) : bool :=
  let n := N_of_ascii c in (48 <=? n)%N && (n <=? 57)%N.

Definition digit_val (c : ascii) : Z := Z.of_N (N_of_ascii c) - 48.

(** [DATE_RE = (\d{4}-\d{2}-\d{2})] matched at the head of [s].  File
    names are taken to be ASCII, where [\d] is one of the ten digits. *)
Definition match_date_at (s : string) : option (Z * Z * Z) :=
  match s with
  | String y1 (String y2 (String y3 (String y4 (String h1
      (String m1 (String m2 (String h2 (String d1 (String d2 _))))))))) =>
      if is_digit y1 && is_digit y2 && is_digit y3 && is_digit y4
         && Ascii.eqb h1 "-" && is_digit m1 && is_digit m2
         && Ascii.eqb h2 "-" && is_digit d1 && is_digit d2
      then Some (((digit_val y1 * 10 + digit_val y2) * 10 + digit_val y3) * 10
                   + digit_val y4,
                 digit_val m1 * 10 + digit_val m2,
                 digit_val d1 * 10 + digit_val d2)
      else None
  | _ => None
  end.

(** [DATE_RE.search(s)]: the leftmost match. *)
Fixpoint DATE_RE_search (s : string) : option (Z * Z * Z) :=
  match match_date_at s with
  | Some m => Some m
  | None => match s with
            | EmptyString => None
            | String _ rest => DATE_RE_search rest
            end
  end.

(** [date.fromisoformat] on a matched group. *)
Definition date_fromisoformat (m : Z * Z * Z) : result date :=
  let '(y, mo, d) := m in
  if valid_date y mo d then Ok (mkDate y mo d)
  else Raise (ValueError "day is out of range for month").

(** [', '.join(l)]. *)
Fixpoint join (sep : string) (l : list string) : string :=
  match l with
  | [] => ""
  | [x] => x
  | x :: rest => x ++ sep ++ join sep rest
  end.

(** [sub] occurs in [s]. *)
Definition contains (s sub : string) : Prop :=
  exists pre post, s = pre ++ sub ++ post.

(** The first cell of a column that is not null, and the first one that
    is neither null nor the empty text. *)
Definition first_nonnull (s : list value) : option value :=
  List.find (fun v => negb (isna v)) s.



(** ** Stable sorting

    [numpy.lexsort], which [sort_values] uses for several keys, is a
    stable sort; an insertion sort that puts an element before the first
    one it is not greater than is its functional counterpart. *)

Section Sort.
Context {A : Type} (leb : A -> A -> bool).

Fixpoint insert_sorted (x : A) (l : list A) : list A :=
  match l with
  | [] => [x]
  | y :: l' => if leb x y then x :: l else y :: insert_sorted x l'
  end.

Definition stable_sort (l : list A) : list A :=
  foldr insert_sorted [] l.


End Sort.

(** Order of the non-null values of one sort key: numbers by value,
    texts as Python compares [str].  (A key that holds both makes
    [sort_values] raise, see [sort_values] below.) *)
Definition value_leb (x y : value) : bool :=
  match x, y with
  | Num p, Num q => Qle_bool p q
  | Str s, Str t => String.leb s t
  | Num _, Str _ => true
  | Str _, Num _ => false
  | _, NaN => true
  | NaN, _ => false
  end.

(** One key of [sort_values(..., na_position="last")]: nulls come after
    every value in both directions; the direction applies to the values. *)
Definition key_leb (ascending : bool) (x y : value) : bool :=
  match isna x, isna y with
  | _, true => true
  | true, false => false
  | false, false => if ascending then value_leb x y else value_leb y x
  end.

(** Lexicographic comparison of two rows on the keys [ks]. *)
Fixpoint rows_leb (ks : list (string * bool)) (r1 r2 : gmap string value)
  : bool :=
  match ks with
  | [] => true
  | (c, asc) :: rest =>
      if key_leb asc (cell r1 c) (cell r2 c) then
        if key_leb asc (cell r2 c) (cell r1 c) then rows_leb rest r1 r2
        else true
      else false
  end.

Definition mixed (s : list value) : bool :=
  existsb is_num s && existsb is_str s.

(** [df.sort_values(by=..., ascending=..., na_position="last")] with
    several keys: [KeyError] on the first key that is not a column,
    [TypeError] when a key holds values that cannot be ordered. *)
Definition sort_values (ks : list (string * bool)) (df : DataFrame)
  : result DataFrame :=
  match List.find (fun k => negb (has_col (fst k) (columns df))) ks with
  | Some k => Raise (KeyError (fst k))
  | None =>
      if existsb (fun k => mixed (column df (fst k))) ks
      then Raise (TypeError "'values' is not ordered")
      else Ok {| columns := columns df;
                 rows := stable_sort (rows_leb ks) (rows df) |}
  end.

(** ** Outer join on a text key

    [a.merge(b, on=key, how="outer")]: the union of the keys, sorted;
    for each key the pairs of the rows of [a] and of [b] that carry it,
    a row without partner being completed with nulls.  The key column
    holds text in both frames ([_load_snapshot] converts it with
    [astype(str)]). *)

Definition text_of (v : value) : string :=
  match v with Str s => s | _ => "" end.

Definition nan_row (cols : list string) : gmap string value :=
  list_to_map (map (fun c => (c, NaN)) cols).

Definition other_cols (on : string) (df : DataFrame) : list string :=
  List.filter (fun c => negb (String.eqb c on)) (columns df).

Definition with_key (on k : string) (df : DataFrame)
  : list (gmap string value) :=
  List.filter (fun r => String.eqb (text_of (cell r on)) k) (rows df).

Definition merge_group (on : string) (a b : DataFrame) (k : string)
  : list (gmap string value) :=
  match with_key on k a, with_key on k b with
  | [], lb => map (fun rb => rb ∪ nan_row (other_cols on a)) lb
  | la, [] => map (fun ra => ra ∪ nan_row (other_cols on b)) la
  | la, lb => flat_map (fun ra => map (fun rb => ra ∪ rb) lb) la
  end.

Definition merge_keys (on : string) (a b : DataFrame) : list string :=
  stable_sort String.leb
    (remove_dups (map (fun r => text_of (cell r on)) (rows a ++ rows b))).

Definition merge_outer (on : string) (a b : DataFrame) : DataFrame :=
  {| columns := columns a ++ other_cols on b;
     rows := flat_map (merge_group on a b) (merge_keys on a b) |}.

(** ** Null-aware arithmetic of the derived columns *)

(** [x - y] on two columns: null when either operand is null. *)
Definition num_sub (x y : value) : value :=
  match x, y with
  | Num p, Num q => Num (p - q)
  | _, _ => NaN
  end.

(** [df[[...]].min(axis=1)] and [.max(axis=1)]: pandas reductions skip
    nulls ([skipna=True] is the default); the result is null only when
    no value is left. *)
Definition skipna_reduce (f : Q -> Q -> Q) (xs : list value) : value :=
  fold_left (fun acc v =>
               match v, acc with
               | Num q, Num p => Num (f p q)
               | Num q, _ => Num q
               | _, _ => acc
               end) xs NaN.

Definition row_min (xs : list value) : value := skipna_reduce Qmin xs.
Definition row_max (xs : list value) : value := skipna_reduce Qmax xs.

(** [x / n] for a column [x] and a non-zero integer [n]. *)
Definition num_div (x : value) (n : Z) : value :=
  match x with
  | Num p => Num (p / inject_Z n)
  | _ => NaN
  end.

(** [x < q] and [x >= q] for a scalar read from a row: both are [False]
    on a null. *)
Definition num_ltb (x : value) (q : Q) : bool :=
  match x with
  | Num p => negb (Qle_bool q p)
  | _ => false
  end.

Definition num_geb (x : value) (q : Q) : bool :=
  match x with
  | Num p => Qle_bool q p
  | _ => false
  end.

(** Equality of two cells, numbers by value. *)
Definition value_eqb (x y : value) : bool :=
  match x, y with
  | NaN, NaN => true
  | Num p, Num q => Qeq_bool p q
  | Str s, Str t => String.eqb s t
  | _, _ => false
  end.

(** [s.combine_first(t)]: the value of [s], that of [t] where [s] is null. *)
Definition combine_first (x y : value) : value :=
  if isna x then y else x.

(** ** The diff engine, [xantaken_diff.py] *)

Section Engine.

(** [str(x)] of a numeric cell, as [astype(str)] applies it. *)
Variable str_of_num : Q -> string.
(** The conversion of a text by [pd.to_numeric]; [None] when the text is
    not a number (with [errors="coerce"] the cell then becomes null). *)
Variable parse_num : string -> option Q.
(** [pd.to_datetime(v).date()] on a non-null cell: a date, or the
    exception it raises.  (A text that pandas reads as the missing time,
    such as ["NaT"], is outside the model.) *)
Variable to_datetime : value -> result date.
(** [pd.read_csv(path)]: the table parsed from the file, or the exception
    raised when there is no such table.  Empty fields are read as nulls. *)
Variable read_csv : Path -> result DataFrame.

Definition astype_str (v : value) : value :=
  match v with
  | NaN => Str "nan"
  | Num q => Str (str_of_num q)
  | Str s => Str s
  end.

Definition to_numeric (v : value) : value :=
  match v with
  | NaN => NaN
  | Num q => Num q
  | Str s => match parse_num s with
             | Some q => Num q
             | None => NaN
             end
  end.

(** The date found in the file name, [None] when there is none or when
    it is not a calendar date (lines 52 to 59). *)
Definition date_from_filename (path : Path) : result (option date) :=
  match DATE_RE_search (name path) with
  | Some m =>
      match date_fromisoformat m with
      | Ok d => Ok (Some d)
      | Raise _ => Ok None
      end
  | None => Ok None
  end.

Definition _parse_date_from_df_or_filename (df : DataFrame) (path : Path)
  : result (option date) :=
  if has_col "export_date" (columns df) then
    match dropna (column df "export_date") with
    | v :: _ =>
        match to_datetime v with
        | Ok d => Ok (Some d)
        | Raise _ => date_from_filename path
        end
    | [] => date_from_filename path
    end
  else date_from_filename path.

(** [sorted(required - set(df.columns))]; [required] is listed in
    sorted order. *)
Definition required : list string := ["user_id"; "xantaken"].

Definition missing_columns (df : DataFrame) : list string :=
  List.filter (fun c => negb (has_col c (columns df))) required.

Definition missing_message (path : Path) (df : DataFrame) : string :=
  path_str path ++ " is missing required column(s): "
  ++ join ", " (missing_columns df) ++ ". "
  ++ "Found columns: " ++ join ", " (columns df).

Definition _load_snapshot (path : Path) : result DataFrame :=
  let! df := read_csv path in
  match missing_columns df with
  | _ :: _ => Raise (ValueError (missing_message path df))
  | [] =>
      let df := with_column "user_id"
                  (fun r => astype_str (cell r "user_id")) df in
      let df := with_column "xantaken"
                  (fun r => to_numeric (cell r "xantaken")) df in
      Ok df
  end.

(** Lines 92 to 97: start date, end date and days between. *)
Definition date_span (date_a date_b : option date)
  : option date * option date * option Z :=
  match date_a, date_b with
  | Some a, Some b =>
      let '(s, e) := if date_leb a b then (a, b) else (b, a) in
      (Some s, Some e, Some (Z.abs (days_from a b)))
  | _, _ => (date_a, date_b, None)
  end.

Definition meta_cols (df_a df_b : DataFrame) : list string :=
  List.filter (fun c => has_col c (columns df_a) || has_col c (columns df_b))
    ["name"; "position"; "level"].

Definition keep (metas : list string) (df : DataFrame) : list string :=
  ["user_id"; "xantaken"]
  ++ List.filter (fun c => has_col c (columns df)) metas.

(** The renaming dictionary of lines 108 and 109, with suffix ["_a"] or
    ["_b"]. *)
Definition suffixed (sfx : string) (metas cols : list string) (c : string)
  : string :=
  if String.eqb c "xantaken" then "xantaken" ++ sfx
  else if has_col c metas && has_col c cols then c ++ sfx
  else c.

Definition side (sfx : string) (metas : list string) (df : DataFrame)
  : DataFrame :=
  let x := select (keep metas df) df in
  rename (suffixed sfx metas (columns x)) x.

(** One turn of the loop of lines 114 to 121. *)
Definition add_meta (merged : DataFrame) (c : string) : DataFrame :=
  let ca := c ++ "_a" in
  let cb := c ++ "_b" in
  if has_col cb (columns merged) && has_col ca (columns merged) then
    with_column c (fun r => combine_first (cell r cb) (cell r ca)) merged
  else if has_col cb (columns merged) then
    with_column c (fun r => cell r cb) merged
  else if has_col ca (columns merged) then
    with_column c (fun r => cell r ca) merged
  else merged.

Definition _status (row : gmap string value) : value :=
  let a_missing := isna (cell row "xantaken_a") in
  let b_missing := isna (cell row "xantaken_b") in
  let avg_xan_taken := cell row "avg_xantaken_per_day" in
  if a_missing && b_missing then Str "Never Taken Xan!!!"
  else if a_missing then Str "New Recruit"
  else if b_missing then Str "Not in Faction and Time of Second Snapshot"
  else if num_ltb avg_xan_taken 1 then Str "Fail"
  else if num_geb avg_xan_taken 2 then Str "Exceeds"
  else Str "Pass".

(** Lines 111 to 149: the joined table with its derived columns. *)
Definition joined (df_a df_b : DataFrame) : DataFrame :=
  let metas := meta_cols df_a df_b in
  merge_outer "user_id" (side "_a" metas df_a) (side "_b" metas df_b).

Definition merged_frame (df_a df_b : DataFrame) (days_between : option Z)
  : DataFrame :=
  let merged := joined df_a df_b in
  let merged := fold_left add_meta (meta_cols df_a df_b) merged in
  let merged := with_column "diff_xantaken"
      (fun r => num_sub (cell r "xantaken_b") (cell r "xantaken_a")) merged in
  let merged := with_column "xantaken_min"
      (fun r => row_min [cell r "xantaken_a"; cell r "xantaken_b"]) merged in
  let merged := with_column "xantaken_max"
      (fun r => row_max [cell r "xantaken_a"; cell r "xantaken_b"]) merged in
  let merged :=
    match days_between with
    | None => with_column "avg_xantaken_per_day" (fun _ => NaN) merged
    | Some n =>
        if n =? 0
        then with_column "avg_xantaken_per_day" (fun _ => NaN) merged
        else with_column "avg_xantaken_per_day"
               (fun r => num_div (num_sub (cell r "xantaken_max")
                                          (cell r "xantaken_min")) n) merged
    end in
  with_column "status" _status merged.

Definition out_cols (metas : list string) (merged : DataFrame) : list string :=
  List.filter (fun c => has_col c (columns merged))
    (["user_id"] ++ metas
     ++ ["xantaken_a"; "xantaken_b"; "diff_xantaken";
         "avg_xantaken_per_day"; "status"]).

Definition sort_keys : list (string * bool) :=
  [("position", true); ("diff_xantaken", false); ("user_id", true)].

Definition build_report (path_a path_b : Path)
  : result (DataFrame * option date * option date * option Z) :=
  let! df_a := _load_snapshot path_a in
  let! df_b := _load_snapshot path_b in
  let! date_a := _parse_date_from_df_or_filename df_a path_a in
  let! date_b := _parse_date_from_df_or_filename df_b path_b in
  let '(start_date, end_date, days_between) := date_span date_a date_b in
  let merged := merged_frame df_a df_b days_between in
  let! report :=
    sort_values sort_keys
      (select (out_cols (meta_cols df_a df_b) merged) merged) in
  Ok (report, start_date, end_date, days_between).

End Engine.

(** ** Relations used in the statements *)

(** [m] is the row [m0] of the joined table with the derived columns
    that reach the report, as lines 123 to 149 compute them. *)
Definition derived_row (days_between : option Z) (m0 m : gmap string value)
  : Prop :=
  let a := cell m0 "xantaken_a" in
  let b := cell m0 "xantaken_b" in
  cell m "user_id" = cell m0 "user_id"
  /\ cell m "xantaken_a" = a
  /\ cell m "xantaken_b" = b
  /\ cell m "diff_xantaken" = num_sub b a
  /\ cell m "avg_xantaken_per_day"
     = match days_between with
       | None => NaN
       | Some n =>
           if n =? 0 then NaN
           else num_div (num_sub (row_max [a; b]) (row_min [a; b])) n
       end
  /\ cell m "status" = _status m.

(** The members of a table, in row order. *)
Definition member_ids (df : DataFrame) : list string :=
  map (fun r => text_of (cell r "user_id")) (rows df).

(** The number of rows of a table that carry the member [u]. *)
Definition occurrences (u : string) (l : list (gmap string value)) : nat :=
  length (List.filter (fun r => String.eqb (text_of (cell r "user_id")) u) l).

(** The number of rows an outer join makes of [m] rows of one table and
    [n] rows of the other that carry the same key. *)
Definition joined_count_of (m n : nat) : nat :=
  match m, n with
  | O, _ => n
  | _, O => m
  | _, _ => (m * n)%nat
  end.

(** The metadata that the row [r] of the table [df] brings to the join
    under the column [c]: its cell, or nothing when the table has not
    the column (line 105 keeps the columns of the table only). *)
Definition meta_of (df : DataFrame) (r : gmap string value) (c : string)
  : value :=
  if has_col c (columns df) then cell r c else NaN.

(** ** The GET wrapper of the fetcher, [xans.py] *)

Module Fetcher.

Record request : Type := mkRequest {
  req_url : string;
  req_headers : list (string * string);
  req_params : list (string * string);
  req_timeout : Z
}.

(** What [r.json()] gives: it raises [ValueError] ([NotJson]), or it is a
    dictionary with an ["error"] entry, or any other document. *)
Inductive body : Type :=
| NotJson
| JsonError (code : option Z) (msg : string)
| JsonData (data : string).

(** What [session.get] does: it raises [requests.RequestException], or
    it returns a response. *)
Inductive outcome : Type :=
| RequestException (e : string)
| Response (status_code : Z) (text : string) (json : body).

(** What the wrapper does to the outside world. *)
Inductive event : Type :=
| Get (r : request)
| Sleep (seconds : Q).

(** The session answers the request of each attempt. *)
Definition Session : Type := nat -> request -> outcome.

Definition str_of_Z (z : Z) : string :=
  DecimalString.NilZero.string_of_int (Z.to_int z).

Definition str_of_code (code : option Z) : string :=
  match code with
  | Some z => str_of_Z z
  | None => "None"
  end.

(** Lines 40 to 44.  The f-string of the first header has no
    placeholder. *)
Definition headers (api_key : string) : list (string * string) :=
  [("Authorization", "ApiKey xOZ42wvjt01rhnl9");
   ("Accept", "application/json");
   ("User-Agent", "faction-xantaken-export/1.0")].

(** The loop of lines 49 to 97, [n] attempts left, [i] attempts made. *)
Fixpoint attempts (session : Session) (req : request) (n i : nat)
    (backoff : Q) (last_err : option string)
  : result string * list event :=
  match n with
  | O =>
      (Raise (RuntimeError
                (match last_err with
                 | Some m => if String.eqb m "" then "Failed after retries"
                             else m
                 | None => "Failed after retries"
                 end)), [])
  | S n' =>
      let retry (m : string) :=
        let '(r, t) := attempts session req n' (S i) (backoff * 1.7)%Q
                         (Some m) in
        (r, Get req :: Sleep backoff :: t) in
      match session i req with
      | RequestException e => retry ("Request failed: " ++ e)
      | Response status_code text json =>
          if status_code =? 429 then retry "HTTP 429 rate limited"
          else if negb ((200 <=? status_code) && (status_code <? 300)) then
            retry ("HTTP " ++ str_of_Z status_code ++ ": "
                   ++ substring 0 200 text)
          else
            match json with
            | NotJson =>
                retry ("Non-JSON response: " ++ substring 0 200 text)
            | JsonError code msg =>
                if bool_decide (code = Some 5) then
                  retry ("Torn error code 5 (rate limit): " ++ msg)
                else
                  (Raise (RuntimeError
                            ("Torn API error " ++ str_of_code code ++ ": "
                             ++ msg)), [Get req])
            | JsonData data => (Ok data, [Get req])
            end
      end
  end.

Definition torn_get (session : Session) (url : string) (api_key : string)
    (params : list (string * string)) (timeout max_retries : Z)
  : result string * list event :=
  let req := {| req_url := url; req_headers := headers api_key;
                req_params := params; req_timeout := timeout |} in
  attempts session req (Z.to_nat max_retries) 0 2 None.

(** The credential a request carries. *)
Definition authorization (r : request) : option string :=
  snd <$> List.find (fun h => String.eqb (fst h) "Authorization")
            (req_headers r).

Definition requests_of (t : list event) : list request :=
  omap (fun e => match e with Get r => Some r | Sleep _ => None end) t.

End Fetcher.

(** ** The answers of the API and the retries *)

Module Retry.
Import Fetcher.

(** The answers after which the loop of [torn_get] sleeps and tries
    again: a network failure, HTTP 429, any other status outside
    200-299, a body that is not JSON, and the API error code 5. *)
Definition retryable (o : outcome) : bool :=
  match o with
  | RequestException _ => true
  | Response status_code _ json =>
      (status_code =? 429)
      || negb ((200 <=? status_code) && (status_code <? 300))
      || match json with
         | NotJson => true
         | JsonError code _ => bool_decide (code = Some 5)
         | JsonData _ => false
         end
  end.

(** The [last_err] a retried answer leaves. *)
Definition last_err_of (o : outcome) : string :=
  match o with
  | RequestException e => "Request failed: " ++ e
  | Response status_code text json =>
      if status_code =? 429 then "HTTP 429 rate limited"
      else if negb ((200 <=? status_code) && (status_code <? 300)) then
        "HTTP " ++ str_of_Z status_code ++ ": " ++ substring 0 200 text
      else
        match json with
        | NotJson => "Non-JSON response: " ++ substring 0 200 text
        | JsonError _ msg => "Torn error code 5 (rate limit): " ++ msg
        | JsonData _ => ""
        end
  end.

(** What an answer that is not retried makes [torn_get] do. *)
Definition verdict (o : outcome) : result string :=
  match o with
  | Response _ _ (JsonData data) => Ok data
  | Response _ _ (JsonError code msg) =>
      Raise (RuntimeError
               ("Torn API error " ++ str_of_code code ++ ": " ++ msg))
  | _ => Raise (RuntimeError "Failed after retries")
  end.

(** [k] failed attempts: each is a request followed by a sleep, the
    sleep growing by the factor 1.7. *)
Fixpoint retries (req : request) (k : nat) (backoff : Q) : list event :=
  match k with
  | O => []
  | S k' => Get req :: Sleep backoff :: retries req k' (backoff * 1.7)%Q
  end.

Definition sleeps_of (t : list event) : list Q :=
  omap (fun e => match e with Sleep s => Some s | Get _ => None end) t.



End Retry.

(** ** The names of the files that are written

    [date.isoformat()], which is also [str(date)], is
    ["%04d-%02d-%02d" % (year, month, day)]; the components of a date
    are within 1 to 9999, 1 to 12 and 1 to 31, where the zero-padded
    fields are the last four and the last two decimal digits. *)

Definition digit_char (n : Z) : ascii := ascii_of_N (48 + Z.to_N n).

Definition two_digits (n : Z) : string :=
  String (digit_char (n / 10 mod 10)) (String (digit_char (n mod 10)) "").

Definition four_digits (n : Z) : string :=
  String (digit_char (n / 1000 mod 10))
    (String (digit_char (n / 100 mod 10)) (two_digits n)).

Definition isoformat (d : date) : string :=
  four_digits (year d) ++ "-" ++ two_digits (month d) ++ "-"
  ++ two_digits (day d).

(** [xans.py], line 140: the snapshot that [main] writes on the day
    [today] into the directory [outdir]. *)
Definition out_path (outdir : string) (faction_id : Z) (today : date) : Path :=
  {| parent := outdir;
     name := "faction_" ++ Fetcher.str_of_Z faction_id ++ "_xantaken_"
             ++ isoformat today ++ ".csv" |}.

(** [xantaken_diff.py], lines 186 to 190: the report that [main] writes
    into the directory [cwd] when no output is given. *)
Definition default_output (cwd : string) (start_date end_date : option date)
  : Path :=
  let base := "xantaken_diff_report" in
  let base :=
    match start_date, end_date with
    | Some s, Some e => base ++ "_" ++ isoformat s ++ "_to_" ++ isoformat e
    | _, _ => base
    end in
  {| parent := cwd; name := base ++ ".csv" |}.

Fixpoint all_digits (s : string) : bool :=
  match s with
  | EmptyString => true
  | String c rest => is_digit c && all_digits rest
  end.

(** ** The export of a faction, [xans.py]

    The documents of the API as [json.loads] decodes them, the
    exceptions of the operations that [get_faction_members],
    [get_member_xantaken] and the loop of [main] apply to them, and these
    three functions.  A float that is not finite ([NaN], [Infinity]) is
    a document of its own, on which [int] raises ([ValueError] for the
    first and [OverflowError] for the second in Python, one exception
    here).  A run is given the day on which it takes place; the writing
    of the file is outside the model, and a run that gets there ends
    with the path and the rows it hands to the writer. *)

Module Exporter.
Import Fetcher.

Inductive json : Type :=
| JNull
| JBool (b : bool)
| JInt (z : Z)
| JFloat (q : Q)
| JNonFinite
| JStr (s : string)
| JList (l : list json)
| JDict (d : list (string * json)).

(** The exceptions of the fetcher and of the operations on documents. *)
Inductive error : Type :=
| Fetch (e : exn)
| AttributeError (msg : string)
| IndexError (msg : string)
| OverflowError (msg : string).

Inductive answer (A : Type) : Type :=
| Returns (a : A)
| Raises (e : error).
Arguments Returns {A} a.
Arguments Raises {A} e.

(** [type(v).__name__]. *)
Definition type_name (v : json) : string :=
  match v with
  | JNull => "NoneType"
  | JBool _ => "bool"
  | JInt _ => "int"
  | JFloat _ | JNonFinite => "float"
  | JStr _ => "str"
  | JList _ => "list"
  | JDict _ => "dict"
  end.

Definition lookup_key (k : string) (d : list (string * json)) : option json :=
  snd <$> List.find (fun kv => String.eqb (fst kv) k) d.

(** [v.get(k, default)]: only a dictionary has the method. *)
Definition get (v : json) (k : string) (dflt : json) : answer json :=
  match v with
  | JDict d => Returns (default dflt (lookup_key k d))
  | _ => Raises (AttributeError
                   ("'" ++ type_name v ++ "' object has no attribute 'get'"))
  end.

(** [v.pop()], without argument: the last element of a list. *)
Definition pop (v : json) : answer json :=
  match v with
  | JList l =>
      match List.last (map Some l) None with
      | Some x => Returns x
      | None => Raises (IndexError "pop from empty list")
      end
  | JDict _ =>
      Raises (Fetch (TypeError "pop expected at least 1 argument, got 0"))
  | _ => Raises (AttributeError
                   ("'" ++ type_name v ++ "' object has no attribute 'pop'"))
  end.

(** [isinstance(v, (int, float))]; [bool] is a subclass of [int]. *)
Definition is_number (v : json) : bool :=
  match v with
  | JBool _ | JInt _ | JFloat _ | JNonFinite => true
  | _ => false
  end.

Section Documents.

(** The document that a body stands for. *)
Variable document : string -> json.
(** [int(s)] for a text: the integer, or [None] when [int] raises
    [ValueError]. *)
Variable int_of_str : string -> option Z.

(** [int(v)]; a float is truncated toward zero. *)
Definition int (v : json) : answer Z :=
  match v with
  | JInt z => Returns z
  | JBool b => Returns (if b then 1 else 0)
  | JFloat q => Returns (Z.quot (Qnum q) (Z.pos (Qden q)))
  | JNonFinite => Raises (OverflowError "cannot convert float to integer")
  | JStr s =>
      match int_of_str s with
      | Some z => Returns z
      | None => Raises (Fetch (ValueError "invalid literal for int()"))
      end
  | _ => Raises (Fetch (TypeError
                          ("int() argument must be a string, a bytes-like "
                           ++ "object or a real number, not '"
                           ++ type_name v ++ "'")))
  end.

Definition BASE_URL : string := "https://api.torn.com/v2".

(** Lines 103 to 106, on the document that [torn_get] returned. *)
Definition members_of (data : json) : answer (list json) :=
  match get data "members" JNull with
  | Raises e => Raises e
  | Returns (JList members) => Returns members
  | Returns members =>
      Raises (Fetch (RuntimeError
                       ("Unexpected members payload shape: <class '"
                        ++ type_name members ++ "'>")))
  end.

(** Lines 100 to 106. *)
Definition get_faction_members (session : Session) (api_key : string)
    (faction_id : Z) : answer (list json) * list event :=
  let url := BASE_URL ++ "/faction/" ++ str_of_Z faction_id ++ "/members" in
  let '(r, t) := torn_get session url api_key [("striptags", "true")] 30 5 in
  match r with
  | Raise e => (Raises (Fetch e), t)
  | Ok data => (members_of (document data), t)
  end.

(** Lines 112 to 115, on the document that [torn_get] returned. *)
Definition xantaken_of (data : json) : answer (option Z) :=
  match get data "personalstats" (JDict []) with
  | Raises e => Raises e
  | Returns ps =>
      match pop ps with
      | Raises e => Raises e
      | Returns per_stats =>
          match get per_stats "value" JNull with
          | Raises e => Raises e
          | Returns val =>
              if is_number val then
                match int val with
                | Returns z => Returns (Some z)
                | Raises e => Raises e
                end
              else Returns None
          end
      end
  end.

(** Lines 109 to 115. *)
Definition get_member_xantaken (session : Session) (api_key : string)
    (user_id : Z) : answer (option Z) * list event :=
  let url := BASE_URL ++ "/user/" ++ str_of_Z user_id ++ "/personalstats" in
  let '(r, t) := torn_get session url api_key [("stat", "xantaken")] 30 5 in
  match r with
  | Raise e => (Raises (Fetch e), t)
  | Ok data => (xantaken_of (document data), t)
  end.

(** Line 147: [int(m.get("id"))]. *)
Definition member_id (m : json) : answer Z :=
  match get m "id" JNull with
  | Returns id => int id
  | Raises e => Raises e
  end.

(** A row of the snapshot, lines 159 to 168. *)
Record row : Type := mkRow {
  row_user_id : Z;
  row_name : json;
  row_position : json;
  row_level : json;
  row_xantaken : option Z;
  row_export_date : string
}.

(** The session of a whole run answers the requests in the order in
    which they are sent; a call that starts after [sent] requests sees
    the answers from there on. *)
Definition later (session : Session) (sent : nat) : Session :=
  fun i => session (sent + i)%nat.

(** The loop of lines 146 to 172 over the members that are left, [sent]
    requests having been sent so far. *)
Fixpoint collect (session : Session) (api_key : string) (sleep : Q)
    (today : string) (members : list json) (sent : nat)
  : answer (list row) * list event :=
  match members with
  | [] => (Returns [], [])
  | m :: rest =>
      match member_id m with
      | Raises e => (Raises e, [])
      | Returns user_id =>
      match get m "name" JNull with
      | Raises e => (Raises e, [])
      | Returns name =>
      match get m "position" JNull with
      | Raises e => (Raises e, [])
      | Returns position =>
      match get m "level" JNull with
      | Raises e => (Raises e, [])
      | Returns level =>
          let '(x, t) := get_member_xantaken (later session sent) api_key
                           user_id in
          let xantaken := match x with
                          | Returns v => v
                          | Raises _ => None
                          end in
          let t := (t ++ if negb (Qle_bool sleep 0) then [Sleep sleep]
                         else [])%list in
          let '(r, t') := collect session api_key sleep today rest
                            (sent + length (requests_of t))%nat in
          (match r with
           | Returns rows =>
               Returns ({| row_user_id := user_id; row_name := name;
                           row_position := position; row_level := level;
                           row_xantaken := xantaken;
                           row_export_date := today |} :: rows)
           | Raises e => Raises e
           end, (t ++ t')%list)
      end end end end
  end.

(** What the loop makes of the member [m]: the row [r]. *)
Definition row_of (session : Session) (api_key today : string)
    (m : json) (r : row) : Prop :=
  member_id m = Returns (row_user_id r)
  /\ get m "name" JNull = Returns (row_name r)
  /\ get m "position" JNull = Returns (row_position r)
  /\ get m "level" JNull = Returns (row_level r)
  /\ row_export_date r = today
  /\ exists sent,
       row_xantaken r
       = match fst (get_member_xantaken (later session sent) api_key
                      (row_user_id r)) with
         | Returns v => v
         | Raises _ => None
         end.

(** What a run of [main] ends with: the exit code 2 without a key, the
    snapshot that is written, or an exception. *)
Inductive run : Type :=
| MissingKey
| Wrote (out : Path) (rows : list row)
| Failed (e : error).

(** Lines 135 to 185, for the parsed arguments and the day of the run. *)
Definition main (session : Session) (key : option string) (faction_id : Z)
    (sleep : Q) (outdir : string) (today : date) : run * list event :=
  match key with
  | None => (MissingKey, [])
  | Some api_key =>
      if String.eqb api_key "" then (MissingKey, [])
      else
        let '(r, t) := get_faction_members session api_key faction_id in
        match r with
        | Raises e => (Failed e, t)
        | Returns members =>
            let '(r', t') := collect session api_key sleep (isoformat today)
                               members (length (requests_of t)) in
            (match r' with
             | Returns rows => Wrote (out_path outdir faction_id today) rows
             | Raises e => Failed e
             end, (t ++ t')%list)
        end
  end.

End Documents.

End Exporter.

(** ** Two snapshot files

    The inputs on which the statements below are evaluated: conversions
    for the cells that occur in them, and a file system of three
    snapshot files.  The first file has no date column and is dated by
    its name, 4 January 2024; the second is dated by its column,
    1 January 2024, and holds its values as text; the third lacks the
    stat column. *)

Module Example.

Definition str_of_num (q : Q) : string := Fetcher.str_of_Z (Qnum q).

Fixpoint digits (s : string) (acc : Z) : option Z :=
  match s with
  | EmptyString => Some acc
  | String c rest =>
      if is_digit c then digits rest (acc * 10 + digit_val c) else None
  end.

Definition parse_num (s : string) : option Q :=
  if String.eqb s "" then None
  else match digits s 0 with
       | Some z => Some (inject_Z z)
       | None => None
       end.

Definition to_datetime (v : value) : result date :=
  match v with
  | Str s =>
      match match_date_at s with
      | Some m =>
          if (String.length s =? 10)%nat then date_fromisoformat m
          else Raise (ValueError "Unknown datetime string format")
      | None => Raise (ValueError "Unknown datetime string format")
      end
  | _ => Raise (TypeError "not convertible to datetime")
  end.

Definition later_csv : DataFrame :=
  {| columns := ["user_id"; "name"; "position"; "xantaken"];
     rows :=
       [ list_to_map [("user_id", Num 7); ("name", Str "Mo");
                      ("position", Str "Leader"); ("xantaken", Num 15)];
         list_to_map [("user_id", Num 9); ("name", Str "Nu");
                      ("position", NaN); ("xantaken", Num 5)] ] |}.

Definition earlier_csv : DataFrame :=
  {| columns := ["user_id"; "name"; "xantaken"; "export_date"];
     rows :=
       [ list_to_map [("user_id", Num 7); ("name", Str "Mo");
                      ("xantaken", Str "3");
                      ("export_date", Str "2024-01-01")];
         list_to_map [("user_id", Num 8); ("name", Str "Ka");
                      ("xantaken", Str "unknown");
                      ("export_date", Str "2024-01-01")] ] |}.

Definition broken_csv : DataFrame :=
  {| columns := ["user_id"; "name"];
     rows := [ list_to_map [("user_id", Num 7); ("name", Str "Mo")] ] |}.

Definition read_csv (p : Path) : result DataFrame :=
  if String.eqb (name p) "faction_1_xantaken_2024-01-04.csv" then Ok later_csv
  else if String.eqb (name p) "first.csv" then Ok earlier_csv
  else if String.eqb (name p) "broken.csv" then Ok broken_csv
  else Raise (OSError "No such file or directory").

Definition later_path : Path :=
  {| parent := "snapshots"; name := "faction_1_xantaken_2024-01-04.csv" |}.
Definition earlier_path : Path := {| parent := ""; name := "first.csv" |}.
Definition broken_path : Path := {| parent := ""; name := "broken.csv" |}.

Definition load (p : Path) : result DataFrame :=
  _load_snapshot str_of_num parse_num read_csv p.

Definition report_of (a b : Path)
  : result (DataFrame * option date * option date * option Z) :=
  build_report str_of_num parse_num to_datetime read_csv a b.

(** The table of a result, the empty table for an exception. *)
Definition table_of {A} (r : result A) (f : A -> DataFrame) : DataFrame :=
  match r with
  | Ok a => f a
  | Raise _ => {| columns := []; rows := [] |}
  end.

Definition loaded (p : Path) : DataFrame := table_of (load p) (fun df => df).

Definition report (a b : Path) : DataFrame :=
  table_of (report_of a b) (fun r => fst (fst (fst r))).

End Example.

(** ** Two sessions

    A session that is rate limited twice, by the HTTP status and then by
    the API error code 5, before it answers with a document; and a
    session whose network is down. *)

Module Sessions.
Import Fetcher.

Definition throttled : Session :=
  fun i _ =>
    match i with
    | 0%nat => Response 429 "Too Many Requests" NotJson
    | 1%nat => Response 200 "" (JsonError (Some 5) "Too many requests")
    | _ => Response 200 "" (JsonData "members")
    end.

Definition down : Session := fun _ _ => RequestException "timed out".

Definition members_url : string :=
  "https://api.torn.com/v2/faction/22631/members".


End Sessions.

(** ** A run of the export

    A faction of two members.  The API answers the request for the
    members, then the request for the statistics of member 7 with the
    value 15, then the one for member 9, whose identifier is a text,
    with a document that has no statistics. *)

Module Run.
Import Fetcher Exporter.

Definition document (data : string) : json :=
  if String.eqb data "members" then
    JDict [("members",
            JList [JDict [("id", JInt 7); ("name", JStr "Mo");
                          ("position", JStr "Leader"); ("level", JInt 10)];
                   JDict [("id", JStr "9"); ("name", JStr "Nu")]])]
  else if String.eqb data "stats" then
    JDict [("personalstats",
            JList [JDict [("name", JStr "xantaken"); ("value", JInt 15)]])]
  else JDict [].

Definition int_of_str (s : string) : option Z :=
  if String.eqb s "" then None else Example.digits s 0.

Definition api : Session :=
  fun i _ =>
    match i with
    | 0%nat => Response 200 "" (JsonData "members")
    | 1%nat => Response 200 "" (JsonData "stats")
    | _ => Response 200 "" (JsonData "empty")
    end.

Definition today : date := {| year := 2024; month := 1; day := 4 |}.

Definition members : list json :=
  [JDict [("id", JInt 7); ("name", JStr "Mo");
          ("position", JStr "Leader"); ("level", JInt 10)];
   JDict [("id", JStr "9"); ("name", JStr "Nu")]].

End Run.

(** * Properties *)

(** ** Cells, columns and text order *)

Lemma has_col_In c l : has_col c l = true <-> In c l.
Proof.
  unfold has_col. rewrite existsb_exists. split.
  - intros (x & Hx & E). apply String.eqb_eq in E. now subst.
  - intros H. exists c. split; [assumption | apply String.eqb_refl].
Qed.

Lemma has_col_false c l : has_col c l = false <-> ~ In c l.
Proof.
  rewrite <- has_col_In. destruct (has_col c l); split; congruence.
Qed.

Lemma cell_insert (r : gmap string value) c v k :
  cell (<[c := v]> r) k = if String.eqb k c then v else cell r k.
Proof.
  unfold cell. destruct (String.eqb_spec k c) as [->|Hne].
  - now rewrite lookup_insert_eq.
  - rewrite lookup_insert_ne; [reflexivity | congruence].
Qed.

Lemma lookup_keyed_None {B} (f : B -> string) (g : B -> value) l k :
  ~ In k (map f l) ->
  (list_to_map (map (fun c => (f c, g c)) l) : gmap string value) !! k = None.
Proof.
  intros H. apply not_elem_of_list_to_map_1.
  rewrite list_elem_of_In, map_map. exact H.
Qed.



(** ** Orders *)

Lemma Qle_bool_total p q : Qle_bool p q = true \/ Qle_bool q p = true.
Proof.
  rewrite !Qle_bool_iff. destruct (Qlt_le_dec p q) as [H|H].
  - left. now apply Qlt_le_weak.
  - now right.
Qed.


Lemma value_leb_total x y : value_leb x y = true \/ value_leb y x = true.
Proof.
  destruct x, y; simpl; auto using Qle_bool_total, String.leb_total.
Qed.






(** ** The stable sort *)

Section SortFacts.
Context {A : Type} (leb : A -> A -> bool).
Hypothesis leb_total : forall x y, leb x y = true \/ leb y x = true.
Hypothesis leb_trans :
  forall x y z, leb x y = true -> leb y z = true -> leb x z = true.

Lemma insert_sorted_perm x l : Permutation (x :: l) (insert_sorted leb x l).
Proof.
  induction l as [|y l IH]; simpl; [reflexivity|].
  destruct (leb x y); [reflexivity|].
  rewrite perm_swap. now constructor.
Qed.

Lemma stable_sort_perm l : Permutation l (stable_sort leb l).
Proof.
  induction l as [|x l IH]; simpl; [constructor|].
  rewrite <- insert_sorted_perm. now constructor.
Qed.





End SortFacts.

(** ** The fetcher's credential *)

Lemma attempts_requests session req n : forall i backoff last_err r,
  In r (Fetcher.requests_of
          (snd (Fetcher.attempts session req n i backoff last_err))) ->
  r = req.
Proof.
  induction n as [|n IH]; intros i backoff last_err r; simpl.
  - intros [].
  - assert (R : forall m,
      In r (Fetcher.requests_of
              (snd (let '(r0, t) :=
                      Fetcher.attempts session req n (S i)
                        (backoff * 1.7)%Q (Some m) in
                    (r0, Fetcher.Get req :: Fetcher.Sleep backoff :: t)))) ->
      r = req).
    { intros m. specialize (IH (S i) (backoff * 1.7)%Q (Some m) r).
      destruct (Fetcher.attempts session req n (S i) _ _) as [r0 t].
      simpl in *. intros [H|H]; [congruence | auto]. }
    destruct (session i req) as [e|status text json]; [apply R|].
    destruct (status =? 429); [apply R|].
    destruct (negb _); [apply R|].
    destruct json as [|code msg|data]; [apply R| |].
    + destruct (bool_decide _); [apply R|].
      simpl. intros [H|[]]. congruence.
    + simpl. intros [H|[]]. congruence.
Qed.

(** C9 (the code departs from it).  The specification has every request
    authenticate with the credential the caller supplies.  In the code
    the result and the requests of [torn_get] are the same for any two
    [api_key] arguments, and every request carries one fixed
    [Authorization] header: the parameter is never used. *)
Theorem torn_get_ignores_api_key :
  forall session url params timeout max_retries (key1 key2 : string),
    Fetcher.torn_get session url key1 params timeout max_retries
    = Fetcher.torn_get session url key2 params timeout max_retries
    /\ forall r,
         In r (Fetcher.requests_of
                 (snd (Fetcher.torn_get session url key1 params timeout
                         max_retries))) ->
         Fetcher.authorization r = Some "ApiKey xOZ42wvjt01rhnl9".
Proof.
  intros. split; [reflexivity|].
  intros r Hr. unfold Fetcher.torn_get in Hr.
  apply attempts_requests in Hr. now subst r.
Qed.

(** The same on a run: a session that answers the first request with a
    document is sent one request, whose credential is neither of the two
    keys. *)
Example torn_get_two_keys :
  let session : Fetcher.Session :=
    fun _ _ => Fetcher.Response 200 "{}" (Fetcher.JsonData "{}") in
  let sent k :=
    map Fetcher.authorization
      (Fetcher.requests_of
         (snd (Fetcher.torn_get session
                 "https://api.torn.com/v2/faction/1/members"
                 k [("striptags", "true")] 30 5))) in
  sent "FIRST-KEY" = [Some "ApiKey xOZ42wvjt01rhnl9"]
  /\ sent "SECOND-KEY" = [Some "ApiKey xOZ42wvjt01rhnl9"].
Proof. split; reflexivity. Qed.

(** ** Texts *)

Lemma append_assoc (s t u : string) : (s ++ t) ++ u = s ++ (t ++ u).
Proof.
  induction s as [|a s IH]; [reflexivity|].
  change (String a ((s ++ t) ++ u) = String a (s ++ (t ++ u))).
  now rewrite IH.
Qed.

Lemma append_empty_r (s : string) : s ++ "" = s.
Proof.
  induction s as [|a s IH]; [reflexivity|].
  change (String a (s ++ "") = String a s). now rewrite IH.
Qed.

Lemma contains_refl s : contains s s.
Proof. exists "", "". now rewrite append_empty_r. Qed.

Lemma contains_append_l s t sub : contains s sub -> contains (s ++ t) sub.
Proof.
  intros (pre & post & ->). exists pre, (post ++ t).
  now rewrite !append_assoc.
Qed.

Lemma contains_append_r s t sub : contains t sub -> contains (s ++ t) sub.
Proof.
  intros (pre & post & ->). exists (s ++ pre), post.
  now rewrite !append_assoc.
Qed.

Lemma join_contains sep l c : In c l -> contains (join sep l) c.
Proof.
  induction l as [|x l IH]; [intros []|].
  intros [->|H].
  - destruct l as [|y l]; [apply contains_refl|].
    apply contains_append_l, contains_refl.
  - destruct l as [|y l]; [destruct H|].
    change (contains (x ++ sep ++ join sep (y :: l)) c).
    now apply contains_append_r, contains_append_r, IH.
Qed.

Lemma Forall2_map_self {A B} (P : A -> B -> Prop) (h : A -> B) l :
  (forall x, P x (h x)) -> Forall2 P l (map h l).
Proof. intros H. induction l; simpl; constructor; auto. Qed.

(** ** Loading a snapshot *)

Section LoadFacts.
Variable str_of_num : Q -> string.
Variable parse_num : string -> option Q.
Variable read_csv : Path -> result DataFrame.

Abbreviation load := (_load_snapshot str_of_num parse_num read_csv).

Lemma missing_columns_nil df :
  missing_columns df = [] <->
  In "user_id" (columns df) /\ In "xantaken" (columns df).
Proof.
  unfold missing_columns, required. simpl.
  rewrite <- !has_col_In.
  destruct (has_col "user_id" (columns df)),
           (has_col "xantaken" (columns df)); simpl;
    intuition congruence.
Qed.

Lemma missing_columns_In df c :
  In c (missing_columns df) <-> In c required /\ ~ In c (columns df).
Proof.
  unfold missing_columns. rewrite filter_In, negb_true_iff, has_col_false.
  tauto.
Qed.

(** The columns of a loaded table are those of the file. *)
Lemma load_snapshot_columns path raw df :
  read_csv path = Ok raw -> load path = Ok df ->
  columns df = columns raw /\ missing_columns raw = [].
Proof.
  unfold _load_snapshot, bind. intros ->.
  destruct (missing_columns raw) eqn:M; [|discriminate].
  intros [= <-]. split; [|reflexivity].
  apply missing_columns_nil in M as [Hu Hx].
  apply has_col_In in Hu, Hx. simpl. rewrite Hu. simpl. now rewrite Hx.
Qed.

(** C6.  For a snapshot file that holds a table: loading fails if and
    only if one of the two mandatory columns, [user_id] and [xantaken],
    is absent; the error message then starts with the file and contains
    every missing column; and when both columns are present the load
    succeeds whatever the cells hold, row by row, a stat cell that is a
    text which is not a number becoming null. *)
Theorem load_snapshot_fails_iff_column_missing :
  forall (path : Path) (raw : DataFrame),
    read_csv path = Ok raw ->
    ((exists e, load path = Raise e) <->
     (~ In "user_id" (columns raw) \/ ~ In "xantaken" (columns raw)))
    /\ (forall e, load path = Raise e ->
          exists msg rest,
            e = ValueError msg /\ msg = path_str path ++ rest
            /\ forall c, In c ["user_id"; "xantaken"] ->
                 ~ In c (columns raw) -> contains msg c)
    /\ (In "user_id" (columns raw) -> In "xantaken" (columns raw) ->
        exists df,
          load path = Ok df
          /\ Forall2 (fun r r' =>
                        cell r' "user_id"
                        = astype_str str_of_num (cell r "user_id")
                        /\ cell r' "xantaken"
                           = to_numeric parse_num (cell r "xantaken")
                        /\ (forall s, cell r "xantaken" = Str s ->
                              parse_num s = None -> cell r' "xantaken" = NaN))
               (rows raw) (rows df)).
Proof.
  intros path raw Hraw.
  unfold _load_snapshot, bind. rewrite Hraw.
  pose proof (missing_columns_nil raw) as Hnil.
  pose proof (missing_columns_In raw) as Hin.
  destruct (missing_columns raw) as [|m ms] eqn:M.
  - destruct Hnil as [Hnil _]. specialize (Hnil eq_refl) as [Hu Hx].
    split; [|split].
    + split; [intros [e He]; discriminate | tauto].
    + intros e He. discriminate.
    + intros _ _. eexists. split; [reflexivity|].
      simpl. rewrite map_map. apply Forall2_map_self. intros r.
      rewrite !cell_insert. simpl. split; [reflexivity|].
      split; [reflexivity|]. intros s -> Hs. simpl. now rewrite Hs.
  - assert (Hmiss : ~ (In "user_id" (columns raw)
                       /\ In "xantaken" (columns raw))).
    { intros H. apply Hnil in H. discriminate. }
    split; [|split].
    + split; [intros _|intros _; eauto].
      rewrite <- !has_col_false. apply Decidable.not_and in Hmiss.
      * rewrite <- !has_col_false in Hmiss. exact Hmiss.
      * unfold Decidable.decidable. rewrite <- has_col_In.
        destruct (has_col "user_id" (columns raw)); intuition congruence.
    + intros e [= <-]. unfold missing_message.
      eexists _, _. split; [reflexivity|]. split; [reflexivity|].
      intros c Hc Hn. apply contains_append_r, contains_append_r.
      apply contains_append_l. apply join_contains.
      rewrite M. apply Hin. now split.
    + intros Hu Hx. tauto.
Qed.

End LoadFacts.

(** ** Resolving the reference date *)


Lemma first_nonnull_spec s v :
  first_nonnull s = Some v <->
  exists pre post,
    s = (pre ++ v :: post)%list /\ Forall (fun x => x = NaN) pre /\ v <> NaN.
Proof.
  unfold first_nonnull. split.
  - induction s as [|x s IH]; [discriminate|]. simpl.
    destruct x as [|q|t]; simpl.
    + intros H. destruct (IH H) as (pre & post & -> & Hpre & Hv).
      exists (NaN :: pre), post. split; [reflexivity|].
      split; [now constructor | assumption].
    + intros [= <-]. exists [], s. split; [reflexivity|].
      split; [constructor | discriminate].
    + intros [= <-]. exists [], s. split; [reflexivity|].
      split; [constructor | discriminate].
  - intros (pre & post & -> & Hpre & Hv).
    induction Hpre as [|x pre -> _ IH]; simpl; [|exact IH].
    now destruct v.
Qed.


(** The pattern search returns the leftmost place where it matches. *)
Lemma DATE_RE_search_leftmost s m :
  DATE_RE_search s = Some m ->
  exists pre post,
    s = pre ++ post /\ match_date_at post = Some m
    /\ forall p q, pre = p ++ q -> q <> "" -> match_date_at (q ++ post) = None.
Proof.
  induction s as [|a s IH].
  - simpl. discriminate.
  - cbn [DATE_RE_search]. destruct (match_date_at (String a s)) as [m0|] eqn:E.
    + intros [= <-]. exists "", (String a s). repeat split; auto.
      intros p q Hp Hq. destruct p, q; try discriminate. congruence.
    + intros H. destruct (IH H) as (pre & post & -> & Hm & Hleft).
      exists (String a pre), post. repeat split; auto.
      intros p q Hp Hq. destruct p as [|b p].
      * change ("" ++ q) with q in Hp. subst q. exact E.
      * change (String b p ++ q) with (String b (p ++ q)) in Hp.
        injection Hp as _ Hp. now apply Hleft with p.
Qed.

Lemma DATE_RE_search_None s :
  DATE_RE_search s = None ->
  forall pre post, s = pre ++ post -> match_date_at post = None.
Proof.
  induction s as [|a s IH]; cbn [DATE_RE_search].
  - intros _ pre post H. destruct pre, post; try discriminate. reflexivity.
  - destruct (match_date_at (String a s)) as [m0|] eqn:E; [discriminate|].
    intros H pre post Hs. destruct pre as [|b pre].
    + change ("" ++ post) with post in Hs. now subst post.
    + change (String b pre ++ post) with (String b (pre ++ post)) in Hs.
      injection Hs as _ Hs. now apply IH with pre.
Qed.

Section DateFacts.
Variable to_datetime : value -> result date.

Abbreviation resolve_date := (_parse_date_from_df_or_filename to_datetime).

Lemma date_from_filename_eq path :
  date_from_filename path
  = Ok (match DATE_RE_search (name path) with
        | Some (y, m, d) =>
            if valid_date y m d then Some (mkDate y m d) else None
        | None => None
        end).
Proof.
  unfold date_from_filename, date_fromisoformat.
  destruct (DATE_RE_search (name path)) as [[[y m] d]|]; [|reflexivity].
  now destruct (valid_date y m d).
Qed.

Lemma resolve_date_Ok df path : exists d, resolve_date df path = Ok d.
Proof.
  unfold _parse_date_from_df_or_filename.
  pose proof (date_from_filename_eq path) as F.
  destruct (has_col "export_date" (columns df)); [|rewrite F; eauto].
  destruct (dropna (column df "export_date")) as [|v l]; [rewrite F; eauto|].
  destruct (to_datetime v); [eauto | rewrite F; eauto].
Qed.


End DateFacts.

(** ** Start date, end date, days between *)

Lemma date_leb_refl a : date_leb a a = true.
Proof. unfold date_leb. rewrite !Z.ltb_irrefl. apply Z.leb_refl. Qed.

Lemma date_leb_total a b : date_leb a b = false -> date_leb b a = true.
Proof.
  unfold date_leb.
  destruct (Z.ltb_spec (year a) (year b)), (Z.ltb_spec (year b) (year a)),
    (Z.ltb_spec (month a) (month b)), (Z.ltb_spec (month b) (month a));
    try congruence; try lia.
  all: rewrite Z.leb_gt, Z.leb_le; lia.
Qed.

Lemma date_leb_antisym a b :
  date_leb a b = true -> date_leb b a = true -> a = b.
Proof.
  destruct a as [ya ma da], b as [yb mb db]. unfold date_leb. simpl.
  destruct (Z.ltb_spec ya yb), (Z.ltb_spec yb ya),
    (Z.ltb_spec ma mb), (Z.ltb_spec mb ma);
    try congruence; try lia.
  all: rewrite !Z.leb_le; intros; f_equal; lia.
Qed.

Lemma date_span_swap a b :
  date_span (Some a) (Some b) = date_span (Some b) (Some a).
Proof.
  unfold date_span, days_from.
  assert (E : Z.abs (toordinal b - toordinal a)
              = Z.abs (toordinal a - toordinal b)) by lia.
  rewrite E.
  destruct (date_leb a b) eqn:L1, (date_leb b a) eqn:L2; try reflexivity.
  - now rewrite (date_leb_antisym a b L1 L2).
  - apply date_leb_total in L1. congruence.
Qed.

(** ** Columns and rows of the joined table *)

Lemma with_column_columns c f df k :
  In k (columns (with_column c f df)) <-> In k (columns df) \/ k = c.
Proof.
  unfold with_column. simpl. destruct (has_col c (columns df)) eqn:E.
  - apply has_col_In in E. split; [auto|]. intros [H| ->]; assumption.
  - rewrite in_app_iff. simpl. intuition.
Qed.

Lemma add_meta_columns df c k :
  In k (columns (add_meta df c)) -> In k (columns df) \/ k = c.
Proof.
  unfold add_meta.
  destruct (_ && _); [apply with_column_columns|].
  destruct (has_col (c ++ "_b") _); [apply with_column_columns|].
  destruct (has_col (c ++ "_a") _); [apply with_column_columns|]. auto.
Qed.

Lemma add_meta_columns_mono df c k :
  In k (columns df) -> In k (columns (add_meta df c)).
Proof.
  intros H. unfold add_meta.
  destruct (_ && _); [apply with_column_columns; auto|].
  destruct (has_col (c ++ "_b") _); [apply with_column_columns; auto|].
  destruct (has_col (c ++ "_a") _); [apply with_column_columns; auto|]. auto.
Qed.

Lemma fold_add_meta_columns cs : forall df k,
  In k (columns (fold_left add_meta cs df)) -> In k (columns df) \/ In k cs.
Proof.
  induction cs as [|c cs IH]; intros df k; simpl; [auto|].
  intros H. apply IH in H as [H|H]; [|auto].
  apply add_meta_columns in H. intuition.
Qed.

Lemma fold_add_meta_columns_mono cs : forall df k,
  In k (columns df) -> In k (columns (fold_left add_meta cs df)).
Proof.
  induction cs as [|c cs IH]; intros df k H; simpl; [assumption|].
  now apply IH, add_meta_columns_mono.
Qed.

Lemma add_meta_rows df c :
  Forall2 (fun m0 m => forall k, k <> c -> cell m k = cell m0 k)
    (rows df) (rows (add_meta df c)).
Proof.
  assert (W : forall f,
    Forall2 (fun m0 m => forall k, k <> c -> cell m k = cell m0 k)
      (rows df) (rows (with_column c f df))).
  { intros f. simpl. apply Forall2_map_self. intros r k Hk.
    rewrite cell_insert. destruct (String.eqb_spec k c); congruence. }
  unfold add_meta.
  destruct (_ && _); [apply W|].
  destruct (has_col (c ++ "_b") _); [apply W|].
  destruct (has_col (c ++ "_a") _); [apply W|].
  rewrite <- (map_id (rows df)) at 2. now apply Forall2_map_self.
Qed.

Lemma fold_add_meta_rows cs : forall df,
  Forall2 (fun m0 m => forall k, ~ In k cs -> cell m k = cell m0 k)
    (rows df) (rows (fold_left add_meta cs df)).
Proof.
  induction cs as [|c cs IH]; intros df; simpl.
  - rewrite <- (map_id (rows df)) at 2. now apply Forall2_map_self.
  - pose proof (add_meta_rows df c) as H1.
    specialize (IH (add_meta df c)).
    revert H1 IH. generalize (rows (fold_left add_meta cs (add_meta df c))).
    generalize (rows (add_meta df c)). generalize (rows df).
    intros l1 l2 l3 H1. revert l3.
    induction H1 as [|x y l1 l2 Hxy _ IHl]; intros l3 H2.
    + inversion H2. constructor.
    + inversion H2 as [|y' z l2' l3' Hyz Hrest]; subst.
      constructor; [|now apply IHl].
      intros k Hk.
      assert (k <> c /\ ~ In k cs) as [Hc Hn]
        by (simpl in Hk; split; [intros ->|]; tauto).
      rewrite Hyz by exact Hn. now apply Hxy.
Qed.

Lemma meta_cols_In df_a df_b c :
  In c (meta_cols df_a df_b) <->
  In c ["name"; "position"; "level"]
  /\ (In c (columns df_a) \/ In c (columns df_b)).
Proof.
  unfold meta_cols. rewrite filter_In, orb_true_iff, !has_col_In. tauto.
Qed.

Lemma suffixed_user_id sfx metas cols :
  ~ In "user_id" metas -> suffixed sfx metas cols "user_id" = "user_id".
Proof.
  intros H. apply has_col_false in H. unfold suffixed. simpl. now rewrite H.
Qed.

Lemma meta_cols_not_key df_a df_b k :
  In k ["user_id"; "xantaken"; "xantaken_a"; "xantaken_b"; "diff_xantaken";
        "xantaken_min"; "xantaken_max"; "avg_xantaken_per_day"; "status"] ->
  ~ In k (meta_cols df_a df_b).
Proof.
  intros Hk H. apply meta_cols_In in H as [H _].
  simpl in Hk, H. intuition (subst; discriminate).
Qed.

Lemma side_columns sfx df_a df_b df :
  columns (side sfx (meta_cols df_a df_b) df)
  = "user_id" :: ("xantaken" ++ sfx)
    :: map (suffixed sfx (meta_cols df_a df_b)
              (keep (meta_cols df_a df_b) df))
         (List.filter (fun c => has_col c (columns df))
            (meta_cols df_a df_b)).
Proof.
  unfold side, rename, select, keep. cbn [columns map app].
  rewrite suffixed_user_id; [reflexivity|].
  apply meta_cols_not_key. now left.
Qed.

Lemma joined_columns df_a df_b k :
  In k ["user_id"; "xantaken_a"; "xantaken_b"] ->
  In k (columns (joined df_a df_b)).
Proof.
  unfold joined, merge_outer. cbn [columns].
  unfold other_cols. rewrite !side_columns, in_app_iff.
  change ("xantaken" ++ "_a") with "xantaken_a".
  change ("xantaken" ++ "_b") with "xantaken_b".
  intros Hk. cbn [In] in Hk. destruct Hk as [<-|[<-|[<-|[]]]].
  - left. cbn [In]. auto.
  - left. cbn [In]. auto.
  - right. simpl. auto.
Qed.

(** ** The derived columns *)

Lemma Forall2_compose {A B C} (R : A -> B -> Prop) (S : B -> C -> Prop)
    (T : A -> C -> Prop) l1 l2 l3 :
  (forall x y z, R x y -> S y z -> T x z) ->
  Forall2 R l1 l2 -> Forall2 S l2 l3 -> Forall2 T l1 l3.
Proof.
  intros H H1. revert l3.
  induction H1 as [|x y l1 l2 Hxy _ IH]; intros l3 H2; inversion H2; subst;
    constructor; eauto.
Qed.

Lemma Forall2_In_r {A B} (R : A -> B -> Prop) l1 l2 y :
  Forall2 R l1 l2 -> In y l2 -> exists x, In x l1 /\ R x y.
Proof.
  induction 1 as [|x y' l1 l2 Hxy _ IH]; [intros []|].
  intros [<-|H]; [exists x; split; [now left | assumption]|].
  destruct (IH H) as (x' & Hx' & HR). exists x'.
  split; [now right | assumption].
Qed.

Lemma Forall2_In_l {A B} (R : A -> B -> Prop) l1 l2 x :
  Forall2 R l1 l2 -> In x l1 -> exists y, In y l2 /\ R x y.
Proof.
  induction 1 as [|x' y l1 l2 Hxy _ IH]; [intros []|].
  intros [<-|H]; [exists y; split; [now left | assumption]|].
  destruct (IH H) as (y' & Hy' & HR). exists y'.
  split; [now right | assumption].
Qed.

Lemma status_depends (m m' : gmap string value) :
  cell m "xantaken_a" = cell m' "xantaken_a" ->
  cell m "xantaken_b" = cell m' "xantaken_b" ->
  cell m "avg_xantaken_per_day" = cell m' "avg_xantaken_per_day" ->
  _status m = _status m'.
Proof. unfold _status. now intros -> -> ->. Qed.

(** The rows after [df[c] = f(row)]: the new cell, the others kept. *)
Lemma with_column_rows c f df :
  Forall2 (fun r m =>
             cell m c = f r
             /\ forall k, String.eqb k c = false -> cell m k = cell r k)
    (rows df) (rows (with_column c f df)).
Proof.
  cbn [rows with_column]. apply Forall2_map_self. intros r. split.
  - rewrite cell_insert. now rewrite String.eqb_refl.
  - intros k Hk. rewrite cell_insert. now rewrite Hk.
Qed.

Lemma merged_frame_rows df_a df_b days_between :
  Forall2 (fun m0 m =>
             derived_row days_between m0 m
             /\ cell m "xantaken_min"
                = row_min [cell m0 "xantaken_a"; cell m0 "xantaken_b"]
             /\ cell m "xantaken_max"
                = row_max [cell m0 "xantaken_a"; cell m0 "xantaken_b"])
    (rows (joined df_a df_b))
    (rows (merged_frame df_a df_b days_between)).
Proof.
  unfold merged_frame.
  set (base := fold_left add_meta (meta_cols df_a df_b) (joined df_a df_b)).
  set (f1 := fun r : gmap string value =>
               num_sub (cell r "xantaken_b") (cell r "xantaken_a")).
  set (f2 := fun r : gmap string value =>
               row_min [cell r "xantaken_a"; cell r "xantaken_b"]).
  set (f3 := fun r : gmap string value =>
               row_max [cell r "xantaken_a"; cell r "xantaken_b"]).
  set (df3 := with_column "xantaken_max" f3
                (with_column "xantaken_min" f2
                   (with_column "diff_xantaken" f1 base))).
  set (f4 := fun r : gmap string value =>
               match days_between with
               | None => NaN
               | Some n =>
                   if n =? 0 then NaN
                   else num_div (num_sub (cell r "xantaken_max")
                                   (cell r "xantaken_min")) n
               end).
  assert (E4 : match days_between with
               | None => with_column "avg_xantaken_per_day" (fun _ => NaN) df3
               | Some n =>
                   if n =? 0
                   then with_column "avg_xantaken_per_day" (fun _ => NaN) df3
                   else with_column "avg_xantaken_per_day"
                          (fun r => num_div (num_sub (cell r "xantaken_max")
                                               (cell r "xantaken_min")) n) df3
               end = with_column "avg_xantaken_per_day" f4 df3).
  { unfold f4. destruct days_between as [n|]; [|reflexivity].
    now destruct (n =? 0). }
  rewrite E4. clear E4.
  pose proof (fold_add_meta_rows (meta_cols df_a df_b) (joined df_a df_b))
    as S0.
  fold base in S0.
  pose proof (with_column_rows "diff_xantaken" f1 base) as S1.
  pose proof (with_column_rows "xantaken_min" f2
                (with_column "diff_xantaken" f1 base)) as S2.
  pose proof (with_column_rows "xantaken_max" f3
                (with_column "xantaken_min" f2
                   (with_column "diff_xantaken" f1 base))) as S3.
  fold df3 in S3.
  pose proof (with_column_rows "avg_xantaken_per_day" f4 df3) as S4.
  pose proof (with_column_rows "status" _status
                (with_column "avg_xantaken_per_day" f4 df3)) as S5.
  revert S0 S1 S2 S3 S4 S5.
  generalize (rows (with_column "status" _status
                      (with_column "avg_xantaken_per_day" f4 df3))).
  generalize (rows (with_column "avg_xantaken_per_day" f4 df3)).
  generalize (rows df3).
  generalize (rows (with_column "xantaken_min" f2
                      (with_column "diff_xantaken" f1 base))).
  generalize (rows (with_column "diff_xantaken" f1 base)).
  generalize (rows base). generalize (rows (joined df_a df_b)).
  intros l l0 l1 l2 l3 l4 l5 S0 S1 S2 S3 S4 S5.
  assert (K : forall k,
             In k ["user_id"; "xantaken_a"; "xantaken_b"] ->
             ~ In k (meta_cols df_a df_b)).
  { intros k Hk. apply meta_cols_not_key. cbn [In] in *. tauto. }
  assert (T1 : Forall2
    (fun m0 m1 => cell m1 "user_id" = cell m0 "user_id"
                  /\ cell m1 "xantaken_a" = cell m0 "xantaken_a"
                  /\ cell m1 "xantaken_b" = cell m0 "xantaken_b"
                  /\ cell m1 "diff_xantaken"
                     = num_sub (cell m0 "xantaken_b") (cell m0 "xantaken_a"))
    l l1).
  { refine (Forall2_compose _ _ _ _ _ _ _ S0 S1).
    intros x y z Hxy [Hd Hk];
          rewrite Hd; rewrite !Hk by reflexivity; unfold f1;
          rewrite !Hxy by (apply K; cbn [In]; auto); auto. }
  assert (T2 : Forall2
    (fun m0 m2 => cell m2 "user_id" = cell m0 "user_id"
                  /\ cell m2 "xantaken_a" = cell m0 "xantaken_a"
                  /\ cell m2 "xantaken_b" = cell m0 "xantaken_b"
                  /\ cell m2 "diff_xantaken"
                     = num_sub (cell m0 "xantaken_b") (cell m0 "xantaken_a")
                  /\ cell m2 "xantaken_min"
                     = row_min [cell m0 "xantaken_a"; cell m0 "xantaken_b"])
    l l2).
  { refine (Forall2_compose _ _ _ _ _ _ _ T1 S2).
    intros x y z (Hu & Ha & Hb & Hd) [Hv Hk];
          rewrite Hv; rewrite !Hk by reflexivity; unfold f2;
          rewrite Hu, Ha, Hb, Hd; auto. }
  assert (T3 : Forall2
    (fun m0 m3 => cell m3 "user_id" = cell m0 "user_id"
                  /\ cell m3 "xantaken_a" = cell m0 "xantaken_a"
                  /\ cell m3 "xantaken_b" = cell m0 "xantaken_b"
                  /\ cell m3 "diff_xantaken"
                     = num_sub (cell m0 "xantaken_b") (cell m0 "xantaken_a")
                  /\ cell m3 "xantaken_min"
                     = row_min [cell m0 "xantaken_a"; cell m0 "xantaken_b"]
                  /\ cell m3 "xantaken_max"
                     = row_max [cell m0 "xantaken_a"; cell m0 "xantaken_b"])
    l l3).
  { refine (Forall2_compose _ _ _ _ _ _ _ T2 S3).
    intros x y z (Hu & Ha & Hb & Hd & Hlo) [Hv Hk];
          rewrite Hv; rewrite !Hk by reflexivity; unfold f3;
          rewrite Hu, Ha, Hb, Hd, Hlo; auto 10. }
  assert (T4 : Forall2
    (fun m0 m4 => cell m4 "user_id" = cell m0 "user_id"
                  /\ cell m4 "xantaken_a" = cell m0 "xantaken_a"
                  /\ cell m4 "xantaken_b" = cell m0 "xantaken_b"
                  /\ cell m4 "diff_xantaken"
                     = num_sub (cell m0 "xantaken_b") (cell m0 "xantaken_a")
                  /\ cell m4 "xantaken_min"
                     = row_min [cell m0 "xantaken_a"; cell m0 "xantaken_b"]
                  /\ cell m4 "xantaken_max"
                     = row_max [cell m0 "xantaken_a"; cell m0 "xantaken_b"]
                  /\ cell m4 "avg_xantaken_per_day"
                     = match days_between with
                       | None => NaN
                       | Some n =>
                           if n =? 0 then NaN
                           else num_div
                                  (num_sub
                                     (row_max [cell m0 "xantaken_a";
                                               cell m0 "xantaken_b"])
                                     (row_min [cell m0 "xantaken_a";
                                               cell m0 "xantaken_b"])) n
                       end) l l4).
  { refine (Forall2_compose _ _ _ _ _ _ _ T3 S4).
    intros x y z (Hu & Ha & Hb & Hd & Hlo & Hhi) [Hv Hk];
          rewrite Hv; rewrite !Hk by reflexivity; unfold f4;
          rewrite Hu, Ha, Hb, Hd, Hlo, Hhi; auto 10. }
  refine (Forall2_compose _ _ _ _ _ _ _ T4 S5).
  intros x y z (Hu & Ha & Hb & Hd & Hlo & Hhi & Havg) [Hv Hk].
  unfold derived_row. rewrite Hv. rewrite !Hk by reflexivity.
  rewrite Hu, Ha, Hb, Hd, Hlo, Hhi, Havg.
  split; [|split; reflexivity].
  repeat (split; [reflexivity|]).
  apply status_depends; now rewrite Hk by reflexivity.
Qed.

(** ** From the joined table to the report *)

Lemma select_row_cell cols r c :
  In c cols -> cell (select_row cols r) c = cell r c.
Proof.
  unfold select_row. induction cols as [|c' cols IH]; [intros []|].
  intros H. cbn [map]. rewrite list_to_map_cons, cell_insert.
  destruct (String.eqb_spec c c') as [->|Hne]; [reflexivity|].
  destruct H as [->|H]; [congruence | now apply IH].
Qed.

Lemma sort_values_inv ks df report :
  sort_values ks df = Ok report ->
  rows report = stable_sort (rows_leb ks) (rows df)
  /\ columns report = columns df
  /\ forall k, In k ks -> In (fst k) (columns df).
Proof.
  unfold sort_values.
  destruct (List.find _ ks) as [k|] eqn:F; [discriminate|].
  destruct (existsb _ ks); [discriminate|].
  intros [= <-]. repeat split.
  intros k Hk. apply has_col_In.
  pose proof (find_none _ _ F k Hk) as H. simpl in H.
  now apply negb_false_iff in H.
Qed.

Lemma merged_frame_columns df_a df_b d k :
  In k ["user_id"; "xantaken_a"; "xantaken_b"; "diff_xantaken";
        "avg_xantaken_per_day"; "status"] ->
  In k (columns (merged_frame df_a df_b d)).
Proof.
  intros Hk. unfold merged_frame.
  assert (J : In k ["user_id"; "xantaken_a"; "xantaken_b"] ->
              In k (columns (fold_left add_meta (meta_cols df_a df_b)
                               (joined df_a df_b)))).
  { intros H. now apply fold_add_meta_columns_mono, joined_columns. }
  cbn [In] in Hk, J.
  destruct d as [n|]; [destruct (n =? 0)|];
    rewrite !with_column_columns; intuition auto.
Qed.

Lemma out_cols_In df_a df_b d k :
  In k ["user_id"; "xantaken_a"; "xantaken_b"; "diff_xantaken";
        "avg_xantaken_per_day"; "status"] ->
  In k (out_cols (meta_cols df_a df_b) (merged_frame df_a df_b d)).
Proof.
  intros Hk. unfold out_cols. apply filter_In. split.
  - rewrite !in_app_iff. cbn [In] in *. intuition auto.
  - now apply has_col_In, merged_frame_columns.
Qed.

Lemma out_cols_position df_a df_b merged :
  In "position" (out_cols (meta_cols df_a df_b) merged) ->
  In "position" (columns df_a) \/ In "position" (columns df_b).
Proof.
  unfold out_cols. rewrite filter_In, !in_app_iff. cbn [In].
  intros [H _]. destruct H as [[H|[]]|[H|H]]; try discriminate.
  - now apply meta_cols_In in H.
  - intuition discriminate.
Qed.

(** The rows of the report are those of the joined table, with their derived
    columns, sorted. *)
Lemma select_merged_rows df_a df_b d :
  Forall2 (derived_row d) (rows (joined df_a df_b))
    (rows (select (out_cols (meta_cols df_a df_b) (merged_frame df_a df_b d))
             (merged_frame df_a df_b d))).
Proof.
  eapply (Forall2_compose _
            (fun m r =>
               r = select_row
                     (out_cols (meta_cols df_a df_b)
                        (merged_frame df_a df_b d)) m));
    [| apply merged_frame_rows |].
  2: { cbn [rows select]. apply Forall2_map_self. intros m. reflexivity. }
  cbv beta. intros m0 m r (D & _ & _) ->. unfold derived_row in *.
  pose proof (out_cols_In df_a df_b d) as O.
  rewrite !select_row_cell by (apply O; simpl; tauto).
  destruct D as (Hu & Ha & Hb & Hd & Hv & Hs).
  repeat (split; [assumption|]).
  rewrite Hs. apply status_depends; rewrite !select_row_cell; auto;
    apply O; simpl; tauto.
Qed.

Section ReportFacts.
Variable str_of_num : Q -> string.
Variable parse_num : string -> option Q.
Variable to_datetime : value -> result date.
Variable read_csv : Path -> result DataFrame.

Abbreviation load := (_load_snapshot str_of_num parse_num read_csv).
Abbreviation resolve_date := (_parse_date_from_df_or_filename to_datetime).
Abbreviation report_of :=
  (build_report str_of_num parse_num to_datetime read_csv).

Lemma build_report_inv path_a path_b report s e d :
  report_of path_a path_b = Ok (report, s, e, d) ->
  exists df_a df_b date_a date_b,
    load path_a = Ok df_a /\ load path_b = Ok df_b
    /\ resolve_date df_a path_a = Ok date_a
    /\ resolve_date df_b path_b = Ok date_b
    /\ date_span date_a date_b = (s, e, d)
    /\ sort_values sort_keys
         (select (out_cols (meta_cols df_a df_b) (merged_frame df_a df_b d))
            (merged_frame df_a df_b d)) = Ok report.
Proof.
  unfold build_report, bind.
  destruct (load path_a) as [df_a|] eqn:La; [|discriminate].
  destruct (load path_b) as [df_b|] eqn:Lb; [|discriminate].
  destruct (resolve_date df_a path_a) as [date_a|] eqn:Da; [|discriminate].
  destruct (resolve_date df_b path_b) as [date_b|] eqn:Db; [|discriminate].
  destruct (date_span date_a date_b) as [[s' e'] d'] eqn:Sp.
  destruct (sort_values _ _) as [rep|] eqn:S; [|discriminate].
  intros [= <- <- <- <-]. exists df_a, df_b, date_a, date_b.
  repeat split; assumption.
Qed.

(** Every row of the report is a row of the joined table with its
    derived columns. *)
Lemma report_row_inv path_a path_b report s e d r :
  report_of path_a path_b = Ok (report, s, e, d) ->
  In r (rows report) ->
  exists df_a df_b m0,
    load path_a = Ok df_a /\ load path_b = Ok df_b
    /\ In m0 (rows (joined df_a df_b)) /\ derived_row d m0 r.
Proof.
  intros H Hr.
  destruct (build_report_inv _ _ _ _ _ _ H)
    as (df_a & df_b & date_a & date_b & La & Lb & _ & _ & _ & S).
  apply sort_values_inv in S as (Hrows & _ & _).
  rewrite Hrows in Hr.
  apply (Permutation_in _ (Permutation_sym (stable_sort_perm _ _))) in Hr.
  destruct (Forall2_In_r _ _ _ _ (select_merged_rows df_a df_b d) Hr)
    as (m0 & Hm0 & D).
  exists df_a, df_b, m0. auto.
Qed.

End ReportFacts.

(** ** Dates, status and the position key of the report *)

Section ReportClaims.
Variable str_of_num : Q -> string.
Variable parse_num : string -> option Q.
Variable to_datetime : value -> result date.
Variable read_csv : Path -> result DataFrame.

Abbreviation load := (_load_snapshot str_of_num parse_num read_csv).
Abbreviation resolve_date := (_parse_date_from_df_or_filename to_datetime).
Abbreviation report_of :=
  (build_report str_of_num parse_num to_datetime read_csv).

(** C4.  In a result of [build_report], with the reference dates of the
    two tables as [_parse_date_from_df_or_filename] resolves them: when
    both are dates, the start date is the earlier and the end date the
    later of the two, and the days between are the absolute value of the
    difference of the two dates in days; when one is unresolved, start
    and end date are the two resolved values in the order of the
    arguments and the days between are null. *)
Theorem build_report_dates :
  forall path_a path_b report s e d,
    report_of path_a path_b = Ok (report, s, e, d) ->
    exists df_a df_b date_a date_b,
      load path_a = Ok df_a /\ load path_b = Ok df_b
      /\ resolve_date df_a path_a = Ok date_a
      /\ resolve_date df_b path_b = Ok date_b
      /\ (forall a b, date_a = Some a -> date_b = Some b ->
            exists s' e',
              s = Some s' /\ e = Some e'
              /\ ((s' = a /\ e' = b) \/ (s' = b /\ e' = a))
              /\ date_leb s' a = true /\ date_leb s' b = true
              /\ date_leb a e' = true /\ date_leb b e' = true
              /\ d = Some (Z.abs (toordinal b - toordinal a)))
      /\ (date_a = None \/ date_b = None ->
            s = date_a /\ e = date_b /\ d = None).
Proof.
  intros path_a path_b report s e d H.
  destruct (build_report_inv _ _ _ _ _ _ _ _ _ _ H)
    as (df_a & df_b & date_a & date_b & La & Lb & Da & Db & Sp & _).
  exists df_a, df_b, date_a, date_b. repeat (split; [assumption|]).
  split.
  - intros a b -> ->. unfold date_span, days_from in Sp.
    destruct (date_leb a b) eqn:L; injection Sp as <- <- <-.
    + exists a, b. rewrite !date_leb_refl. auto 10.
    + exists b, a. rewrite !date_leb_refl.
      apply date_leb_total in L. auto 10.
  - intros [-> | ->]; unfold date_span in Sp.
    + now injection Sp as <- <- <-.
    + destruct date_a; now injection Sp as <- <- <-.
Qed.

(** C10.  When neither snapshot file has a [position] column,
    [build_report] raises; when the files are otherwise well formed the
    exception is the [KeyError] of the final sort on the key
    [position]. *)
Theorem build_report_needs_position :
  forall path_a path_b,
    (forall raw, read_csv path_a = Ok raw -> ~ In "position" (columns raw)) ->
    (forall raw, read_csv path_b = Ok raw -> ~ In "position" (columns raw)) ->
    (exists ex, report_of path_a path_b = Raise ex)
    /\ (forall df_a df_b,
          load path_a = Ok df_a -> load path_b = Ok df_b ->
          report_of path_a path_b = Raise (KeyError "position")).
Proof.
  intros path_a path_b Ha Hb.
  assert (K : forall df_a df_b,
             load path_a = Ok df_a -> load path_b = Ok df_b ->
             report_of path_a path_b = Raise (KeyError "position")).
  { intros df_a df_b La Lb. unfold build_report, bind. rewrite La, Lb.
    destruct (resolve_date_Ok to_datetime df_a path_a) as [date_a ->].
    destruct (resolve_date_Ok to_datetime df_b path_b) as [date_b ->].
    destruct (date_span date_a date_b) as [[s e] d].
    assert (P : has_col "position"
                  (out_cols (meta_cols df_a df_b) (merged_frame df_a df_b d))
                = false).
    { apply has_col_false. intros HP. apply out_cols_position in HP.
      assert (Ra : exists raw, read_csv path_a = Ok raw
                               /\ columns df_a = columns raw).
      { revert La. unfold _load_snapshot, bind.
        destruct (read_csv path_a) as [raw|] eqn:R; [|discriminate].
        intros La. exists raw. split; [reflexivity|].
        eapply load_snapshot_columns; [exact R|].
        unfold _load_snapshot, bind. rewrite R. exact La. }
      assert (Rb : exists raw, read_csv path_b = Ok raw
                               /\ columns df_b = columns raw).
      { revert Lb. unfold _load_snapshot, bind.
        destruct (read_csv path_b) as [raw|] eqn:R; [|discriminate].
        intros Lb. exists raw. split; [reflexivity|].
        eapply load_snapshot_columns; [exact R|].
        unfold _load_snapshot, bind. rewrite R. exact Lb. }
      destruct Ra as (ra & Ra & Ca), Rb as (rb & Rb & Cb).
      rewrite Ca, Cb in HP. destruct HP; [eapply Ha | eapply Hb]; eauto. }
    unfold sort_values, sort_keys. cbn [List.find fst columns select].
    now rewrite P. }
  split; [|exact K].
  destruct (load path_a) as [df_a|ex] eqn:La.
  - destruct (load path_b) as [df_b|ex] eqn:Lb.
    + eauto.
    + exists ex. unfold build_report, bind. now rewrite La, Lb.
  - exists ex. unfold build_report, bind. now rewrite La.
Qed.

(** C3.  In every row of the report the status follows the first rule
    that applies: both values null, "Never Taken Xan!!!"; only the first
    value null, "New Recruit"; only the second value null, "Not in
    Faction and Time of Second Snapshot"; then a rate below 1, "Fail";
    then a rate of at least 2, "Exceeds"; otherwise "Pass".  A null rate
    with both values present is neither below 1 nor at least 2 and gives
    "Pass"; the rate of every row is null when the days between are null
    or zero. *)
Theorem status_precedence :
  forall path_a path_b report s e d r,
    report_of path_a path_b = Ok (report, s, e, d) ->
    In r (rows report) ->
    let a := cell r "xantaken_a" in
    let b := cell r "xantaken_b" in
    let avg := cell r "avg_xantaken_per_day" in
    let status := cell r "status" in
    (a = NaN -> b = NaN -> status = Str "Never Taken Xan!!!")
    /\ (a = NaN -> b <> NaN -> status = Str "New Recruit")
    /\ (a <> NaN -> b = NaN ->
        status = Str "Not in Faction and Time of Second Snapshot")
    /\ (a <> NaN -> b <> NaN ->
        (forall q, avg = Num q -> (q < 1)%Q -> status = Str "Fail")
        /\ (forall q, avg = Num q -> (2 <= q)%Q -> status = Str "Exceeds")
        /\ (forall q, avg = Num q -> (1 <= q)%Q -> (q < 2)%Q ->
              status = Str "Pass")
        /\ (avg = NaN -> status = Str "Pass"))
    /\ (d = None \/ d = Some 0 -> avg = NaN).
Proof.
  intros path_a path_b report s e d r H Hr a b avg status.
  destruct (report_row_inv _ _ _ _ _ _ _ _ _ _ _ H Hr)
    as (df_a & df_b & m0 & _ & _ & _ & D).
  destruct D as (_ & _ & _ & _ & Havg & Hs).
  fold avg in Havg. fold status in Hs. rewrite Hs. unfold _status.
  fold a b avg.
  assert (Na : forall v, v <> NaN -> isna v = false) by (now intros []).
  split; [|split; [|split; [|split]]].
  - now intros -> ->.
  - intros -> Hb. now rewrite (Na b Hb).
  - intros Ha ->. now rewrite (Na a Ha).
  - intros Ha Hb. rewrite (Na a Ha), (Na b Hb). cbn [andb].
    split; [|split; [|split]].
    + intros q -> Hq. cbn [num_ltb].
      destruct (Qle_bool 1 q) eqn:E; [|reflexivity].
      apply Qle_bool_iff in E. exfalso. now apply (Qlt_not_le q 1).
    + intros q -> Hq. cbn [num_ltb num_geb].
      assert (E1 : Qle_bool 1 q = true).
      { apply Qle_bool_iff.
        apply Qle_trans with 2%Q; [discriminate | exact Hq]. }
      apply Qle_bool_iff in Hq. now rewrite E1, Hq.
    + intros q -> H1 H2. cbn [num_ltb num_geb].
      apply Qle_bool_iff in H1. rewrite H1. cbn [negb].
      destruct (Qle_bool 2 q) eqn:E; [|reflexivity].
      apply Qle_bool_iff in E. exfalso. now apply (Qlt_not_le q 2).
    + now intros ->.
  - intros [-> | ->]; exact Havg.
Qed.

End ReportClaims.

(** ** The outer join *)

Section MergeFacts.
Variable on : string.
Variables a b : DataFrame.

Abbreviation key_of := (fun r : gmap string value => text_of (cell r on)).

Lemma with_key_In k df r :
  In r (with_key on k df) <-> In r (rows df) /\ key_of r = k.
Proof.
  unfold with_key. rewrite filter_In. now rewrite String.eqb_eq.
Qed.

Lemma nan_row_lookup cols c :
  nan_row cols !! c = if has_col c cols then Some NaN else None.
Proof.
  unfold nan_row. induction cols as [|c' cols IH]; [reflexivity|].
  cbn [map has_col existsb]. rewrite list_to_map_cons.
  destruct (String.eqb_spec c c') as [->|Hne].
  - now rewrite lookup_insert_eq.
  - rewrite lookup_insert_ne by congruence. exact IH.
Qed.

Lemma other_cols_not_on df : has_col on (other_cols on df) = false.
Proof.
  apply has_col_false. unfold other_cols. rewrite filter_In.
  intros [_ H]. now rewrite String.eqb_refl in H.
Qed.

(** A row completed with nulls keeps its key. *)
Lemma pad_key r df : key_of (r ∪ nan_row (other_cols on df)) = key_of r.
Proof.
  unfold cell. rewrite lookup_union, nan_row_lookup, other_cols_not_on.
  now destruct (r !! on).
Qed.

Lemma pair_key ra rb k :
  key_of ra = k -> key_of rb = k -> key_of (ra ∪ rb) = k.
Proof.
  unfold cell. rewrite lookup_union.
  destruct (ra !! on), (rb !! on); simpl; auto.
Qed.

(** The three shapes of a row of the join. *)
Lemma merge_group_In k m :
  In m (merge_group on a b k) <->
  (exists ra rb, In ra (with_key on k a) /\ In rb (with_key on k b)
                 /\ m = ra ∪ rb)
  \/ (exists ra, In ra (with_key on k a) /\ with_key on k b = []
                 /\ m = ra ∪ nan_row (other_cols on b))
  \/ (exists rb, In rb (with_key on k b) /\ with_key on k a = []
                 /\ m = rb ∪ nan_row (other_cols on a)).
Proof.
  unfold merge_group.
  destruct (with_key on k a) as [|ra la] eqn:Ea;
    destruct (with_key on k b) as [|rb lb] eqn:Eb.
  - simpl. split; [intros []|].
    intros [(?&?&[]&_)|[(?&[]&_)|(?&[]&_)]].
  - rewrite in_map_iff. split.
    + intros (r & <- & Hr). right. right. eauto.
    + intros [(?&?&[]&_)|[(?&_&?&_)|(r&Hr&_&->)]]; [discriminate|eauto].
  - rewrite in_map_iff. split.
    + intros (r & <- & Hr). right. left. eauto.
    + intros [(?&?&_&[]&_)|[(r&Hr&_&->)|(?&_&?&_)]]; [eauto|discriminate].
  - rewrite in_flat_map. split.
    + intros (r & Hr & Hm). apply in_map_iff in Hm as (r' & <- & Hr').
      left. eauto.
    + intros [(r & r' & Hr & Hr' & ->)|[(?&_&?&_)|(?&_&?&_)]];
        try discriminate.
      exists r. split; [assumption|]. apply in_map_iff. eauto.
Qed.

Lemma merge_group_key k m : In m (merge_group on a b k) -> key_of m = k.
Proof.
  rewrite merge_group_In.
  intros [(ra & rb & Ha & Hb & ->)|[(ra & Ha & _ & ->)|(rb & Hb & _ & ->)]].
  - apply with_key_In in Ha as [_ Ha], Hb as [_ Hb]. now apply pair_key.
  - apply with_key_In in Ha as [_ Ha]. now rewrite pad_key.
  - apply with_key_In in Hb as [_ Hb]. now rewrite pad_key.
Qed.

Lemma merge_keys_NoDup : NoDup (merge_keys on a b).
Proof.
  unfold merge_keys.
  rewrite <- (stable_sort_perm String.leb). apply NoDup_remove_dups.
Qed.

Lemma merge_keys_In k :
  In k (merge_keys on a b) <->
  In k (map key_of (rows a)) \/ In k (map key_of (rows b)).
Proof.
  unfold merge_keys.
  rewrite <- (Permutation_in' (eq_refl k) (stable_sort_perm String.leb _)).
  rewrite <- list_elem_of_In, elem_of_remove_dups, list_elem_of_In.
  now rewrite map_app, in_app_iff.
Qed.

Lemma merge_rows_In m :
  In m (rows (merge_outer on a b)) <->
  exists k, In k (merge_keys on a b) /\ In m (merge_group on a b k).
Proof. unfold merge_outer. cbn [rows]. apply in_flat_map. Qed.

End MergeFacts.

(** ** Counting the rows of a member *)

Lemma list_sum_cons x l : list_sum (x :: l) = (x + list_sum l)%nat.
Proof. reflexivity. Qed.

Section CountFacts.
Context {A : Type} (key : A -> string).

Abbreviation count u l :=
  (length (List.filter (fun r : A => String.eqb (key r) u) l)).

Lemma count_all u l : (forall r, In r l -> key r = u) -> count u l = length l.
Proof.
  induction l as [|r l IH]; [reflexivity|]. intros H. cbn [List.filter].
  rewrite (H r) by now left. rewrite String.eqb_refl. cbn [length].
  f_equal. apply IH. intros r' Hr'. apply H. now right.
Qed.

Lemma count_none u l : (forall r, In r l -> key r <> u) -> count u l = 0%nat.
Proof.
  induction l as [|r l IH]; [reflexivity|]. intros H. cbn [List.filter].
  destruct (String.eqb_spec (key r) u) as [E|_].
  - exfalso. apply (H r); [now left | exact E].
  - apply IH. intros r' Hr'. apply H. now right.
Qed.

Lemma count_flat_map {K} (G : K -> list A) (f : K -> string) u ks :
  (forall k r, In r (G k) -> key r = f k) ->
  count u (flat_map G ks)
  = list_sum (map (fun k => if String.eqb (f k) u then length (G k) else 0%nat)
                ks).
Proof.
  intros HG. induction ks as [|k ks IH]; [reflexivity|].
  cbn [flat_map map]. rewrite list_sum_cons.
  rewrite List.filter_app, List.length_app, IH.
  f_equal. destruct (String.eqb_spec (f k) u) as [E|E].
  - apply count_all. intros r Hr. rewrite <- E. now apply HG.
  - apply count_none. intros r Hr. rewrite (HG k r Hr). exact E.
Qed.

Lemma count_map {B} (g : A -> B) (key' : B -> string) u l :
  (forall r, key' (g r) = key r) ->
  length (List.filter (fun r => String.eqb (key' r) u) (map g l)) = count u l.
Proof.
  intros H. induction l as [|r l IH]; [reflexivity|].
  cbn [map List.filter]. rewrite H.
  destruct (String.eqb (key r) u); cbn [length]; now rewrite IH.
Qed.

Lemma count_Forall2 {B} (R : A -> B -> Prop) (key' : B -> string) u l l' :
  Forall2 R l l' -> (forall x y, R x y -> key' y = key x) ->
  length (List.filter (fun r => String.eqb (key' r) u) l') = count u l.
Proof.
  intros F H. induction F as [|x y l l' Hxy _ IH]; [reflexivity|].
  cbn [List.filter]. rewrite (H x y Hxy).
  destruct (String.eqb (key x) u); cbn [length]; now rewrite IH.
Qed.

Lemma count_perm u l l' : Permutation l l' -> count u l = count u l'.
Proof.
  induction 1 as [|x l l' _ IH|x y l|l1 l2 l3 _ IH1 _ IH2];
    cbn [List.filter]; [reflexivity | | | congruence].
  - destruct (String.eqb (key x) u); cbn [length]; now rewrite IH.
  - destruct (String.eqb (key x) u), (String.eqb (key y) u); reflexivity.
Qed.

(** With distinct keys, the rows of a key are one row or none. *)
Lemma count_NoDup u l :
  NoDup (map key l) ->
  count u l = if has_col u (map key l) then 1%nat else 0%nat.
Proof.
  induction l as [|r l IH]; [reflexivity|].
  cbn [map List.filter has_col existsb]. intros H.
  apply NoDup_cons in H as [Hr Hl].
  rewrite list_elem_of_In in Hr. specialize (IH Hl).
  rewrite (String.eqb_sym u (key r)).
  destruct (String.eqb_spec (key r) u) as [E|E]; [|exact IH].
  cbn [length orb]. rewrite IH. subst u.
  apply has_col_false in Hr. now rewrite Hr.
Qed.

End CountFacts.

Lemma list_sum_single {K} (f : K -> string) (w : K -> nat) u ks :
  NoDup (map f ks) ->
  list_sum (map (fun k => if String.eqb (f k) u then w k else 0%nat) ks)
  = match List.find (fun k => String.eqb (f k) u) ks with
    | Some k => w k
    | None => 0%nat
    end.
Proof.
  induction ks as [|k ks IH]; [reflexivity|].
  cbn [map List.find]. rewrite list_sum_cons. intros H.
  apply NoDup_cons in H as [Hk Hks].
  destruct (String.eqb_spec (f k) u) as [E|E].
  - rewrite IH by assumption.
    destruct (List.find _ ks) as [k'|] eqn:F; [|lia].
    apply find_some in F as [Hin F]. apply String.eqb_eq in F.
    exfalso. apply Hk. rewrite list_elem_of_In, in_map_iff.
    exists k'. split; [congruence | assumption].
  - now apply IH.
Qed.

(** In the outer join of two tables with distinct keys, a key of either
    table has exactly one row, and a key of neither has none. *)
Lemma merge_outer_count on a b u :
  NoDup (map (fun r => text_of (cell r on)) (rows a)) ->
  NoDup (map (fun r => text_of (cell r on)) (rows b)) ->
  length (List.filter (fun r => String.eqb (text_of (cell r on)) u)
            (rows (merge_outer on a b)))
  = if has_col u (map (fun r => text_of (cell r on)) (rows a))
       || has_col u (map (fun r => text_of (cell r on)) (rows b))
    then 1%nat else 0%nat.
Proof.
  intros Na Nb. unfold merge_outer. cbn [rows].
  rewrite (count_flat_map _ _ (fun k => k)) by apply merge_group_key.
  rewrite (list_sum_single (fun k => k)
             (fun k => length (merge_group on a b k)))
    by (rewrite map_id; apply merge_keys_NoDup).
  pose proof (merge_keys_In on a b u) as HK. rewrite <- !has_col_In in HK.
  assert (Ca : length (with_key on u a)
               = if has_col u (map (fun r => text_of (cell r on)) (rows a))
                 then 1%nat else 0%nat)
    by exact (count_NoDup (fun r => text_of (cell r on)) u (rows a) Na).
  assert (Cb : length (with_key on u b)
               = if has_col u (map (fun r => text_of (cell r on)) (rows b))
                 then 1%nat else 0%nat)
    by exact (count_NoDup (fun r => text_of (cell r on)) u (rows b) Nb).
  destruct (List.find _ (merge_keys on a b)) as [k|] eqn:F.
  - apply find_some in F as [Hin F]. apply String.eqb_eq in F. subst k.
    unfold merge_group.
    apply has_col_In, HK in Hin.
    destruct (with_key on u a) as [|ra [|? ?]];
      destruct (with_key on u b) as [|rb [|? ?]];
      destruct (has_col u (map _ (rows a))), (has_col u (map _ (rows b)));
      simpl in Ca, Cb; try lia; try reflexivity; destruct Hin; congruence.
  - destruct (has_col u (map _ (rows a)) || has_col u (map _ (rows b))) eqn:E;
      [|reflexivity].
    apply orb_true_iff, HK, has_col_In in E.
    pose proof (find_none _ _ F u E) as E'. cbn in E'.
    now rewrite String.eqb_refl in E'.
Qed.

(** ** The two sides of the join *)

Section SideFacts.
Variables df_a df_b : DataFrame.
Variable sfx : string.
Variable df : DataFrame.

Abbreviation metas := (meta_cols df_a df_b).
Abbreviation kept := (List.filter (fun c => has_col c (columns df)) metas).

Lemma suffixed_kept c :
  In c kept -> suffixed sfx metas (keep metas df) c = c ++ sfx.
Proof.
  intros H. pose proof H as H'. apply filter_In in H' as [Hm Hc].
  unfold suffixed.
  destruct (String.eqb_spec c "xantaken") as [->|_].
  - exfalso. revert Hm. apply meta_cols_not_key. simpl. tauto.
  - apply has_col_In in Hm. rewrite Hm. cbn [andb].
    assert (K : has_col c (keep metas df) = true).
    { apply has_col_In. unfold keep. apply in_app_iff. now right. }
    now rewrite K.
Qed.

Lemma side_columns_eq :
  columns (side sfx metas df)
  = "user_id" :: ("xantaken" ++ sfx) :: map (fun c => c ++ sfx) kept.
Proof.
  rewrite side_columns. do 2 f_equal.
  apply map_ext_in. apply suffixed_kept.
Qed.

(** The row of a side made from the row [r] of the loaded table. *)
Lemma side_rows :
  exists g,
    rows (side sfx metas df) = map g (rows df)
    /\ forall r,
         g r = <["user_id" := cell r "user_id"]>
                 (<["xantaken" ++ sfx := cell r "xantaken"]>
                    (list_to_map (map (fun c => (c ++ sfx, cell r c)) kept))).
Proof.
  exists (fun r => rename_row (suffixed sfx metas (keep metas df))
                     (keep metas df) (select_row (keep metas df) r)).
  split.
  - unfold side, rename, select. cbn [rows columns]. now rewrite map_map.
  - intros r. unfold rename_row, keep. cbn [app map].
    rewrite !list_to_map_cons.
    rewrite suffixed_user_id by (apply meta_cols_not_key; cbn [In]; auto).
    do 2 (rewrite select_row_cell by (cbn [In]; auto)).
    do 2 f_equal. f_equal. apply map_ext_in. intros c Hc.
    rewrite suffixed_kept by assumption.
    rewrite select_row_cell; [reflexivity|].
    cbn [In]. right. right. exact Hc.
Qed.

Lemma kept_names c :
  In c kept -> c = "name" \/ c = "position" \/ c = "level".
Proof.
  intros H. apply filter_In in H as [H _]. apply meta_cols_In in H as [H _].
  simpl in H. intuition.
Qed.

End SideFacts.

Lemma suffix_apart c c' :
  (c = "name" \/ c = "position" \/ c = "level") ->
  (c' = "name" \/ c' = "position" \/ c' = "level") ->
  c ++ "_a" <> c' ++ "_b" /\ c ++ "_a" <> "xantaken_b"
  /\ c ++ "_b" <> "xantaken_a" /\ c ++ "_a" <> "user_id"
  /\ c ++ "_b" <> "user_id" /\ c ++ "_a" <> "xantaken_a"
  /\ c ++ "_b" <> "xantaken_b".
Proof.
  intros [-> | [-> | ->]] [-> | [-> | ->]]; repeat split; discriminate.
Qed.

(** ** The rows of the joined table *)

Lemma cell_union_l (r1 r2 : gmap string value) k v :
  r1 !! k = Some v -> cell (r1 ∪ r2) k = v.
Proof. intros H. unfold cell. now rewrite (lookup_union_Some_l _ _ _ _ H). Qed.

Lemma cell_union_r (r1 r2 : gmap string value) k :
  r1 !! k = None -> cell (r1 ∪ r2) k = cell r2 k.
Proof. intros H. unfold cell. now rewrite lookup_union_r. Qed.

Lemma nan_row_cell cols k : In k cols -> cell (nan_row cols) k = NaN.
Proof.
  intros H. unfold cell. rewrite nan_row_lookup.
  apply has_col_In in H. now rewrite H.
Qed.

Section JoinedFacts.
Variables df_a df_b : DataFrame.

Abbreviation metas := (meta_cols df_a df_b).
Abbreviation side_a := (side "_a" metas df_a).
Abbreviation side_b := (side "_b" metas df_b).
Abbreviation key_of :=
  (fun r : gmap string value => text_of (cell r "user_id")).

(** What a row of a side holds, [sfx'] being the suffix of the other
    side. *)
Lemma side_row_lookup sfx sfx' df :
  (sfx = "_a" /\ sfx' = "_b") \/ (sfx = "_b" /\ sfx' = "_a") ->
  exists g,
    rows (side sfx metas df) = map g (rows df)
    /\ forall r,
         g r !! "user_id" = Some (cell r "user_id")
         /\ g r !! ("xantaken" ++ sfx) = Some (cell r "xantaken")
         /\ forall k, In k (other_cols "user_id" (side sfx' metas df_a))
                      \/ In k (other_cols "user_id" (side sfx' metas df_b)) ->
                      g r !! k = None.
Proof.
  intros Hs. destruct (side_rows df_a df_b sfx df) as (g & Hrows & Hg).
  exists g. split; [exact Hrows|]. intros r. rewrite Hg.
  split; [apply lookup_insert_eq|]. split.
  - rewrite lookup_insert_ne by (destruct Hs as [[-> _]|[-> _]]; discriminate).
    apply lookup_insert_eq.
  - intros k Hk.
    assert (K : k = "xantaken" ++ sfx'
                \/ exists c, (c = "name" \/ c = "position" \/ c = "level")
                             /\ k = c ++ sfx').
    { destruct Hk as [Hk|Hk]; unfold other_cols in Hk;
        rewrite side_columns_eq in Hk; apply filter_In in Hk as [Hk Hne];
        cbn [In] in Hk;
        (destruct Hk as [<-|[<-|Hk]];
         [ discriminate Hne | now left
         | right; apply in_map_iff in Hk as (c & <- & Hc);
           apply kept_names in Hc; eauto ]). }
    assert (N : k <> "user_id" /\ k <> "xantaken" ++ sfx
                /\ forall c, (c = "name" \/ c = "position" \/ c = "level") ->
                             k <> c ++ sfx).
    { destruct Hs as [[-> ->]|[-> ->]];
        destruct K as [->|(c & Hc & ->)];
        repeat split; try discriminate;
        try (intros c' Hc'; destruct Hc' as [->|[->| ->]]; discriminate);
        try (destruct Hc as [->|[->| ->]]; discriminate);
        intros c' Hc';
        destruct Hc as [->|[->| ->]], Hc' as [->|[->| ->]]; discriminate. }
    destruct N as (N1 & N2 & N3).
    rewrite !lookup_insert_ne by congruence.
    apply lookup_keyed_None with (f := fun c => c ++ sfx).
    intros Hin. apply in_map_iff in Hin as (c & Hc & Hin).
    apply kept_names in Hin. now apply (N3 c).
Qed.

End JoinedFacts.

Section JoinedRows.
Variables df_a df_b : DataFrame.

Abbreviation metas := (meta_cols df_a df_b).
Abbreviation side_a := (side "_a" metas df_a).
Abbreviation side_b := (side "_b" metas df_b).
Abbreviation key_of :=
  (fun r : gmap string value => text_of (cell r "user_id")).

Lemma other_cols_xantaken sfx df :
  sfx = "_a" \/ sfx = "_b" ->
  In ("xantaken" ++ sfx) (other_cols "user_id" (side sfx metas df)).
Proof.
  intros Hs. unfold other_cols. rewrite side_columns_eq. apply filter_In.
  split; [cbn [In]; auto|]. destruct Hs as [-> | ->]; reflexivity.
Qed.

(** The members of a side are those of the loaded table. *)
Lemma side_member_ids sfx sfx' df :
  (sfx = "_a" /\ sfx' = "_b") \/ (sfx = "_b" /\ sfx' = "_a") ->
  member_ids (side sfx metas df) = member_ids df.
Proof.
  intros Hs. destruct (side_row_lookup df_a df_b sfx sfx' df Hs)
    as (g & Hrows & Hg).
  unfold member_ids. rewrite Hrows, map_map. apply map_ext. intros r.
  destruct (Hg r) as (Hu & _). unfold cell. now rewrite Hu.
Qed.

Lemma with_key_nil k df :
  with_key "user_id" k df = [] -> ~ In k (member_ids df).
Proof.
  intros E H. unfold member_ids in H. apply in_map_iff in H as (r & Hk & Hr).
  assert (Hin : In r (with_key "user_id" k df)) by now apply with_key_In.
  rewrite E in Hin. destruct Hin.
Qed.

(** The three shapes of a row of the joined table: a member of both
    tables, of the first only, of the second only. *)
Lemma joined_row_cases m :
  In m (rows (joined df_a df_b)) ->
  (exists ra rb,
      In ra (rows df_a) /\ In rb (rows df_b)
      /\ key_of ra = key_of m /\ key_of rb = key_of m
      /\ cell m "user_id" = cell ra "user_id"
      /\ cell m "xantaken_a" = cell ra "xantaken"
      /\ cell m "xantaken_b" = cell rb "xantaken")
  \/ (exists ra,
        In ra (rows df_a) /\ ~ In (key_of m) (member_ids df_b)
        /\ key_of ra = key_of m
        /\ cell m "user_id" = cell ra "user_id"
        /\ cell m "xantaken_a" = cell ra "xantaken"
        /\ forall k, In k (other_cols "user_id" side_b) -> cell m k = NaN)
  \/ (exists rb,
        In rb (rows df_b) /\ ~ In (key_of m) (member_ids df_a)
        /\ key_of rb = key_of m
        /\ cell m "user_id" = cell rb "user_id"
        /\ cell m "xantaken_b" = cell rb "xantaken"
        /\ forall k, In k (other_cols "user_id" side_a) -> cell m k = NaN).
Proof.
  unfold joined. intros Hm.
  apply merge_rows_In in Hm as (k & _ & Hm).
  pose proof (merge_group_key _ _ _ _ _ Hm) as Hk. cbv beta in Hk.
  destruct (side_row_lookup df_a df_b "_a" "_b" df_a) as (ga & Ra & Ga);
    [auto|].
  destruct (side_row_lookup df_a df_b "_b" "_a" df_b) as (gb & Rb & Gb);
    [auto|].
  assert (Sa : member_ids side_a = member_ids df_a)
    by (apply (side_member_ids "_a" "_b"); auto).
  assert (Sb : member_ids side_b = member_ids df_b)
    by (apply (side_member_ids "_b" "_a"); auto).
  assert (Ka : forall r, key_of (ga r) = key_of r).
  { intros r. destruct (Ga r) as (Hu & _). unfold cell. now rewrite Hu. }
  assert (Kb : forall r, key_of (gb r) = key_of r).
  { intros r. destruct (Gb r) as (Hu & _). unfold cell. now rewrite Hu. }
  apply merge_group_In in Hm
    as [(ra' & rb' & Ha & Hb & ->)|[(ra' & Ha & Eb & ->)|(rb' & Hb & Ea & ->)]].
  - apply with_key_In in Ha as [Ha Hka], Hb as [Hb Hkb].
    rewrite Ra in Ha. rewrite Rb in Hb.
    apply in_map_iff in Ha as (ra & <- & Ha), Hb as (rb & <- & Hb).
    destruct (Ga ra) as (Gu & Gx & Gn), (Gb rb) as (Hu & Hx & _).
    left. exists ra, rb. rewrite Ka in Hka. rewrite Kb in Hkb.
    repeat (split; [assumption || congruence|]).
    split; [now apply cell_union_l|]. split; [now apply cell_union_l|].
    rewrite cell_union_r.
    + change ("xantaken" ++ "_b") with "xantaken_b" in Hx.
      unfold cell. now rewrite Hx.
    + apply Gn. right. apply (other_cols_xantaken "_b"). auto.
  - apply with_key_In in Ha as [Ha Hka].
    rewrite Ra in Ha. apply in_map_iff in Ha as (ra & <- & Ha).
    destruct (Ga ra) as (Gu & Gx & Gn).
    right. left. exists ra. rewrite Ka in Hka.
    split; [assumption|]. split.
    { rewrite Hk, <- Sb. now apply with_key_nil. }
    split; [congruence|].
    split; [now apply cell_union_l|]. split; [now apply cell_union_l|].
    intros c Hc. rewrite cell_union_r by (apply Gn; auto).
    now apply nan_row_cell.
  - apply with_key_In in Hb as [Hb Hkb].
    rewrite Rb in Hb. apply in_map_iff in Hb as (rb & <- & Hb).
    destruct (Gb rb) as (Gu & Gx & Gn).
    right. right. exists rb. rewrite Kb in Hkb.
    split; [assumption|]. split.
    { rewrite Hk, <- Sa. now apply with_key_nil. }
    split; [congruence|].
    split; [now apply cell_union_l|]. split; [now apply cell_union_l|].
    intros c Hc. rewrite cell_union_r by (apply Gn; auto).
    now apply nan_row_cell.
Qed.

(** Members and rows of the joined table, for tables without repeated
    members. *)
Lemma joined_count u :
  NoDup (member_ids df_a) -> NoDup (member_ids df_b) ->
  occurrences u (rows (joined df_a df_b))
  = if has_col u (member_ids df_a) || has_col u (member_ids df_b)
    then 1%nat else 0%nat.
Proof.
  intros Na Nb. unfold occurrences, joined.
  rewrite <- (side_member_ids "_a" "_b" df_a) in * by auto.
  rewrite <- (side_member_ids "_b" "_a" df_b) in * by auto.
  now apply merge_outer_count.
Qed.

End JoinedRows.

(** ** Completeness of the join, argument order, null-skipping extrema *)


Section JoinClaims.
Variable str_of_num : Q -> string.
Variable parse_num : string -> option Q.
Variable to_datetime : value -> result date.
Variable read_csv : Path -> result DataFrame.

Abbreviation load := (_load_snapshot str_of_num parse_num read_csv).
Abbreviation resolve_date := (_parse_date_from_df_or_filename to_datetime).
Abbreviation report_of :=
  (build_report str_of_num parse_num to_datetime read_csv).
Abbreviation key_of :=
  (fun r : gmap string value => text_of (cell r "user_id")).

(** The report has the rows of the joined table, member by member. *)
Lemma report_count path_a path_b report s e d df_a df_b u :
  report_of path_a path_b = Ok (report, s, e, d) ->
  load path_a = Ok df_a -> load path_b = Ok df_b ->
  occurrences u (rows report) = occurrences u (rows (joined df_a df_b)).
Proof.
  intros H La Lb.
  destruct (build_report_inv _ _ _ _ _ _ _ _ _ _ H)
    as (df_a' & df_b' & date_a & date_b & La' & Lb' & _ & _ & _ & S).
  assert (df_a' = df_a) by congruence. assert (df_b' = df_b) by congruence.
  subst df_a' df_b'.
  apply sort_values_inv in S as (Hrows & _ & _). unfold occurrences.
  rewrite Hrows, <- (count_perm key_of u _ _ (stable_sort_perm _ _)).
  apply (count_Forall2 key_of (derived_row d) key_of u _ _
           (select_merged_rows df_a df_b d)).
  intros x y (Hu & _). cbv beta. now rewrite Hu.
Qed.

Lemma report_row_joined path_a path_b report s e d df_a df_b r :
  report_of path_a path_b = Ok (report, s, e, d) ->
  load path_a = Ok df_a -> load path_b = Ok df_b ->
  In r (rows report) ->
  exists m0, In m0 (rows (joined df_a df_b)) /\ derived_row d m0 r.
Proof.
  intros H La Lb Hr.
  destruct (report_row_inv _ _ _ _ _ _ _ _ _ _ _ H Hr)
    as (df_a' & df_b' & m0 & La' & Lb' & Hm0 & D).
  assert (df_a' = df_a) by congruence. assert (df_b' = df_b) by congruence.
  subst. eauto.
Qed.

(** C8.  For two snapshot tables without repeated members, every member
    of either table has exactly one row in the joined table and in the
    report; the row of a member absent from one table is null in every
    column of the joined table that comes from that table only, and in
    the report its value for that table is null. *)
Theorem outer_join_complete :
  forall path_a path_b report s e d df_a df_b,
    report_of path_a path_b = Ok (report, s, e, d) ->
    load path_a = Ok df_a -> load path_b = Ok df_b ->
    NoDup (member_ids df_a) -> NoDup (member_ids df_b) ->
    (forall u, In u (member_ids df_a) \/ In u (member_ids df_b) ->
       occurrences u (rows (joined df_a df_b)) = 1%nat
       /\ occurrences u (rows report) = 1%nat)
    /\ (forall m, In m (rows (joined df_a df_b)) ->
          (~ In (key_of m) (member_ids df_b) ->
           forall k,
             In k (other_cols "user_id"
                     (side "_b" (meta_cols df_a df_b) df_b)) ->
             cell m k = NaN)
          /\ (~ In (key_of m) (member_ids df_a) ->
              forall k,
                In k (other_cols "user_id"
                        (side "_a" (meta_cols df_a df_b) df_a)) ->
                cell m k = NaN))
    /\ (forall r, In r (rows report) ->
          (~ In (key_of r) (member_ids df_b) -> cell r "xantaken_b" = NaN)
          /\ (~ In (key_of r) (member_ids df_a) -> cell r "xantaken_a" = NaN)).
Proof.
  intros path_a path_b report s e d df_a df_b H La Lb Na Nb.
  assert (J : forall m, In m (rows (joined df_a df_b)) ->
    (~ In (key_of m) (member_ids df_b) ->
     forall k,
       In k (other_cols "user_id" (side "_b" (meta_cols df_a df_b) df_b)) ->
       cell m k = NaN)
    /\ (~ In (key_of m) (member_ids df_a) ->
        forall k,
          In k (other_cols "user_id" (side "_a" (meta_cols df_a df_b) df_a)) ->
          cell m k = NaN)).
  { intros m Hm.
    destruct (joined_row_cases df_a df_b m Hm)
      as [(ra & rb & Ha & Hb & Ka & Kb & _)
         |[(ra & Ha & Nb' & Ka & _ & _ & Hn)
          |(rb & Hb & Na' & Kb & _ & _ & Hn)]].
    - split; intros Hno; exfalso; apply Hno; unfold member_ids;
        apply in_map_iff; eauto.
    - split; [intros _; exact Hn|].
      intros Hno. exfalso. apply Hno. unfold member_ids.
      apply in_map_iff. eauto.
    - split; [|intros _; exact Hn].
      intros Hno. exfalso. apply Hno. unfold member_ids.
      apply in_map_iff. eauto. }
  split; [|split; [exact J|]].
  - intros u Hu.
    rewrite (report_count _ _ _ _ _ _ _ _ u H La Lb).
    rewrite joined_count by assumption.
    rewrite <- !has_col_In in Hu. apply orb_true_iff in Hu. now rewrite Hu.
  - intros r Hr.
    destruct (report_row_joined _ _ _ _ _ _ _ _ _ H La Lb Hr)
      as (m0 & Hm0 & (Hu & Ha & Hb & _)).
    destruct (J m0 Hm0) as (Jb & Ja). cbv beta in *. rewrite Hu, Ha, Hb.
    split; intros Hno.
    + apply (Jb Hno). apply (other_cols_xantaken df_a df_b "_b"). auto.
    + apply (Ja Hno). apply (other_cols_xantaken df_a df_b "_a"). auto.
Qed.

(** C2, as the code has it.  With the two files in either order the
    start date, the end date and the days between are the same whenever
    both reference dates resolve.  The columns follow the arguments, not
    the dates: in every row of a report [xantaken_a] is the value that
    the row of the same member has in the file passed first, and null
    when that file does not have the member; [xantaken_b] is the same for
    the file passed second; and [diff_xantaken] is the second minus the
    first. *)
Theorem report_follows_argument_order :
  forall path_a path_b report s e d report' s' e' d',
    report_of path_a path_b = Ok (report, s, e, d) ->
    report_of path_b path_a = Ok (report', s', e', d') ->
    exists df_a df_b date_a date_b,
      load path_a = Ok df_a /\ load path_b = Ok df_b
      /\ resolve_date df_a path_a = Ok date_a
      /\ resolve_date df_b path_b = Ok date_b
      /\ (date_a <> None -> date_b <> None ->
          s = s' /\ e = e' /\ d = d')
      /\ forall r, In r (rows report) ->
           ((exists ra, In ra (rows df_a) /\ key_of ra = key_of r
                        /\ cell r "xantaken_a" = cell ra "xantaken")
            \/ (~ In (key_of r) (member_ids df_a)
                /\ cell r "xantaken_a" = NaN))
           /\ ((exists rb, In rb (rows df_b) /\ key_of rb = key_of r
                           /\ cell r "xantaken_b" = cell rb "xantaken")
               \/ (~ In (key_of r) (member_ids df_b)
                   /\ cell r "xantaken_b" = NaN))
           /\ cell r "diff_xantaken"
              = num_sub (cell r "xantaken_b") (cell r "xantaken_a").
Proof.
  intros path_a path_b report s e d report' s' e' d' H H'.
  destruct (build_report_inv _ _ _ _ _ _ _ _ _ _ H)
    as (df_a & df_b & date_a & date_b & La & Lb & Da & Db & Sp & _).
  destruct (build_report_inv _ _ _ _ _ _ _ _ _ _ H')
    as (df_b' & df_a' & date_b' & date_a' & Lb' & La' & Db' & Da' & Sp' & _).
  assert (df_a' = df_a) by congruence. assert (df_b' = df_b) by congruence.
  subst df_a' df_b'.
  assert (date_a' = date_a) by congruence.
  assert (date_b' = date_b) by congruence. subst date_a' date_b'.
  exists df_a, df_b, date_a, date_b. repeat (split; [assumption|]).
  split.
  - intros Ha Hb. destruct date_a as [a|]; [|congruence].
    destruct date_b as [b|]; [|congruence].
    rewrite date_span_swap in Sp'. rewrite Sp in Sp'.
    now injection Sp' as -> -> ->.
  - intros r Hr.
    destruct (report_row_joined _ _ _ _ _ _ _ _ _ H La Lb Hr)
      as (m0 & Hm0 & (Hu & Ha & Hb & Hd & _)).
    cbv beta. rewrite Hu, Ha, Hb, Hd.
    destruct (joined_row_cases df_a df_b m0 Hm0)
      as [(ra & rb & Hra & Hrb & Ka & Kb & _ & Xa & Xb)
         |[(ra & Hra & Nb' & Ka & _ & Xa & Hn)
          |(rb & Hrb & Na' & Kb & _ & Xb & Hn)]].
    + split; [left; eauto|]. split; [left; eauto | reflexivity].
    + split; [left; eauto|]. split; [|reflexivity].
      right. split; [assumption|].
      apply Hn. apply (other_cols_xantaken df_a df_b "_b"). auto.
    + split; [|split; [left; eauto | reflexivity]].
      right. split; [assumption|].
      apply Hn. apply (other_cols_xantaken df_a df_b "_a"). auto.
Qed.


End JoinClaims.

(** ** The order of the report *)


Lemma value_leb_refl x : value_leb x x = true.
Proof. now destruct (value_leb_total x x). Qed.




Section OrderClaims.
Variable str_of_num : Q -> string.
Variable parse_num : string -> option Q.
Variable to_datetime : value -> result date.
Variable read_csv : Path -> result DataFrame.

Abbreviation load := (_load_snapshot str_of_num parse_num read_csv).
Abbreviation report_of :=
  (build_report str_of_num parse_num to_datetime read_csv).


End OrderClaims.

(** ** When a report is produced *)

Lemma suffix_inj c c' s s' :
  (c = "name" \/ c = "position" \/ c = "level") ->
  (c' = "name" \/ c' = "position" \/ c' = "level") ->
  (s = "_a" \/ s = "_b") -> (s' = "_a" \/ s' = "_b") ->
  c ++ s = c' ++ s' -> c = c' /\ s = s'.
Proof.
  intros [-> | [-> | ->]] [-> | [-> | ->]] [-> | ->] [-> | ->] E;
    try discriminate E; auto.
Qed.

Lemma list_to_map_lookup_Some {B} (f : B -> string) (g : B -> value) l k v :
  (list_to_map (map (fun c => (f c, g c)) l) : gmap string value) !! k
  = Some v ->
  exists c, In c l /\ k = f c /\ v = g c.
Proof.
  intros H. apply elem_of_list_to_map_2 in H.
  apply list_elem_of_In, in_map_iff in H as (c & E & Hc).
  injection E as <- <-. eauto.
Qed.

Section WhereCellsComeFrom.
Variables df_a df_b : DataFrame.

Abbreviation metas := (meta_cols df_a df_b).

(** A cell of a side under a suffixed metadata column is the cell of the
    loaded table under that column, or null. *)
Lemma side_meta_cell sfx df c s :
  sfx = "_a" \/ sfx = "_b" ->
  (c = "name" \/ c = "position" \/ c = "level") ->
  (s = "_a" \/ s = "_b") ->
  exists g,
    rows (side sfx metas df) = map g (rows df)
    /\ forall r v, g r !! (c ++ s) = Some v -> v = cell r c.
Proof.
  intros Hsfx Hc Hs.
  destruct (side_rows df_a df_b sfx df) as (g & Hrows & Hg).
  exists g. split; [exact Hrows|]. intros r v. rewrite Hg.
  rewrite lookup_insert_ne
    by (destruct Hc as [->|[->| ->]], Hs as [->| ->]; discriminate).
  rewrite lookup_insert_ne
    by (destruct Hc as [->|[->| ->]], Hs as [->| ->], Hsfx as [->| ->];
        discriminate).
  intros H. apply list_to_map_lookup_Some in H as (c' & Hc' & E & ->).
  apply kept_names in Hc'.
  apply suffix_inj in E as [-> _]; auto.
Qed.

Lemma joined_meta_cell m c s :
  In m (rows (joined df_a df_b)) ->
  (c = "name" \/ c = "position" \/ c = "level") ->
  (s = "_a" \/ s = "_b") ->
  cell m (c ++ s) = NaN
  \/ exists r, In r (rows df_a ++ rows df_b)%list /\ cell m (c ++ s) = cell r c.
Proof.
  intros Hm Hc Hs. unfold joined in Hm.
  apply merge_rows_In in Hm as (k & _ & Hm).
  destruct (side_meta_cell "_a" df_a c s) as (ga & Ra & Ga); auto.
  destruct (side_meta_cell "_b" df_b c s) as (gb & Rb & Gb); auto.
  assert (N : forall cols, cell (nan_row cols) (c ++ s) = NaN).
  { intros cols. unfold cell. rewrite nan_row_lookup.
    now destruct (has_col _ _). }
  assert (U : forall (x y : gmap string value),
             cell (x ∪ y) (c ++ s)
             = match x !! (c ++ s) with
               | Some v => v
               | None => cell y (c ++ s)
               end).
  { intros x y. unfold cell. rewrite lookup_union.
    now destruct (x !! (c ++ s)), (y !! (c ++ s)). }
  assert (Sa : forall ra, In ra (rows df_a) ->
             cell (ga ra) (c ++ s) = NaN
             \/ exists r, In r (rows df_a ++ rows df_b)%list
                          /\ cell (ga ra) (c ++ s) = cell r c).
  { intros ra Hra.
    destruct (ga ra !! (c ++ s)) as [v|] eqn:E.
    - right. exists ra. split; [apply in_app_iff; now left|].
      unfold cell at 1. rewrite E. now apply Ga.
    - left. unfold cell. now rewrite E. }
  assert (Sb : forall rb, In rb (rows df_b) ->
             cell (gb rb) (c ++ s) = NaN
             \/ exists r, In r (rows df_a ++ rows df_b)%list
                          /\ cell (gb rb) (c ++ s) = cell r c).
  { intros rb Hrb.
    destruct (gb rb !! (c ++ s)) as [v|] eqn:E.
    - right. exists rb. split; [apply in_app_iff; now right|].
      unfold cell at 1. rewrite E. now apply Gb.
    - left. unfold cell. now rewrite E. }
  apply merge_group_In in Hm
    as [(ra' & rb' & Ha & Hb & ->)|[(ra' & Ha & _ & ->)|(rb' & Hb & _ & ->)]].
  - apply with_key_In in Ha as [Ha _], Hb as [Hb _].
    rewrite Ra in Ha. rewrite Rb in Hb.
    apply in_map_iff in Ha as (ra & <- & Ha), Hb as (rb & <- & Hb).
    rewrite U. destruct (ga ra !! (c ++ s)) as [v|] eqn:E.
    + right. exists ra. split; [apply in_app_iff; now left|]. now apply Ga.
    + now apply Sb.
  - apply with_key_In in Ha as [Ha _]. rewrite Ra in Ha.
    apply in_map_iff in Ha as (ra & <- & Ha).
    rewrite U. destruct (ga ra !! (c ++ s)) as [v|] eqn:E.
    + right. exists ra. split; [apply in_app_iff; now left|]. now apply Ga.
    + left. apply N.
  - apply with_key_In in Hb as [Hb _]. rewrite Rb in Hb.
    apply in_map_iff in Hb as (rb & <- & Hb).
    rewrite U. destruct (gb rb !! (c ++ s)) as [v|] eqn:E.
    + right. exists rb. split; [apply in_app_iff; now right|]. now apply Gb.
    + left. apply N.
Qed.

(** A row of the joined table has no cell under a bare metadata column. *)
Lemma joined_bare_cell m c :
  In m (rows (joined df_a df_b)) ->
  (c = "name" \/ c = "position" \/ c = "level") ->
  cell m c = NaN.
Proof.
  intros Hm Hc. unfold joined in Hm.
  apply merge_rows_In in Hm as (k & _ & Hm).
  destruct (side_rows df_a df_b "_a" df_a) as (ga & Ra & Ga).
  destruct (side_rows df_a df_b "_b" df_b) as (gb & Rb & Gb).
  assert (S : forall sfx df (g : gmap string value -> gmap string value) r,
             sfx = "_a" \/ sfx = "_b" ->
             g r = <["user_id" := cell r "user_id"]>
                     (<["xantaken" ++ sfx := cell r "xantaken"]>
                        (list_to_map
                           (map (fun c => (c ++ sfx, cell r c))
                              (List.filter (fun c => has_col c (columns df))
                                 metas)))) ->
             g r !! c = None).
  { intros sfx df g r Hsfx ->.
    rewrite lookup_insert_ne by (destruct Hc as [->|[->| ->]]; discriminate).
    rewrite lookup_insert_ne
      by (destruct Hc as [->|[->| ->]], Hsfx as [->| ->]; discriminate).
    apply lookup_keyed_None with (f := fun c => c ++ sfx).
    intros H. apply in_map_iff in H as (c' & E & Hc').
    apply kept_names in Hc'.
    destruct Hc as [->|[->| ->]], Hc' as [->|[->| ->]], Hsfx as [->| ->];
      discriminate E. }
  assert (N : forall on df,
             cell (nan_row (other_cols on (side "_a" metas df))) c = NaN
             /\ cell (nan_row (other_cols on (side "_b" metas df))) c = NaN).
  { intros on df. split; unfold cell; rewrite nan_row_lookup;
      now destruct (has_col _ _). }
  apply merge_group_In in Hm
    as [(ra' & rb' & Ha & Hb & ->)|[(ra' & Ha & _ & ->)|(rb' & Hb & _ & ->)]].
  - apply with_key_In in Ha as [Ha _], Hb as [Hb _].
    rewrite Ra in Ha. rewrite Rb in Hb.
    apply in_map_iff in Ha as (ra & <- & Ha), Hb as (rb & <- & Hb).
    rewrite cell_union_r by (apply (S "_a" df_a); auto).
    unfold cell. now rewrite (S "_b" df_b gb rb) by auto.
  - apply with_key_In in Ha as [Ha _]. rewrite Ra in Ha.
    apply in_map_iff in Ha as (ra & <- & Ha).
    rewrite cell_union_r by (apply (S "_a" df_a); auto). apply N.
  - apply with_key_In in Hb as [Hb _]. rewrite Rb in Hb.
    apply in_map_iff in Hb as (rb & <- & Hb).
    rewrite cell_union_r by (apply (S "_b" df_b); auto). apply N.
Qed.

End WhereCellsComeFrom.

Lemma combine_first_cases x y :
  combine_first x y = x \/ combine_first x y = y.
Proof. unfold combine_first. destruct (isna x); auto. Qed.

(** The cell that one turn of the metadata loop writes. *)
Lemma add_meta_own_cell df c :
  Forall2 (fun m0 m =>
             cell m c = cell m0 c \/ cell m c = cell m0 (c ++ "_b")
             \/ cell m c = cell m0 (c ++ "_a"))
    (rows df) (rows (add_meta df c)).
Proof.
  unfold add_meta.
  destruct (_ && _);
    [|destruct (has_col (c ++ "_b") _);
      [|destruct (has_col (c ++ "_a") _)]].
  - eapply Forall2_impl; [apply with_column_rows|].
    intros m0 m [E _]. cbv beta in E. rewrite E.
    destruct (combine_first_cases (cell m0 (c ++ "_b")) (cell m0 (c ++ "_a")))
      as [-> | ->]; auto.
  - eapply Forall2_impl; [apply with_column_rows|]. intros m0 m [E _]. auto.
  - eapply Forall2_impl; [apply with_column_rows|]. intros m0 m [E _]. auto.
  - rewrite <- (map_id (rows df)) at 2. apply Forall2_map_self. auto.
Qed.

Lemma fold_add_meta_cells cs : forall df,
  (forall c, In c cs -> c = "name" \/ c = "position" \/ c = "level") ->
  Forall2 (fun m0 m =>
             forall c, c = "name" \/ c = "position" \/ c = "level" ->
               (cell m c = cell m0 c \/ cell m c = cell m0 (c ++ "_b")
                \/ cell m c = cell m0 (c ++ "_a"))
               /\ cell m (c ++ "_a") = cell m0 (c ++ "_a")
               /\ cell m (c ++ "_b") = cell m0 (c ++ "_b"))
    (rows df) (rows (fold_left add_meta cs df)).
Proof.
  induction cs as [|c0 cs IH]; intros df Hcs; cbn [fold_left].
  - rewrite <- (map_id (rows df)) at 2. apply Forall2_map_self. auto.
  - assert (H0 : c0 = "name" \/ c0 = "position" \/ c0 = "level")
      by (apply Hcs; now left).
    specialize (IH (add_meta df c0) (fun c Hc => Hcs c (or_intror Hc))).
    pose proof (add_meta_rows df c0) as K.
    pose proof (add_meta_own_cell df c0) as O.
    assert (KO : Forall2 (fun m0 m1 =>
                   (forall k, k <> c0 -> cell m1 k = cell m0 k)
                   /\ (cell m1 c0 = cell m0 c0
                       \/ cell m1 c0 = cell m0 (c0 ++ "_b")
                       \/ cell m1 c0 = cell m0 (c0 ++ "_a")))
                  (rows df) (rows (add_meta df c0))).
    { revert K O. generalize (rows df) (rows (add_meta df c0)).
      intros l l' K. induction K; intros O; inversion O; subst;
        constructor; auto. }
    refine (Forall2_compose _ _ _ _ _ _ _ KO IH).
    intros m0 m1 m [Hk Ho] H c Hc.
    destruct (H c Hc) as (Hown & Ha & Hb).
    assert (Na : c ++ "_a" <> c0)
      by (destruct Hc as [->|[->| ->]], H0 as [->|[->| ->]]; discriminate).
    assert (Nb : c ++ "_b" <> c0)
      by (destruct Hc as [->|[->| ->]], H0 as [->|[->| ->]]; discriminate).
    rewrite (Hk _ Na) in Ha, Hown. rewrite (Hk _ Nb) in Hb, Hown.
    split; [|split; assumption].
    destruct (String.eqb_spec c c0) as [->|Hne].
    + destruct Hown as [Hown|Hown]; [|tauto].
      rewrite Hown. tauto.
    + rewrite (Hk _ Hne) in Hown. exact Hown.
Qed.

Lemma add_meta_adds df c :
  In (c ++ "_a") (columns df) \/ In (c ++ "_b") (columns df) ->
  In c (columns (add_meta df c)).
Proof.
  rewrite <- !has_col_In. unfold add_meta. cbv zeta.
  destruct (has_col (c ++ "_b") (columns df)),
           (has_col (c ++ "_a") (columns df)); cbn [andb]; intros H;
    try (apply has_col_In, with_column_columns; now right).
  destruct H as [H|H]; discriminate H.
Qed.

Lemma fold_add_meta_adds cs : forall df c,
  In c cs ->
  In (c ++ "_a") (columns df) \/ In (c ++ "_b") (columns df) ->
  In c (columns (fold_left add_meta cs df)).
Proof.
  induction cs as [|c0 cs IH]; intros df c Hc H; [destruct Hc|].
  cbn [fold_left]. destruct (String.eqb_spec c0 c) as [->|Hne].
  - apply fold_add_meta_columns_mono. now apply add_meta_adds.
  - destruct Hc as [Hc|Hc]; [congruence|]. apply IH; [assumption|].
    destruct H; [left | right]; now apply add_meta_columns_mono.
Qed.

(** The derived columns leave the other cells alone. *)
Lemma merged_frame_keeps df_a df_b d :
  Forall2 (fun m1 m =>
             forall k, ~ In k ["diff_xantaken"; "xantaken_min"; "xantaken_max";
                               "avg_xantaken_per_day"; "status"] ->
                       cell m k = cell m1 k)
    (rows (fold_left add_meta (meta_cols df_a df_b) (joined df_a df_b)))
    (rows (merged_frame df_a df_b d)).
Proof.
  unfold merged_frame.
  set (base := fold_left add_meta (meta_cols df_a df_b) (joined df_a df_b)).
  assert (W : forall c f df,
             Forall2 (fun r m => forall k, k <> c -> cell m k = cell r k)
               (rows df) (rows (with_column c f df))).
  { intros c f df. eapply Forall2_impl; [apply with_column_rows|].
    intros r m [_ H] k Hk. apply H. now apply String.eqb_neq. }
  assert (E : forall k,
             ~ In k ["diff_xantaken"; "xantaken_min"; "xantaken_max";
                     "avg_xantaken_per_day"; "status"] ->
             k <> "diff_xantaken" /\ k <> "xantaken_min"
             /\ k <> "xantaken_max" /\ k <> "avg_xantaken_per_day"
             /\ k <> "status").
  { intros k Hk. cbn [In] in Hk. repeat split; intros ->; tauto. }
  eapply Forall2_compose; [| |apply W].
  2: { eapply Forall2_compose; [| |
         destruct d as [n|]; [destruct (n =? 0)|]; apply W].
       2: { eapply Forall2_compose; [| |apply W].
            2: { eapply Forall2_compose; [| apply W | apply W].
                 intros x y z Hxy Hyz.
                 instantiate (1 := fun x z =>
                   forall k, k <> "diff_xantaken" -> k <> "xantaken_min" ->
                             cell z k = cell x k).
                 intros k K1 K2. rewrite Hyz, Hxy; auto. }
            intros x y z Hxy Hyz.
            instantiate (1 := fun x z =>
              forall k, k <> "diff_xantaken" -> k <> "xantaken_min" ->
                        k <> "xantaken_max" -> cell z k = cell x k).
            intros k K1 K2 K3. rewrite Hyz, Hxy; auto. }
       intros x y z Hxy Hyz.
       instantiate (1 := fun x z =>
         forall k, k <> "diff_xantaken" -> k <> "xantaken_min" ->
                   k <> "xantaken_max" -> k <> "avg_xantaken_per_day" ->
                   cell z k = cell x k).
       intros k K1 K2 K3 K4. rewrite Hyz, Hxy; auto. }
  intros x y z Hxy Hyz k Hk. apply E in Hk as (K1 & K2 & K3 & K4 & K5).
  rewrite Hyz, Hxy; auto.
Qed.

Lemma existsb_false {A} (p : A -> bool) l :
  (forall x, In x l -> p x = false) -> existsb p l = false.
Proof.
  intros H. induction l as [|x l IH]; [reflexivity|].
  cbn [existsb]. rewrite (H x) by now left.
  apply IH. intros y Hy. apply H. now right.
Qed.

Lemma mixed_false_num s :
  (forall v, In v s -> is_num v = false) -> mixed s = false.
Proof. intros H. unfold mixed. now rewrite existsb_false. Qed.

Lemma mixed_false_str s :
  (forall v, In v s -> is_str v = false) -> mixed s = false.
Proof.
  intros H. unfold mixed. rewrite (existsb_false is_str) by assumption.
  apply andb_false_r.
Qed.

Lemma Forall2_and {A B} (R S : A -> B -> Prop) l l' :
  Forall2 R l l' -> Forall2 S l l' ->
  Forall2 (fun x y => R x y /\ S x y) l l'.
Proof.
  induction 1; intros H'; inversion H'; subst; constructor; auto.
Qed.

(** The metadata cells of the joined table once completed: the cell of
    one of the two sides, or null. *)
Lemma merged_frame_meta df_a df_b d :
  Forall2 (fun m0 m =>
             forall c, c = "name" \/ c = "position" \/ c = "level" ->
               cell m c = cell m0 c \/ cell m c = cell m0 (c ++ "_b")
               \/ cell m c = cell m0 (c ++ "_a"))
    (rows (joined df_a df_b)) (rows (merged_frame df_a df_b d)).
Proof.
  refine (Forall2_compose _ _ _ _ _ _ _
            (fold_add_meta_cells (meta_cols df_a df_b) (joined df_a df_b) _)
            (merged_frame_keeps df_a df_b d)).
  - intros m0 m1 m H1 H2 c Hc. destruct (H1 c Hc) as (H & _).
    rewrite H2; [exact H|].
    cbn [In]. destruct Hc as [->|[->| ->]]; intuition discriminate.
  - intros c Hc. apply meta_cols_In in Hc as [Hc _].
    cbn [In] in Hc. intuition.
Qed.

Section Returns.
Variable str_of_num : Q -> string.
Variable parse_num : string -> option Q.
Variable to_datetime : value -> result date.
Variable read_csv : Path -> result DataFrame.

Abbreviation load := (_load_snapshot str_of_num parse_num read_csv).
Abbreviation report_of :=
  (build_report str_of_num parse_num to_datetime read_csv).

(** The member column of a loaded table holds text. *)
Lemma load_user_id path df r :
  load path = Ok df -> In r (rows df) -> is_num (cell r "user_id") = false.
Proof.
  unfold _load_snapshot, bind.
  destruct (read_csv path) as [raw|]; [|discriminate].
  destruct (missing_columns raw); [|discriminate].
  intros [= <-]. cbn [rows with_column]. rewrite map_map.
  intros H. apply in_map_iff in H as (r0 & <- & _).
  rewrite !cell_insert. cbn. now destruct (cell r0 "user_id").
Qed.

Lemma position_in_joined df_a df_b :
  In "position" (columns df_a) \/ In "position" (columns df_b) ->
  In "position" (meta_cols df_a df_b)
  /\ (In ("position" ++ "_a") (columns (joined df_a df_b))
      \/ In ("position" ++ "_b") (columns (joined df_a df_b))).
Proof.
  intros H.
  assert (M : In "position" (meta_cols df_a df_b)).
  { apply meta_cols_In. split; [cbn; auto | exact H]. }
  split; [exact M|].
  unfold joined, merge_outer, other_cols. cbn [columns].
  rewrite !side_columns_eq.
  destruct H as [H|H]; [left | right].
  - apply in_app_iff. left. right. right.
    apply in_map_iff. exists "position". split; [reflexivity|].
    apply filter_In. split; [exact M | now apply has_col_In].
  - apply in_app_iff. right. apply filter_In. split; [|reflexivity].
    right. right. apply in_map_iff. exists "position".
    split; [reflexivity|].
    apply filter_In. split; [exact M | now apply has_col_In].
Qed.

(** [build_report] returns a report for two loadable files of which one
    has a position column, when the positions are text. *)
Lemma build_report_returns path_a path_b df_a df_b :
  load path_a = Ok df_a -> load path_b = Ok df_b ->
  In "position" (columns df_a) \/ In "position" (columns df_b) ->
  (forall r, In r (rows df_a ++ rows df_b)%list ->
             is_num (cell r "position") = false) ->
  exists report s e d, report_of path_a path_b = Ok (report, s, e, d).
Proof.
  intros La Lb Hpos Htext. unfold build_report, bind. rewrite La, Lb.
  destruct (resolve_date_Ok to_datetime df_a path_a) as [date_a ->].
  destruct (resolve_date_Ok to_datetime df_b path_b) as [date_b ->].
  destruct (date_span date_a date_b) as [[s e] d].
  set (merged := merged_frame df_a df_b d).
  set (out := out_cols (meta_cols df_a df_b) merged).
  destruct (position_in_joined df_a df_b Hpos) as (M & J).
  assert (O : forall k, In k ["position"; "diff_xantaken"; "user_id"] ->
                        In k out).
  { intros k Hk. cbn [In] in Hk.
    destruct Hk as [<-|[<-|[<-|[]]]];
      try (apply out_cols_In; cbn [In]; tauto).
    unfold out, out_cols. apply filter_In. split.
    - cbn [app In]. right. apply in_app_iff. now left.
    - apply has_col_In. unfold merged, merged_frame.
      assert (B : In "position"
                    (columns (fold_left add_meta (meta_cols df_a df_b)
                                (joined df_a df_b))))
        by now apply fold_add_meta_adds.
      destruct d as [n|]; [destruct (n =? 0)|];
        rewrite !with_column_columns; tauto. }
  assert (Row : forall r, In r (rows (select out merged)) ->
             exists m0 m,
               In m0 (rows (joined df_a df_b))
               /\ derived_row d m0 m
               /\ (cell m "position" = cell m0 "position"
                   \/ cell m "position" = cell m0 ("position" ++ "_b")
                   \/ cell m "position" = cell m0 ("position" ++ "_a"))
               /\ forall k, In k out -> cell r k = cell m k).
  { intros r Hr. cbn [rows select] in Hr.
    apply in_map_iff in Hr as (m & <- & Hm).
    destruct (Forall2_In_r _ _ _ _
                (Forall2_and _ _ _ _ (merged_frame_rows df_a df_b d)
                   (merged_frame_meta df_a df_b d)) Hm)
      as (m0 & Hm0 & (D & _) & C).
    exists m0, m. split; [exact Hm0|]. split; [exact D|].
    split; [apply C; auto|]. intros k Hk. now apply select_row_cell. }
  assert (F : List.find
                (fun k => negb (has_col (fst k) (columns (select out merged))))
                sort_keys = None).
  { unfold sort_keys. cbn [List.find fst columns select].
    rewrite !(proj2 (has_col_In _ _)) by (apply O; cbn [In]; auto).
    reflexivity. }
  assert (X : existsb (fun k => mixed (column (select out merged) (fst k)))
                sort_keys = false).
  { unfold sort_keys. cbn [existsb fst].
    rewrite mixed_false_num, mixed_false_str, mixed_false_num;
      [reflexivity |..].
    - intros v Hv. apply in_map_iff in Hv as (r & <- & Hr).
      destruct (Row r Hr) as (m0 & m & Hm0 & (Hu & _) & _ & Hk).
      rewrite Hk, Hu by (apply O; cbn [In]; auto).
      destruct (joined_row_cases df_a df_b m0 Hm0)
        as [(ra & rb & Hra & _ & _ & _ & -> & _)
           |[(ra & Hra & _ & _ & -> & _)|(rb & Hrb & _ & _ & -> & _)]];
        eauto using load_user_id.
    - intros v Hv. apply in_map_iff in Hv as (r & <- & Hr).
      destruct (Row r Hr) as (m0 & m & Hm0 & (_ & _ & _ & Hd & _) & _ & Hk).
      rewrite Hk, Hd by (apply O; cbn [In]; auto).
      now destruct (cell m0 "xantaken_b"), (cell m0 "xantaken_a").
    - intros v Hv. apply in_map_iff in Hv as (r & <- & Hr).
      destruct (Row r Hr) as (m0 & m & Hm0 & _ & Hp & Hk).
      rewrite Hk by (apply O; cbn [In]; auto).
      assert (S : forall sfx, sfx = "_a" \/ sfx = "_b" ->
                 is_num (cell m0 ("position" ++ sfx)) = false).
      { intros sfx Hs.
        destruct (joined_meta_cell df_a df_b m0 "position" sfx Hm0)
          as [-> | (r0 & Hr0 & ->)]; auto. }
      destruct Hp as [-> | [-> | ->]]; [|apply S; auto ..].
      rewrite (joined_bare_cell df_a df_b m0 "position" Hm0); auto. }
  unfold sort_values. rewrite F, X. eauto.
Qed.

End Returns.

(** ** The retry policy of the GET wrapper *)

Lemma retryable_step session req n i backoff last_err :
  Retry.retryable (session i req) = true ->
  Fetcher.attempts session req (S n) i backoff last_err
  = (fst (Fetcher.attempts session req n (S i) (backoff * 1.7)%Q
            (Some (Retry.last_err_of (session i req)))),
     Fetcher.Get req :: Fetcher.Sleep backoff
     :: snd (Fetcher.attempts session req n (S i) (backoff * 1.7)%Q
               (Some (Retry.last_err_of (session i req))))).
Proof.
  cbn [Fetcher.attempts]. unfold Retry.retryable, Retry.last_err_of.
  destruct (session i req) as [e|status text json].
  - intros _. now destruct (Fetcher.attempts _ _ _ _ _ _).
  - destruct (status =? 429);
      [intros _; now destruct (Fetcher.attempts _ _ _ _ _ _)|].
    destruct (negb _);
      [intros _; now destruct (Fetcher.attempts _ _ _ _ _ _)|].
    cbn [orb]. destruct json as [|code msg|data].
    + intros _. now destruct (Fetcher.attempts _ _ _ _ _ _).
    + intros ->. now destruct (Fetcher.attempts _ _ _ _ _ _).
    + discriminate.
Qed.

Lemma decisive_step session req n i backoff last_err :
  Retry.retryable (session i req) = false ->
  Fetcher.attempts session req (S n) i backoff last_err
  = (Retry.verdict (session i req), [Fetcher.Get req]).
Proof.
  cbn [Fetcher.attempts]. unfold Retry.retryable, Retry.verdict.
  destruct (session i req) as [e|status text json]; [discriminate|].
  destruct (status =? 429); [discriminate|].
  destruct (negb _); [discriminate|]. cbn [orb].
  destruct json as [|code msg|data]; [discriminate| |reflexivity].
  now intros ->.
Qed.


Lemma last_err_nonempty o :
  Retry.retryable o = true -> String.eqb (Retry.last_err_of o) "" = false.
Proof.
  unfold Retry.retryable, Retry.last_err_of.
  destruct o as [e|status text json]; [reflexivity|].
  destruct (status =? 429); [reflexivity|].
  destruct (negb _); [reflexivity|]. cbn [orb].
  destruct json; [reflexivity | reflexivity | discriminate].
Qed.

Lemma attempts_exhausted session req n : forall i backoff last_err,
  (forall j, (j < n)%nat -> Retry.retryable (session (i + j)%nat req) = true) ->
  Fetcher.attempts session req n i backoff last_err
  = (Raise (RuntimeError
              match n with
              | O => match last_err with
                     | Some m => if String.eqb m "" then "Failed after retries"
                                 else m
                     | None => "Failed after retries"
                     end
              | S n' => Retry.last_err_of (session (i + n')%nat req)
              end),
     Retry.retries req n backoff).
Proof.
  induction n as [|n IH]; intros i backoff last_err Hre; [reflexivity|].
  assert (H0 : Retry.retryable (session i req) = true).
  { specialize (Hre 0%nat). rewrite Nat.add_0_r in Hre. apply Hre. lia. }
  rewrite (retryable_step _ _ _ _ _ _ H0).
  rewrite IH.
  - cbn [fst snd Retry.retries]. f_equal. f_equal. f_equal.
    destruct n as [|n].
    + rewrite Nat.add_0_r. now rewrite (last_err_nonempty _ H0).
    + now rewrite Nat.add_succ_r.
  - intros j Hj. replace (S i + j)%nat with (i + S j)%nat by lia.
    apply Hre. lia.
Qed.

Lemma attempts_bounded session req n : forall i backoff last_err,
  (length (Fetcher.requests_of
             (snd (Fetcher.attempts session req n i backoff last_err)))
   <= n)%nat.
Proof.
  induction n as [|n IH]; intros i backoff last_err; [reflexivity|].
  destruct (Retry.retryable (session i req)) eqn:E.
  - rewrite (retryable_step _ _ _ _ _ _ E). cbn [snd].
    cbn [Fetcher.requests_of omap list_omap]. cbn [length].
    specialize (IH (S i) (backoff * 1.7)%Q
                  (Some (Retry.last_err_of (session i req)))).
    unfold Fetcher.requests_of in IH. lia.
  - rewrite (decisive_step _ _ _ _ _ _ E). cbn. lia.
Qed.

Lemma sleeps_of_app t1 t2 :
  Retry.sleeps_of (t1 ++ t2) = (Retry.sleeps_of t1 ++ Retry.sleeps_of t2)%list.
Proof. unfold Retry.sleeps_of. apply omap_app. Qed.

Lemma requests_of_retries req k : forall b,
  Fetcher.requests_of (Retry.retries req k b) = repeat req k.
Proof.
  induction k as [|k IH]; intros b; [reflexivity|].
  cbn [Retry.retries repeat]. unfold Fetcher.requests_of in *.
  cbn [omap list_omap]. now rewrite IH.
Qed.

Lemma sleeps_of_retries_length req k : forall b,
  length (Retry.sleeps_of (Retry.retries req k b)) = k.
Proof.
  induction k as [|k IH]; intros b; [reflexivity|].
  cbn [Retry.retries]. unfold Retry.sleeps_of in *.
  cbn [omap list_omap length]. now rewrite IH.
Qed.




(** The trace of the loop: some failed attempts, then nothing more when
    the attempts are used up, or the request that decided. *)
Lemma attempts_trace session req n : forall i backoff last_err,
  exists k,
    (snd (Fetcher.attempts session req n i backoff last_err)
     = Retry.retries req k backoff /\ k = n)
    \/ (snd (Fetcher.attempts session req n i backoff last_err)
        = (Retry.retries req k backoff ++ [Fetcher.Get req])%list
        /\ (k < n)%nat).
Proof.
  induction n as [|n IH]; intros i backoff last_err.
  - exists 0%nat. left. auto.
  - destruct (Retry.retryable (session i req)) eqn:E.
    + rewrite (retryable_step _ _ _ _ _ _ E). cbn [snd].
      destruct (IH (S i) (backoff * 1.7)%Q
                  (Some (Retry.last_err_of (session i req))))
        as (k & [[-> ->]|[-> Hk]]).
      * exists (S n). left. auto.
      * exists (S k). right. split; [reflexivity | lia].
    + rewrite (decisive_step _ _ _ _ _ _ E). exists 0%nat. right.
      split; [reflexivity | lia].
Qed.

Section TornGet.
Variable session : Fetcher.Session.
Variables url api_key : string.
Variable params : list (string * string).
Variables timeout max_retries : Z.

Abbreviation req :=
  {| Fetcher.req_url := url; Fetcher.req_headers := Fetcher.headers api_key;
     Fetcher.req_params := params; Fetcher.req_timeout := timeout |}.
Abbreviation run :=
  (Fetcher.torn_get session url api_key params timeout max_retries).

(** X1.  [torn_get] sends at most [max_retries] requests, all of them
    the same request, and sleeps after each request but the deciding one;
    with [max_retries] zero or negative it sends nothing and raises
    "Failed after retries". *)
Theorem torn_get_bounded :
  (length (Fetcher.requests_of (snd run)) <= Z.to_nat max_retries)%nat
  /\ (forall r, In r (Fetcher.requests_of (snd run)) -> r = req)
  /\ (length (Retry.sleeps_of (snd run))
      <= length (Fetcher.requests_of (snd run)))%nat
  /\ (max_retries <= 0 ->
      run = (Raise (RuntimeError "Failed after retries"), [])).
Proof.
  unfold Fetcher.torn_get. split; [apply attempts_bounded|].
  split; [intros r; apply attempts_requests|]. split.
  - destruct (attempts_trace session req (Z.to_nat max_retries) 0 2 None)
      as (k & [[-> _]|[-> _]]).
    + now rewrite requests_of_retries, repeat_length,
        sleeps_of_retries_length.
    + unfold Fetcher.requests_of. rewrite sleeps_of_app, omap_app.
      fold (Fetcher.requests_of (Retry.retries req k 2)).
      rewrite !length_app, requests_of_retries, repeat_length,
        sleeps_of_retries_length. cbn. lia.
  - intros H. replace (Z.to_nat max_retries) with 0%nat by lia. reflexivity.
Qed.


(** X3.  When all the [max_retries] answers are of the retried kind,
    [torn_get] raises [RuntimeError] with the message of the last
    failure, after [max_retries] requests and as many sleeps: it sleeps
    once more after the last failed attempt. *)
Theorem torn_get_exhausted :
  0 < max_retries ->
  (forall j, (j < Z.to_nat max_retries)%nat ->
             Retry.retryable (session j req) = true) ->
  run = (Raise (RuntimeError
                  (Retry.last_err_of
                     (session (Z.to_nat max_retries - 1)%nat req))),
         Retry.retries req (Z.to_nat max_retries) 2)
  /\ length (Fetcher.requests_of (snd run)) = Z.to_nat max_retries
  /\ length (Retry.sleeps_of (snd run)) = Z.to_nat max_retries.
Proof.
  intros Hpos Hre. unfold Fetcher.torn_get.
  rewrite (attempts_exhausted session req _ 0 2 None Hre).
  destruct (Z.to_nat max_retries) as [|n] eqn:En; [lia|].
  cbn [snd]. rewrite requests_of_retries, repeat_length,
    sleeps_of_retries_length.
  replace (S n - 1)%nat with n by lia. auto.
Qed.


End TornGet.

(** ** The columns of the report *)

Lemma filter_all {A} (p : A -> bool) l :
  (forall x, In x l -> p x = true) -> List.filter p l = l.
Proof.
  induction l as [|x l IH]; [reflexivity|]. intros H. cbn [List.filter].
  rewrite (H x) by now left. f_equal. apply IH. intros y Hy. apply H.
  now right.
Qed.

Lemma meta_in_joined df_a df_b c :
  In c (meta_cols df_a df_b) ->
  In (c ++ "_a") (columns (joined df_a df_b))
  \/ In (c ++ "_b") (columns (joined df_a df_b)).
Proof.
  intros M. pose proof M as M'. apply meta_cols_In in M' as [Hn H].
  unfold joined, merge_outer, other_cols. cbn [columns].
  rewrite !side_columns_eq.
  destruct H as [H|H]; [left | right].
  - apply in_app_iff. left. right. right.
    apply in_map_iff. exists c. split; [reflexivity|].
    apply filter_In. split; [exact M | now apply has_col_In].
  - apply in_app_iff. right. apply filter_In. split.
    + right. right. apply in_map_iff. exists c. split; [reflexivity|].
      apply filter_In. split; [exact M | now apply has_col_In].
    + cbn [In] in Hn. destruct Hn as [<-|[<-|[<-|[]]]]; reflexivity.
Qed.

Lemma out_cols_all df_a df_b d :
  out_cols (meta_cols df_a df_b) (merged_frame df_a df_b d)
  = (["user_id"] ++ meta_cols df_a df_b
     ++ ["xantaken_a"; "xantaken_b"; "diff_xantaken";
         "avg_xantaken_per_day"; "status"])%list.
Proof.
  unfold out_cols. apply filter_all. intros c Hc. apply has_col_In.
  cbn [app] in Hc. destruct Hc as [<-|Hc];
    [apply merged_frame_columns; cbn [In]; auto|].
  apply in_app_iff in Hc as [Hc|Hc];
    [|apply merged_frame_columns; cbn [In] in *; tauto].
  assert (B : In c (columns (fold_left add_meta (meta_cols df_a df_b)
                               (joined df_a df_b))))
    by (apply fold_add_meta_adds; [exact Hc | now apply meta_in_joined]).
  unfold merged_frame.
  destruct d as [n|]; [destruct (n =? 0)|];
    rewrite !with_column_columns; tauto.
Qed.

Lemma select_row_lookup cols r k :
  is_Some (select_row cols r !! k) <-> In k cols.
Proof.
  unfold select_row. split.
  - intros [v Hv]. apply elem_of_list_to_map_2 in Hv.
    apply list_elem_of_In, in_map_iff in Hv as (c & E & Hc).
    now injection E as <- _.
  - intros H. destruct (list_to_map _ !! k) as [v|] eqn:E; [eauto|].
    exfalso. revert E. apply not_eq_None_Some.
    induction cols as [|c cols IH]; [destruct H|].
    cbn [map]. rewrite list_to_map_cons.
    destruct (String.eqb_spec c k) as [->|Hne].
    + rewrite lookup_insert_eq. eauto.
    + rewrite lookup_insert_ne by exact Hne. apply IH.
      destruct H as [H|H]; [congruence | exact H].
Qed.

Section ColumnsOfReport.
Variable str_of_num : Q -> string.
Variable parse_num : string -> option Q.
Variable to_datetime : value -> result date.
Variable read_csv : Path -> result DataFrame.

Abbreviation load := (_load_snapshot str_of_num parse_num read_csv).
Abbreviation report_of :=
  (build_report str_of_num parse_num to_datetime read_csv).

(** X5.  The columns of a report are, in this order: [user_id]; those of
    [name], [position], [level] that one of the two files has;
    [xantaken_a], [xantaken_b], [diff_xantaken], [avg_xantaken_per_day],
    [status].  The working columns ([xantaken_min], [xantaken_max], the
    suffixed metadata) are not among them, and every row holds a cell
    for exactly these columns. *)
Theorem report_columns :
  forall path_a path_b report s e d df_a df_b,
    report_of path_a path_b = Ok (report, s, e, d) ->
    load path_a = Ok df_a -> load path_b = Ok df_b ->
    columns report
    = (["user_id"]
       ++ List.filter (fun c => has_col c (columns df_a)
                                || has_col c (columns df_b))
            ["name"; "position"; "level"]
       ++ ["xantaken_a"; "xantaken_b"; "diff_xantaken";
           "avg_xantaken_per_day"; "status"])%list
    /\ In "position" (columns report)
    /\ ~ In "xantaken_min" (columns report)
    /\ ~ In "xantaken_max" (columns report)
    /\ (forall c sfx, In c ["name"; "position"; "level"] ->
          sfx = "_a" \/ sfx = "_b" -> ~ In (c ++ sfx) (columns report))
    /\ forall r, In r (rows report) ->
         forall k, is_Some (r !! k) <-> In k (columns report).
Proof.
  intros path_a path_b report s e d df_a df_b H La Lb.
  destruct (build_report_inv _ _ _ _ _ _ _ _ _ _ H)
    as (df_a' & df_b' & date_a & date_b & La' & Lb' & _ & _ & _ & S).
  assert (df_a' = df_a) by congruence. assert (df_b' = df_b) by congruence.
  subst df_a' df_b'.
  apply sort_values_inv in S as (Hrows & Hcols & Hkeys).
  cbn [columns select] in Hcols, Hkeys. rewrite out_cols_all in Hcols, Hkeys.
  fold (meta_cols df_a df_b). rewrite Hcols.
  assert (N : forall k,
             In k (["user_id"] ++ meta_cols df_a df_b
                   ++ ["xantaken_a"; "xantaken_b"; "diff_xantaken";
                       "avg_xantaken_per_day"; "status"])%list ->
             In k ["user_id"; "name"; "position"; "level"; "xantaken_a";
                   "xantaken_b"; "diff_xantaken"; "avg_xantaken_per_day";
                   "status"]).
  { intros k Hk. cbn [app] in Hk. destruct Hk as [<-|Hk]; [cbn; auto|].
    apply in_app_iff in Hk as [Hk|Hk].
    - apply meta_cols_In in Hk as [Hk _]. cbn [In] in *. tauto.
    - cbn [In] in *. tauto. }
  split; [reflexivity|].
  split; [apply (Hkeys ("position", true)); cbn; auto|].
  split; [intros Hk; apply N in Hk; cbn [In] in Hk; intuition discriminate|].
  split; [intros Hk; apply N in Hk; cbn [In] in Hk; intuition discriminate|].
  split.
  - intros c sfx Hc Hs Hk. apply N in Hk. cbn [In] in Hc, Hk.
    destruct Hc as [<-|[<-|[<-|[]]]], Hs as [-> | ->];
      intuition discriminate.
  - intros r Hr k. rewrite Hrows in Hr.
    apply (Permutation_in _ (Permutation_sym (stable_sort_perm _ _))) in Hr.
    cbn [rows select] in Hr. apply in_map_iff in Hr as (m & <- & _).
    rewrite select_row_lookup, out_cols_all. reflexivity.
Qed.

End ColumnsOfReport.

(** ** The difference and the rate *)


Section ValuesOfReport.
Variable str_of_num : Q -> string.
Variable parse_num : string -> option Q.
Variable to_datetime : value -> result date.
Variable read_csv : Path -> result DataFrame.

Abbreviation load := (_load_snapshot str_of_num parse_num read_csv).
Abbreviation report_of :=
  (build_report str_of_num parse_num to_datetime read_csv).





End ValuesOfReport.

(** ** Repeated members and the size of the report *)

Lemma length_flat_map_const {A B} (f : A -> list B) n l :
  (forall x, In x l -> length (f x) = n) ->
  length (flat_map f l) = (length l * n)%nat.
Proof.
  induction l as [|x l IH]; [reflexivity|]. intros H.
  cbn [flat_map length]. rewrite List.length_app, (H x) by now left.
  rewrite IH by (intros y Hy; apply H; now right). lia.
Qed.

Lemma merge_group_length on a b k :
  length (merge_group on a b k)
  = joined_count_of (length (with_key on k a)) (length (with_key on k b)).
Proof.
  unfold merge_group.
  destruct (with_key on k a) as [|ra la]; destruct (with_key on k b) as [|rb lb];
    try reflexivity.
  - now rewrite length_map.
  - now rewrite length_map.
  - rewrite (length_flat_map_const _ (length (rb :: lb)))
      by (intros; apply length_map).
    reflexivity.
Qed.

Lemma merge_outer_count_general on a b u :
  length (List.filter (fun r => String.eqb (text_of (cell r on)) u)
            (rows (merge_outer on a b)))
  = joined_count_of (length (with_key on u a)) (length (with_key on u b)).
Proof.
  unfold merge_outer. cbn [rows].
  rewrite (count_flat_map _ _ (fun k => k)) by apply merge_group_key.
  rewrite (list_sum_single (fun k => k)
             (fun k => length (merge_group on a b k)))
    by (rewrite map_id; apply merge_keys_NoDup).
  destruct (List.find _ (merge_keys on a b)) as [k|] eqn:F.
  - apply find_some in F as [_ F]. apply String.eqb_eq in F. subst k.
    apply merge_group_length.
  - assert (N : ~ In u (merge_keys on a b)).
    { intros H. pose proof (find_none _ _ F u H) as E. cbn in E.
      now rewrite String.eqb_refl in E. }
    rewrite merge_keys_In in N.
    assert (Ea : with_key on u a = []).
    { destruct (with_key on u a) as [|r l] eqn:E; [reflexivity|].
      exfalso. apply N. left. apply in_map_iff. exists r.
      assert (Hr : In r (with_key on u a)) by (rewrite E; now left).
      apply with_key_In in Hr as [Hr Hk]. auto. }
    assert (Eb : with_key on u b = []).
    { destruct (with_key on u b) as [|r l] eqn:E; [reflexivity|].
      exfalso. apply N. right. apply in_map_iff. exists r.
      assert (Hr : In r (with_key on u b)) by (rewrite E; now left).
      apply with_key_In in Hr as [Hr Hk]. auto. }
    now rewrite Ea, Eb.
Qed.

Lemma side_with_key df_a df_b sfx sfx' df u :
  (sfx = "_a" /\ sfx' = "_b") \/ (sfx = "_b" /\ sfx' = "_a") ->
  length (with_key "user_id" u (side sfx (meta_cols df_a df_b) df))
  = occurrences u (rows df).
Proof.
  intros Hs. destruct (side_row_lookup df_a df_b sfx sfx' df Hs)
    as (g & Hrows & Hg).
  unfold with_key, occurrences. rewrite Hrows.
  apply (count_map (fun r => text_of (cell r "user_id")) g
           (fun r => text_of (cell r "user_id"))).
  intros r. destruct (Hg r) as (Hu & _). unfold cell. now rewrite Hu.
Qed.

Lemma length_flat_map_ones {A B} (f : A -> list B) l :
  (forall x, In x l -> length (f x) = 1%nat) ->
  length (flat_map f l) = length l.
Proof.
  intros H. rewrite (length_flat_map_const f 1) by exact H. lia.
Qed.

Lemma remove_dups_shorter (l : list string) :
  (length (remove_dups l) <= length l)%nat.
Proof.
  induction l as [|x l IH]; [reflexivity|]. cbn [remove_dups].
  destruct (decide_rel elem_of x l); cbn [length]; lia.
Qed.

Section SizeOfReport.
Variable str_of_num : Q -> string.
Variable parse_num : string -> option Q.
Variable to_datetime : value -> result date.
Variable read_csv : Path -> result DataFrame.

Abbreviation load := (_load_snapshot str_of_num parse_num read_csv).
Abbreviation report_of :=
  (build_report str_of_num parse_num to_datetime read_csv).

Lemma report_length path_a path_b report s e d df_a df_b :
  report_of path_a path_b = Ok (report, s, e, d) ->
  load path_a = Ok df_a -> load path_b = Ok df_b ->
  length (rows report) = length (rows (joined df_a df_b)).
Proof.
  intros H La Lb.
  destruct (build_report_inv _ _ _ _ _ _ _ _ _ _ H)
    as (df_a' & df_b' & date_a & date_b & La' & Lb' & _ & _ & _ & S).
  assert (df_a' = df_a) by congruence. assert (df_b' = df_b) by congruence.
  subst df_a' df_b'.
  apply sort_values_inv in S as (Hrows & _ & _). rewrite Hrows.
  rewrite <- (Permutation_length (stable_sort_perm _ _)).
  symmetry. eapply Forall2_length. apply select_merged_rows.
Qed.

(** X8.  Members repeated in a snapshot multiply: a member with [m] rows
    in the first table and [n] rows in the second has [m] times [n] rows
    in the report, and [m] or [n] rows when the other table does not
    have it. *)
Theorem repeated_members_multiply :
  forall path_a path_b report s e d df_a df_b u,
    report_of path_a path_b = Ok (report, s, e, d) ->
    load path_a = Ok df_a -> load path_b = Ok df_b ->
    occurrences u (rows report)
    = joined_count_of (occurrences u (rows df_a)) (occurrences u (rows df_b)).
Proof.
  intros path_a path_b report s e d df_a df_b u H La Lb.
  rewrite (report_count _ _ _ _ _ _ _ _ _ _ _ _ u H La Lb).
  unfold occurrences at 1, joined. rewrite merge_outer_count_general.
  now rewrite (side_with_key df_a df_b "_a" "_b"),
    (side_with_key df_a df_b "_b" "_a") by auto.
Qed.

(** X9.  For two snapshots without repeated members the report has one
    row for each member of the union: its number of rows is the number of
    distinct members of the two tables. *)
Theorem report_size :
  forall path_a path_b report s e d df_a df_b,
    report_of path_a path_b = Ok (report, s, e, d) ->
    load path_a = Ok df_a -> load path_b = Ok df_b ->
    NoDup (member_ids df_a) -> NoDup (member_ids df_b) ->
    length (rows report)
    = length (remove_dups (member_ids df_a ++ member_ids df_b))
    /\ (length (rows df_a) <= length (rows report))%nat
    /\ (length (rows df_b) <= length (rows report))%nat
    /\ (length (rows report) <= length (rows df_a) + length (rows df_b))%nat.
Proof.
  intros path_a path_b report s e d df_a df_b H La Lb Na Nb.
  rewrite (report_length _ _ _ _ _ _ _ _ H La Lb).
  assert (L : length (rows (joined df_a df_b))
              = length (remove_dups (member_ids df_a ++ member_ids df_b))).
  { unfold joined, merge_outer. cbn [rows].
    rewrite length_flat_map_ones.
    - unfold merge_keys.
      rewrite <- (Permutation_length (stable_sort_perm String.leb _)).
      rewrite map_app.
      fold (member_ids (side "_a" (meta_cols df_a df_b) df_a)).
      fold (member_ids (side "_b" (meta_cols df_a df_b) df_b)).
      now rewrite (side_member_ids df_a df_b "_a" "_b"),
        (side_member_ids df_a df_b "_b" "_a") by auto.
    - intros k Hk. rewrite merge_group_length.
      rewrite (side_with_key df_a df_b "_a" "_b"),
        (side_with_key df_a df_b "_b" "_a") by auto.
      apply merge_keys_In in Hk.
      fold (member_ids (side "_a" (meta_cols df_a df_b) df_a)) in Hk.
      fold (member_ids (side "_b" (meta_cols df_a df_b) df_b)) in Hk.
      rewrite (side_member_ids df_a df_b "_a" "_b"),
        (side_member_ids df_a df_b "_b" "_a") in Hk by auto.
      unfold occurrences.
      rewrite (count_NoDup (fun r => text_of (cell r "user_id")) k _ Na).
      rewrite (count_NoDup (fun r => text_of (cell r "user_id")) k _ Nb).
      fold (member_ids df_a). fold (member_ids df_b).
      rewrite <- !has_col_In in Hk.
      destruct (has_col k (member_ids df_a)), (has_col k (member_ids df_b));
        try reflexivity. destruct Hk; discriminate. }
  rewrite L. split; [reflexivity|].
  assert (Ia : length (rows df_a) = length (member_ids df_a))
    by (unfold member_ids; now rewrite length_map).
  assert (Ib : length (rows df_b) = length (member_ids df_b))
    by (unfold member_ids; now rewrite length_map).
  rewrite Ia, Ib.
  assert (Sub : forall l l' : list string,
             NoDup l -> (forall x, In x l -> In x l') ->
             (length l <= length (remove_dups l'))%nat).
  { intros l l' Hl Hin. apply submseteq_length, NoDup_submseteq; [exact Hl|].
    intros x Hx. apply elem_of_remove_dups, list_elem_of_In, Hin.
    now apply list_elem_of_In. }
  split; [apply Sub; [exact Na|]; intros x Hx; apply in_app_iff; auto|].
  split; [apply Sub; [exact Nb|]; intros x Hx; apply in_app_iff; auto|].
  rewrite <- List.length_app. apply remove_dups_shorter.
Qed.

End SizeOfReport.

(** ** Where the metadata of the report comes from *)

Lemma suffixed_lookup (f : string -> value) sfx s c l :
  (forall c', In c' l -> c' = "name" \/ c' = "position" \/ c' = "level") ->
  (c = "name" \/ c = "position" \/ c = "level") ->
  (sfx = "_a" \/ sfx = "_b") -> (s = "_a" \/ s = "_b") ->
  (list_to_map (map (fun c => (c ++ sfx, f c)) l) : gmap string value)
    !! (c ++ s)
  = if String.eqb s sfx && has_col c l then Some (f c) else None.
Proof.
  intros Hl Hc Hsfx Hs. induction l as [|c0 l IH].
  - cbn. now rewrite andb_false_r.
  - cbn [map]. rewrite list_to_map_cons.
    assert (H0 : c0 = "name" \/ c0 = "position" \/ c0 = "level")
      by (apply Hl; now left).
    destruct (decide (c0 ++ sfx = c ++ s)) as [E|N].
    + rewrite E, lookup_insert_eq.
      apply suffix_inj in E as [-> ->]; auto.
      unfold has_col. cbn [existsb]. now rewrite !String.eqb_refl.
    + rewrite lookup_insert_ne by exact N.
      rewrite IH by (intros; apply Hl; now right).
      unfold has_col. cbn [existsb].
      destruct (String.eqb_spec s sfx) as [->|Hne]; [|reflexivity].
      destruct (String.eqb_spec c c0) as [->|Hne']; [congruence|reflexivity].
Qed.

Lemma name_not_suffixed c c' s :
  (c = "name" \/ c = "position" \/ c = "level") ->
  (c' = "name" \/ c' = "position" \/ c' = "level") ->
  (s = "_a" \/ s = "_b") -> c' ++ s <> c.
Proof.
  intros [-> | [-> | ->]] [-> | [-> | ->]] [-> | ->]; discriminate.
Qed.

Section MetadataFacts.
Variables df_a df_b : DataFrame.

Abbreviation metas := (meta_cols df_a df_b).
Abbreviation key_of :=
  (fun r : gmap string value => text_of (cell r "user_id")).

Lemma kept_has_col df c :
  df = df_a \/ df = df_b ->
  (c = "name" \/ c = "position" \/ c = "level") ->
  has_col c (List.filter (fun c => has_col c (columns df)) metas)
  = has_col c (columns df).
Proof.
  intros Hdf Hc. destruct (has_col c (columns df)) eqn:E.
  - apply has_col_In, filter_In. split; [|exact E].
    apply meta_cols_In. apply has_col_In in E.
    split; [destruct Hc as [->|[->| ->]]; cbn [In]; auto|].
    destruct Hdf as [-> | ->]; auto.
  - apply has_col_false. intros H. apply filter_In in H as [_ H]. congruence.
Qed.

(** The cells of a row of a side, exactly. *)
Lemma side_row_exact sfx df :
  sfx = "_a" \/ sfx = "_b" -> df = df_a \/ df = df_b ->
  exists g,
    rows (side sfx metas df) = map g (rows df)
    /\ forall r,
         g r !! "user_id" = Some (cell r "user_id")
         /\ g r !! ("xantaken" ++ sfx) = Some (cell r "xantaken")
         /\ forall c s,
              (c = "name" \/ c = "position" \/ c = "level") ->
              (s = "_a" \/ s = "_b") ->
              g r !! (c ++ s)
              = if String.eqb s sfx && has_col c (columns df)
                then Some (cell r c) else None.
Proof.
  intros Hsfx Hdf.
  destruct (side_rows df_a df_b sfx df) as (g & Hrows & Hg).
  exists g. split; [exact Hrows|]. intros r. rewrite Hg.
  split; [apply lookup_insert_eq|]. split.
  - rewrite lookup_insert_ne by (destruct Hsfx as [-> | ->]; discriminate).
    apply lookup_insert_eq.
  - intros c s Hc Hs.
    rewrite lookup_insert_ne
      by (destruct Hc as [->|[->| ->]], Hs as [->| ->]; discriminate).
    rewrite lookup_insert_ne
      by (destruct Hc as [->|[->| ->]], Hs as [->| ->], Hsfx as [->| ->];
          discriminate).
    rewrite (suffixed_lookup (fun c => cell r c)); auto.
    + now rewrite kept_has_col.
    + intros c' Hc'. now apply (kept_names df_a df_b df).
Qed.

Lemma nan_row_default cols k : cell (nan_row cols) k = NaN.
Proof. unfold cell. rewrite nan_row_lookup. now destruct (has_col k cols). Qed.

(** The rows of the joined table, with the rows of the two loaded tables
    they are made of and their metadata cells. *)
Lemma joined_row_sources m :
  In m (rows (joined df_a df_b)) ->
  (exists ra rb,
      In ra (rows df_a) /\ In rb (rows df_b)
      /\ key_of ra = key_of m /\ key_of rb = key_of m
      /\ forall c, (c = "name" \/ c = "position" \/ c = "level") ->
           cell m (c ++ "_a") = meta_of df_a ra c
           /\ cell m (c ++ "_b") = meta_of df_b rb c)
  \/ (exists ra,
        In ra (rows df_a) /\ ~ In (key_of m) (member_ids df_b)
        /\ key_of ra = key_of m
        /\ forall c, (c = "name" \/ c = "position" \/ c = "level") ->
             cell m (c ++ "_a") = meta_of df_a ra c
             /\ cell m (c ++ "_b") = NaN)
  \/ (exists rb,
        In rb (rows df_b) /\ ~ In (key_of m) (member_ids df_a)
        /\ key_of rb = key_of m
        /\ forall c, (c = "name" \/ c = "position" \/ c = "level") ->
             cell m (c ++ "_a") = NaN
             /\ cell m (c ++ "_b") = meta_of df_b rb c).
Proof.
  unfold joined. intros Hm.
  apply merge_rows_In in Hm as (k & _ & Hm).
  pose proof (merge_group_key _ _ _ _ _ Hm) as Hk. cbv beta in Hk.
  destruct (side_row_exact "_a" df_a) as (ga & Ra & Ga); [auto|auto|].
  destruct (side_row_exact "_b" df_b) as (gb & Rb & Gb); [auto|auto|].
  assert (Sa : member_ids (side "_a" metas df_a) = member_ids df_a)
    by (apply (side_member_ids df_a df_b "_a" "_b"); auto).
  assert (Sb : member_ids (side "_b" metas df_b) = member_ids df_b)
    by (apply (side_member_ids df_a df_b "_b" "_a"); auto).
  assert (Ka : forall r, key_of (ga r) = key_of r).
  { intros r. destruct (Ga r) as (Hu & _). unfold cell. now rewrite Hu. }
  assert (Kb : forall r, key_of (gb r) = key_of r).
  { intros r. destruct (Gb r) as (Hu & _). unfold cell. now rewrite Hu. }
  assert (Ma : forall r c, (c = "name" \/ c = "position" \/ c = "level") ->
             ga r !! (c ++ "_a")
             = (if has_col c (columns df_a) then Some (cell r c) else None)
             /\ ga r !! (c ++ "_b") = None).
  { intros r c Hc. destruct (Ga r) as (_ & _ & G).
    split; rewrite G by auto; reflexivity. }
  assert (Mb : forall r c, (c = "name" \/ c = "position" \/ c = "level") ->
             gb r !! (c ++ "_b")
             = (if has_col c (columns df_b) then Some (cell r c) else None)
             /\ gb r !! (c ++ "_a") = None).
  { intros r c Hc. destruct (Gb r) as (_ & _ & G).
    split; rewrite G by auto; reflexivity. }
  assert (U : forall (x y : gmap string value) k',
             cell (x ∪ y) k'
             = match x !! k' with Some v => v | None => cell y k' end).
  { intros x y k'. unfold cell. rewrite lookup_union.
    now destruct (x !! k'), (y !! k'). }
  assert (D : forall (x : gmap string value) k', x !! k' = None -> cell x k' = NaN).
  { intros x k' E. unfold cell. now rewrite E. }
  apply merge_group_In in Hm
    as [(ra' & rb' & Ha & Hb & ->)|[(ra' & Ha & Eb & ->)|(rb' & Hb & Ea & ->)]].
  - apply with_key_In in Ha as [Ha Hka], Hb as [Hb Hkb].
    rewrite Ra in Ha. rewrite Rb in Hb.
    apply in_map_iff in Ha as (ra & <- & Ha), Hb as (rb & <- & Hb).
    left. exists ra, rb. rewrite Ka in Hka. rewrite Kb in Hkb.
    repeat (split; [assumption || congruence|]).
    intros c Hc. destruct (Ma ra c Hc) as (A1 & A2), (Mb rb c Hc) as (B1 & B2).
    rewrite !U, A1, A2. unfold meta_of, cell. rewrite B1, B2.
    split; destruct (has_col c (columns df_a)), (has_col c (columns df_b));
      reflexivity.
  - apply with_key_In in Ha as [Ha Hka].
    rewrite Ra in Ha. apply in_map_iff in Ha as (ra & <- & Ha).
    right. left. exists ra. rewrite Ka in Hka.
    split; [assumption|]. split.
    { rewrite Hk, <- Sb. now apply with_key_nil. }
    split; [congruence|].
    intros c Hc. destruct (Ma ra c Hc) as (A1 & A2).
    rewrite !U, A1, A2, !nan_row_default. unfold meta_of.
    split; destruct (has_col c (columns df_a)); reflexivity.
  - apply with_key_In in Hb as [Hb Hkb].
    rewrite Rb in Hb. apply in_map_iff in Hb as (rb & <- & Hb).
    right. right. exists rb. rewrite Kb in Hkb.
    split; [assumption|]. split.
    { rewrite Hk, <- Sa. now apply with_key_nil. }
    split; [congruence|].
    intros c Hc. destruct (Mb rb c Hc) as (B1 & B2).
    rewrite !U, B1, B2, !nan_row_default. unfold meta_of.
    split; destruct (has_col c (columns df_b)); reflexivity.
Qed.

End MetadataFacts.

(** One turn of the metadata loop, on a row that is null where the table
    has no column. *)
Lemma add_meta_value df c :
  Forall2 (fun m0 m =>
             (has_col (c ++ "_a") (columns df) = false ->
              cell m0 (c ++ "_a") = NaN) ->
             (has_col (c ++ "_b") (columns df) = false ->
              cell m0 (c ++ "_b") = NaN) ->
             cell m0 c = NaN ->
             cell m c
             = combine_first (cell m0 (c ++ "_b")) (cell m0 (c ++ "_a")))
    (rows df) (rows (add_meta df c)).
Proof.
  unfold add_meta. cbv zeta.
  destruct (has_col (c ++ "_b") (columns df)) eqn:Eb,
           (has_col (c ++ "_a") (columns df)) eqn:Ea; cbn [andb].
  - eapply Forall2_impl; [apply with_column_rows|].
    intros m0 m [E _] _ _ _. exact E.
  - eapply Forall2_impl; [apply with_column_rows|].
    intros m0 m [E _] Ha _ _. cbv beta in E. rewrite E, Ha by reflexivity.
    unfold combine_first. now destruct (cell m0 (c ++ "_b")).
  - eapply Forall2_impl; [apply with_column_rows|].
    intros m0 m [E _] _ Hb _. cbv beta in E. rewrite E, Hb by reflexivity.
    reflexivity.
  - rewrite <- (map_id (rows df)) at 2. apply Forall2_map_self.
    intros m0 Ha Hb Hc. now rewrite Ha, Hb, Hc.
Qed.

Lemma fold_add_meta_value cs : forall df,
  NoDup cs ->
  (forall c, In c cs -> c = "name" \/ c = "position" \/ c = "level") ->
  Forall2 (fun m0 m =>
             (forall c, In c cs ->
                (forall s, s = "_a" \/ s = "_b" ->
                           has_col (c ++ s) (columns df) = false ->
                           cell m0 (c ++ s) = NaN)
                /\ cell m0 c = NaN) ->
             forall c, In c cs ->
               cell m c
               = combine_first (cell m0 (c ++ "_b")) (cell m0 (c ++ "_a")))
    (rows df) (rows (fold_left add_meta cs df)).
Proof.
  induction cs as [|c0 cs IH]; intros df ND Hn.
  - cbn [fold_left]. rewrite <- (map_id (rows df)) at 2.
    apply Forall2_map_self. intros m0 _ c [].
  - cbn [fold_left]. apply NoDup_cons in ND as [N0 ND].
    rewrite list_elem_of_In in N0.
    assert (H0 : c0 = "name" \/ c0 = "position" \/ c0 = "level")
      by (apply Hn; now left).
    assert (Hn' : forall c, In c cs ->
                            c = "name" \/ c = "position" \/ c = "level")
      by (intros; apply Hn; now right).
    pose proof (Forall2_and _ _ _ _ (add_meta_value df c0)
                  (add_meta_rows df c0)) as S1.
    pose proof (Forall2_and _ _ _ _ (IH (add_meta df c0) ND Hn')
                  (fold_add_meta_rows cs (add_meta df c0))) as S2.
    refine (Forall2_compose _ _ _ _ _ _ _ S1 S2). cbv beta.
    intros m0 m1 m [V1 K1] [V2 K2] Q c Hc.
    destruct Hc as [<- | Hc].
    + rewrite K2 by exact N0.
      destruct (Q c0 (or_introl eq_refl)) as [Qs Qc].
      apply V1; [apply Qs | apply Qs | exact Qc]; auto.
    + assert (Hc' : c = "name" \/ c = "position" \/ c = "level")
        by now apply Hn'.
      assert (Ne : c <> c0) by (intros ->; contradiction).
      rewrite V2; [|clear c Hc Hc' Ne|exact Hc].
      * now rewrite !K1 by (apply name_not_suffixed; auto).
      * intros c Hc.
        assert (Hc' : c = "name" \/ c = "position" \/ c = "level")
          by now apply Hn'.
        assert (Ne : c <> c0) by (intros ->; contradiction).
        destruct (Q c (or_intror Hc)) as [Qs Qc]. split.
        -- intros s Hs Hcol.
           rewrite K1 by (apply name_not_suffixed; auto).
           apply Qs; [exact Hs|]. apply has_col_false. intros Hin.
           apply has_col_false in Hcol. apply Hcol.
           now apply add_meta_columns_mono.
        -- now rewrite K1 by exact Ne.
Qed.

Lemma meta_cols_NoDup df_a df_b : NoDup (meta_cols df_a df_b).
Proof.
  unfold meta_cols. cbn [List.filter].
  destruct (_ || _), (_ || _), (_ || _);
    repeat (apply NoDup_cons; split;
            [rewrite list_elem_of_In; cbn [In]; intuition discriminate|]);
    apply NoDup_nil; exact I.
Qed.

Lemma suffixed_in_joined df_a df_b c :
  (c = "name" \/ c = "position" \/ c = "level") ->
  (In c (columns df_a) -> In (c ++ "_a") (columns (joined df_a df_b)))
  /\ (In c (columns df_b) -> In (c ++ "_b") (columns (joined df_a df_b))).
Proof.
  intros Hn.
  assert (M : In c (columns df_a) \/ In c (columns df_b) ->
              In c (meta_cols df_a df_b)).
  { intros H. apply meta_cols_In. split; [|exact H].
    destruct Hn as [->|[->| ->]]; cbn [In]; auto. }
  unfold joined, merge_outer, other_cols. cbn [columns].
  rewrite !side_columns_eq. split; intros H.
  - apply in_app_iff. left. right. right.
    apply in_map_iff. exists c. split; [reflexivity|].
    apply filter_In. split; [auto | now apply has_col_In].
  - apply in_app_iff. right. apply filter_In. split.
    + right. right. apply in_map_iff. exists c. split; [reflexivity|].
      apply filter_In. split; [auto | now apply has_col_In].
    + destruct Hn as [->|[->| ->]]; reflexivity.
Qed.

(** The metadata of the completed table, row by row. *)
Lemma merged_frame_prefers df_a df_b d :
  Forall2 (fun m0 m =>
             In m0 (rows (joined df_a df_b)) ->
             cell m "user_id" = cell m0 "user_id"
             /\ forall c, In c (meta_cols df_a df_b) ->
                  cell m c
                  = combine_first (cell m0 (c ++ "_b")) (cell m0 (c ++ "_a")))
    (rows (joined df_a df_b)) (rows (merged_frame df_a df_b d)).
Proof.
  assert (Hn : forall c, In c (meta_cols df_a df_b) ->
                         c = "name" \/ c = "position" \/ c = "level").
  { intros c Hc. apply meta_cols_In in Hc as [Hc _]. cbn [In] in Hc.
    intuition. }
  pose proof (fold_add_meta_value (meta_cols df_a df_b) (joined df_a df_b)
                (meta_cols_NoDup df_a df_b) Hn) as S1.
  pose proof (Forall2_and _ _ _ _ S1
                (fold_add_meta_rows (meta_cols df_a df_b) (joined df_a df_b)))
    as S1'.
  refine (Forall2_compose _ _ _ _ _ _ _ S1' (merged_frame_keeps df_a df_b d)).
  cbv beta. intros m0 m1 m [V K1] K Hm0.
  split.
  - rewrite K by (cbn [In]; intuition discriminate).
    apply K1. intros H. apply Hn in H. intuition discriminate.
  - intros c Hc. pose proof (Hn c Hc) as Hc'.
    rewrite K
      by (cbn [In]; destruct Hc' as [->|[->| ->]]; intuition discriminate).
    apply V; [|exact Hc]. clear c Hc Hc'. intros c Hc.
    pose proof (Hn c Hc) as Hc'. split.
    + intros s Hs Hcol. apply has_col_false in Hcol.
      destruct (suffixed_in_joined df_a df_b c Hc') as [Ia Ib].
      assert (Na : s = "_a" -> has_col c (columns df_a) = false)
        by (intros ->; apply has_col_false; auto).
      assert (Nb : s = "_b" -> has_col c (columns df_b) = false)
        by (intros ->; apply has_col_false; auto).
      destruct (joined_row_sources df_a df_b m0 Hm0)
        as [(ra & rb & _ & _ & _ & _ & M)
           |[(ra & _ & _ & _ & M)|(rb & _ & _ & _ & M)]];
        destruct (M c Hc') as [Ma Mb]; destruct Hs as [-> | ->];
        rewrite ?Ma, ?Mb; unfold meta_of; rewrite ?Na, ?Nb by reflexivity;
        reflexivity.
    + now apply (joined_bare_cell df_a df_b).
Qed.

Section MetadataOfReport.
Variable str_of_num : Q -> string.
Variable parse_num : string -> option Q.
Variable to_datetime : value -> result date.
Variable read_csv : Path -> result DataFrame.

Abbreviation load := (_load_snapshot str_of_num parse_num read_csv).
Abbreviation report_of :=
  (build_report str_of_num parse_num to_datetime read_csv).
Abbreviation key_of :=
  (fun r : gmap string value => text_of (cell r "user_id")).

(** X10.  The metadata of a report row ([name], [position], [level]) is
    that of the member's row in the second file where that file has the
    column and the cell is not null, and otherwise that of the member's
    row in the first file; for a member of one file only it is the
    metadata of that file. *)
Theorem metadata_prefers_second_file :
  forall path_a path_b report s e d df_a df_b r,
    report_of path_a path_b = Ok (report, s, e, d) ->
    load path_a = Ok df_a -> load path_b = Ok df_b ->
    In r (rows report) ->
    (exists ra rb,
        In ra (rows df_a) /\ In rb (rows df_b)
        /\ key_of ra = key_of r /\ key_of rb = key_of r
        /\ forall c, In c ["name"; "position"; "level"] ->
             cell r c = combine_first (meta_of df_b rb c) (meta_of df_a ra c))
    \/ (exists ra,
          In ra (rows df_a) /\ ~ In (key_of r) (member_ids df_b)
          /\ key_of ra = key_of r
          /\ forall c, In c ["name"; "position"; "level"] ->
               cell r c = meta_of df_a ra c)
    \/ (exists rb,
          In rb (rows df_b) /\ ~ In (key_of r) (member_ids df_a)
          /\ key_of rb = key_of r
          /\ forall c, In c ["name"; "position"; "level"] ->
               cell r c = meta_of df_b rb c).
Proof.
  intros path_a path_b report s e d df_a df_b r H La Lb Hr.
  destruct (build_report_inv _ _ _ _ _ _ _ _ _ _ H)
    as (df_a' & df_b' & date_a & date_b & La' & Lb' & _ & _ & _ & S).
  assert (df_a' = df_a) by congruence. assert (df_b' = df_b) by congruence.
  subst df_a' df_b'.
  apply sort_values_inv in S as (Hrows & _ & _). rewrite Hrows in Hr.
  apply (Permutation_in _ (Permutation_sym (stable_sort_perm _ _))) in Hr.
  cbn [rows select] in Hr. apply in_map_iff in Hr as (m & <- & Hm).
  destruct (Forall2_In_r _ _ _ _ (merged_frame_prefers df_a df_b d) Hm)
    as (m0 & Hm0 & P).
  destruct (P Hm0) as [Pu Pc]. clear P.
  set (out := out_cols (meta_cols df_a df_b) (merged_frame df_a df_b d)).
  assert (Ku : key_of (select_row out m) = key_of m0).
  { rewrite select_row_cell by (apply out_cols_In; cbn [In]; auto).
    now rewrite Pu. }
  assert (C : forall c, In c ["name"; "position"; "level"] ->
             cell (select_row out m) c
             = combine_first (cell m0 (c ++ "_b")) (cell m0 (c ++ "_a"))
             /\ (c = "name" \/ c = "position" \/ c = "level")).
  { intros c Hc.
    assert (Hc' : c = "name" \/ c = "position" \/ c = "level")
      by (cbn [In] in Hc; intuition).
    split; [|exact Hc'].
    destruct (has_col c (meta_cols df_a df_b)) eqn:E.
    - apply has_col_In in E. rewrite select_row_cell; [now apply Pc|].
      unfold out. rewrite out_cols_all. cbn [app]. right.
      apply in_app_iff. now left.
    - apply has_col_false in E.
      assert (Na : has_col c (columns df_a) = false).
      { apply has_col_false. intros Hin. apply E.
        apply (proj2 (meta_cols_In df_a df_b c)). split; [exact Hc | auto]. }
      assert (Nb : has_col c (columns df_b) = false).
      { apply has_col_false. intros Hin. apply E.
        apply (proj2 (meta_cols_In df_a df_b c)). split; [exact Hc | auto]. }
      assert (O : ~ In c out).
      { unfold out. rewrite out_cols_all. cbn [app]. intros [<-|Hin].
        - destruct Hc' as [X|[X|X]]; discriminate X.
        - apply in_app_iff in Hin as [Hin|Hin]; [contradiction|].
          cbn [In] in Hin. destruct Hc' as [->|[->| ->]];
            intuition discriminate. }
      assert (L : cell (select_row out m) c = NaN).
      { unfold cell. destruct (select_row out m !! c) as [v|] eqn:L;
          [|reflexivity].
        exfalso. apply O. apply (proj1 (select_row_lookup out m c)).
        rewrite L. eauto. }
      rewrite L.
      destruct (joined_row_sources df_a df_b m0 Hm0)
        as [(ra & rb & _ & _ & _ & _ & M)
           |[(ra & _ & _ & _ & M)|(rb & _ & _ & _ & M)]];
        destruct (M c Hc') as [Ma Mb]; rewrite Ma, Mb; unfold meta_of;
        rewrite ?Na, ?Nb; reflexivity. }
  destruct (joined_row_sources df_a df_b m0 Hm0)
    as [(ra & rb & Ha & Hb & Ka & Kb & M)
       |[(ra & Ha & Nb & Ka & M)|(rb & Hb & Na & Kb & M)]].
  - left. exists ra, rb. rewrite Ku.
    repeat (split; [assumption|]).
    intros c Hc. destruct (C c Hc) as [-> Hc'].
    destruct (M c Hc') as [-> ->]. reflexivity.
  - right. left. exists ra. rewrite Ku.
    repeat (split; [assumption|]).
    intros c Hc. destruct (C c Hc) as [-> Hc'].
    destruct (M c Hc') as [-> ->]. reflexivity.
  - right. right. exists rb. rewrite Ku.
    repeat (split; [assumption|]).
    intros c Hc. destruct (C c Hc) as [-> Hc'].
    destruct (M c Hc') as [-> ->].
    unfold combine_first. now destruct (meta_of df_b rb c).
Qed.

End MetadataOfReport.

(** ** The status as a function of the difference *)


Section StatusOfReport.
Variable str_of_num : Q -> string.
Variable parse_num : string -> option Q.
Variable to_datetime : value -> result date.
Variable read_csv : Path -> result DataFrame.

Abbreviation report_of :=
  (build_report str_of_num parse_num to_datetime read_csv).



End StatusOfReport.

(** ** The ordinal of a date and the days between *)

Lemma days_before_year_step y :
  _days_before_year (y + 1)
  = _days_before_year y + 365 + (if _is_leap y then 1 else 0).
Proof.
  unfold _days_before_year, _is_leap. cbv zeta.
  replace (y + 1 - 1) with y by lia.
  destruct (Z.eqb_spec (y mod 4) 0), (Z.eqb_spec (y mod 100) 0),
    (Z.eqb_spec (y mod 400) 0); cbn [negb andb orb];
    Z.div_mod_to_equations; lia.
Qed.

Lemma days_before_year_mono y1 y2 :
  y1 <= y2 -> _days_before_year y1 <= _days_before_year y2.
Proof.
  unfold _days_before_year. cbv zeta. intros H.
  Z.div_mod_to_equations. lia.
Qed.

Lemma month_cases m :
  1 <= m <= 12 ->
  m = 1 \/ m = 2 \/ m = 3 \/ m = 4 \/ m = 5 \/ m = 6 \/ m = 7 \/ m = 8
  \/ m = 9 \/ m = 10 \/ m = 11 \/ m = 12.
Proof. lia. Qed.

Lemma valid_date_inv y m d :
  valid_date y m d = true ->
  1 <= y <= 9999 /\ 1 <= m <= 12 /\ 1 <= d <= _days_in_month y m.
Proof.
  unfold valid_date. rewrite !andb_true_iff, !Z.leb_le. lia.
Qed.

Ltac months :=
  repeat match goal with
         | |- context [Z.to_nat ?k] =>
             let v := eval vm_compute in (Z.to_nat k) in
             change (Z.to_nat k) with v
         end;
  cbn.

(** The day of the year of a calendar date. *)
Lemma day_of_year_bounds y m d :
  valid_date y m d = true ->
  1 <= _days_before_month y m + d <= 365 + (if _is_leap y then 1 else 0).
Proof.
  intros V. apply valid_date_inv in V as (_ & Hm & Hd). revert Hd.
  unfold _days_in_month, _days_before_month.
  generalize (_is_leap y). intros L.
  destruct (month_cases m Hm)
    as [->|[->|[->|[->|[->|[->|[->|[->|[->|[->|[->| ->]]]]]]]]]]];
    destruct L; months; lia.
Qed.

Lemma day_of_year_months y m1 d1 m2 d2 :
  valid_date y m1 d1 = true -> valid_date y m2 d2 = true -> m1 < m2 ->
  _days_before_month y m1 + d1 < _days_before_month y m2 + d2.
Proof.
  intros V1 V2. apply valid_date_inv in V1 as (_ & Hm1 & Hd1).
  apply valid_date_inv in V2 as (_ & Hm2 & Hd2). revert Hd1 Hd2.
  unfold _days_in_month, _days_before_month.
  generalize (_is_leap y). intros L.
  destruct (month_cases m1 Hm1)
    as [->|[->|[->|[->|[->|[->|[->|[->|[->|[->|[->| ->]]]]]]]]]]];
    destruct (month_cases m2 Hm2)
      as [->|[->|[->|[->|[->|[->|[->|[->|[->|[->|[->| ->]]]]]]]]]]];
    intros Hd1 Hd2 Hlt; try lia; revert Hd1 Hd2; destruct L; months; lia.
Qed.

(** A date that is not later has an ordinal that is not larger, and only
    a date has its ordinal. *)
Lemma toordinal_order (a b : date) :
  valid_date (year a) (month a) (day a) = true ->
  valid_date (year b) (month b) (day b) = true ->
  (date_leb a b = true <-> toordinal a <= toordinal b)
  /\ (toordinal a = toordinal b -> a = b).
Proof.
  destruct a as [y1 m1 d1], b as [y2 m2 d2]. cbn [year month day].
  intros V1 V2. unfold toordinal, date_leb. cbn [year month day].
  pose proof (day_of_year_bounds _ _ _ V1) as B1.
  pose proof (day_of_year_bounds _ _ _ V2) as B2.
  assert (Y : forall y y' m d m' d',
             valid_date y m d = true -> valid_date y' m' d' = true ->
             y < y' ->
             _days_before_year y + _days_before_month y m + d
             < _days_before_year y' + _days_before_month y' m' + d').
  { intros y y' m d m' d' V V' Hlt.
    pose proof (day_of_year_bounds _ _ _ V) as B.
    pose proof (day_of_year_bounds _ _ _ V') as B'.
    pose proof (days_before_year_step y) as S.
    pose proof (days_before_year_mono (y + 1) y' ltac:(lia)) as M. lia. }
  destruct (Z.ltb_spec y1 y2) as [Hy|Hy].
  { pose proof (Y _ _ _ _ _ _ V1 V2 Hy). split; [split; [lia|auto]|lia]. }
  destruct (Z.ltb_spec y2 y1) as [Hy'|Hy'].
  { pose proof (Y _ _ _ _ _ _ V2 V1 Hy').
    split; [split; [discriminate|lia]|lia]. }
  assert (y1 = y2) by lia. subst y2.
  destruct (Z.ltb_spec m1 m2) as [Hm|Hm].
  { pose proof (day_of_year_months _ _ _ _ _ V1 V2 Hm).
    split; [split; [lia|auto]|lia]. }
  destruct (Z.ltb_spec m2 m1) as [Hm'|Hm'].
  { pose proof (day_of_year_months _ _ _ _ _ V2 V1 Hm').
    split; [split; [discriminate|lia]|lia]. }
  assert (m1 = m2) by lia. subst m2.
  rewrite Z.leb_le. split; [lia|]. intros E. f_equal. lia.
Qed.

Section DaysBetween.
Variable str_of_num : Q -> string.
Variable parse_num : string -> option Q.
Variable to_datetime : value -> result date.
Variable read_csv : Path -> result DataFrame.

Abbreviation report_of :=
  (build_report str_of_num parse_num to_datetime read_csv).

(** X12.  When [build_report] returns a number of days between, it also
    returns a start and an end date; for calendar dates the number is the
    ordinal of the end date minus that of the start date, it is never
    negative, and it is zero exactly when the two dates are the same
    day, in which case the rate of every row is null. *)
Theorem days_between_of_report :
  forall path_a path_b report s e n,
    report_of path_a path_b = Ok (report, s, e, Some n) ->
    exists start_date end_date,
      s = Some start_date /\ e = Some end_date
      /\ (valid_date (year start_date) (month start_date) (day start_date)
          = true ->
          valid_date (year end_date) (month end_date) (day end_date) = true ->
          n = toordinal end_date - toordinal start_date
          /\ 0 <= n
          /\ (n = 0 <-> start_date = end_date)
          /\ (start_date = end_date ->
              forall r, In r (rows report) ->
                        cell r "avg_xantaken_per_day" = NaN)).
Proof.
  intros path_a path_b report s e n H.
  destruct (build_report_inv _ _ _ _ _ _ _ _ _ _ H)
    as (df_a & df_b & date_a & date_b & _ & _ & _ & _ & Sp & _).
  assert (R : forall r, In r (rows report) -> n = 0 ->
                        cell r "avg_xantaken_per_day" = NaN).
  { intros r Hr ->.
    destruct (report_row_inv _ _ _ _ _ _ _ _ _ _ _ H Hr)
      as (? & ? & m0 & _ & _ & _ & D).
    destruct D as (_ & _ & _ & _ & Havg & _). exact Havg. }
  destruct date_a as [a|], date_b as [b|]; unfold date_span in Sp;
    try (destruct date_a; discriminate Sp); try discriminate Sp.
  unfold days_from in Sp.
  destruct (date_leb a b) eqn:L; injection Sp as <- <- <-.
  - exists a, b. split; [reflexivity|]. split; [reflexivity|].
    intros Va Vb. destruct (toordinal_order a b Va Vb) as (O & I).
    apply O in L.
    assert (E : Z.abs (toordinal b - toordinal a)
                = toordinal b - toordinal a) by lia.
    rewrite E in *. split; [reflexivity|]. split; [lia|]. split.
    + split; [intros Z; apply I; lia | intros ->; lia].
    + intros ->. intros r Hr. apply R; [exact Hr | lia].
  - exists b, a. split; [reflexivity|]. split; [reflexivity|].
    intros Vb Va. destruct (toordinal_order b a Vb Va) as (O & I).
    apply date_leb_total in L. apply O in L.
    assert (E : Z.abs (toordinal b - toordinal a)
                = toordinal a - toordinal b) by lia.
    rewrite E in *. split; [reflexivity|]. split; [lia|]. split.
    + split; [intros Z; apply I; lia | intros ->; lia].
    + intros ->. intros r Hr. apply R; [exact Hr | lia].
Qed.

End DaysBetween.

(** ** The date in the name of a written file *)

Lemma digit_char_spec n :
  0 <= n <= 9 ->
  is_digit (digit_char n) = true /\ digit_val (digit_char n) = n.
Proof.
  intros H. rewrite <- (Z2Nat.id n) by lia.
  assert (L : (Z.to_nat n < 10)%nat) by lia. revert L.
  generalize (Z.to_nat n). intros k L.
  do 10 (destruct k as [|k]; [split; reflexivity|]). lia.
Qed.

Lemma digit_char_mod n :
  is_digit (digit_char (n mod 10)) = true
  /\ digit_val (digit_char (n mod 10)) = n mod 10.
Proof. apply digit_char_spec. pose proof (Z.mod_pos_bound n 10). lia. Qed.

(** The pattern reads an ISO date back. *)
Lemma match_isoformat d rest :
  valid_date (year d) (month d) (day d) = true ->
  match_date_at (isoformat d ++ rest) = Some (year d, month d, day d).
Proof.
  intros V. apply valid_date_inv in V as (Hy & Hm & Hd).
  assert (Hd' : day d <= 31).
  { revert Hd. unfold _days_in_month. generalize (_is_leap (year d)).
    intros L.
    destruct (month_cases (month d) Hm)
      as [->|[->|[->|[->|[->|[->|[->|[->|[->|[->|[->| ->]]]]]]]]]]];
      destruct L; months; lia. }
  destruct d as [y m d0]. cbn [year month day] in *.
  change (isoformat {| year := y; month := m; day := d0 |} ++ rest)
    with (String (digit_char (y / 1000 mod 10))
            (String (digit_char (y / 100 mod 10))
               (String (digit_char (y / 10 mod 10))
                  (String (digit_char (y mod 10))
                     (String "-"
                        (String (digit_char (m / 10 mod 10))
                           (String (digit_char (m mod 10))
                              (String "-"
                                 (String (digit_char (d0 / 10 mod 10))
                                    (String (digit_char (d0 mod 10))
                                       rest)))))))))).
  unfold match_date_at.
  destruct (digit_char_mod (y / 1000)) as [-> ->],
    (digit_char_mod (y / 100)) as [-> ->],
    (digit_char_mod (y / 10)) as [-> ->], (digit_char_mod y) as [-> ->],
    (digit_char_mod (m / 10)) as [-> ->], (digit_char_mod m) as [-> ->],
    (digit_char_mod (d0 / 10)) as [-> ->], (digit_char_mod d0) as [-> ->].
  cbn [andb Ascii.eqb Bool.eqb]. do 2 f_equal; [f_equal|];
    Z.div_mod_to_equations; lia.
Qed.

Lemma match_needs_digit c s : is_digit c = false -> match_date_at (String c s) = None.
Proof.
  intros H. unfold match_date_at.
  destruct s as [|? [|? [|? [|? [|? [|? [|? [|? [|? s]]]]]]]]];
    try reflexivity.
  now rewrite H.
Qed.

Lemma match_needs_hyphen c1 c2 c3 c4 c5 s :
  Ascii.eqb c5 "-" = false ->
  match_date_at (String c1 (String c2 (String c3 (String c4 (String c5 s)))))
  = None.
Proof.
  intros H. unfold match_date_at.
  destruct s as [|? [|? [|? [|? [|? s]]]]]; try reflexivity.
  rewrite H. now rewrite andb_false_r.
Qed.

Lemma search_skips_char c s :
  is_digit c = false -> DATE_RE_search (String c s) = DATE_RE_search s.
Proof.
  intros H. cbn [DATE_RE_search]. now rewrite match_needs_digit.
Qed.

Lemma digit_not_hyphen c : is_digit c = true -> Ascii.eqb c "-" = false.
Proof.
  intros H. destruct (Ascii.eqb_spec c "-") as [->|]; [discriminate H|].
  reflexivity.
Qed.

(** The digits of a number before a text that starts with four
    characters other than the hyphen hold no date. *)
Lemma search_skips_digits ds c1 c2 c3 c4 t :
  all_digits ds = true ->
  Ascii.eqb c1 "-" = false -> Ascii.eqb c2 "-" = false ->
  Ascii.eqb c3 "-" = false -> Ascii.eqb c4 "-" = false ->
  DATE_RE_search (ds ++ String c1 (String c2 (String c3 (String c4 t))))
  = DATE_RE_search (String c1 (String c2 (String c3 (String c4 t)))).
Proof.
  intros Hds H1 H2 H3 H4. induction ds as [|c ds IH]; [reflexivity|].
  cbn [all_digits] in Hds. apply andb_true_iff in Hds as [Hc Hds].
  change (String c ds ++ ?x) with (String c (ds ++ x)).
  cbn [DATE_RE_search]. rewrite (IH Hds).
  assert (N : match_date_at
                (String c (ds ++ String c1 (String c2 (String c3 (String c4 t)))))
              = None).
  { destruct ds as [|a [|b [|c' [|d' ds']]]].
    - now apply match_needs_hyphen.
    - now apply match_needs_hyphen.
    - now apply match_needs_hyphen.
    - now apply match_needs_hyphen.
    - apply match_needs_hyphen. apply digit_not_hyphen.
      cbn [all_digits] in Hds.
      now repeat (apply andb_true_iff in Hds as [? Hds]). }
  now rewrite N.
Qed.

Lemma append_cons c (s t : string) : String c s ++ t = String c (s ++ t).
Proof. reflexivity. Qed.

Lemma append_nil_l (t : string) : "" ++ t = t.
Proof. reflexivity. Qed.

Lemma uint_digits d : all_digits (NilEmpty.string_of_uint d) = true.
Proof. induction d; cbn; auto. Qed.

(** [str] of an integer: its digits, after a hyphen when it is
    negative. *)
Lemma str_of_Z_digits z :
  exists ds, all_digits ds = true
             /\ (Fetcher.str_of_Z z = ds \/ Fetcher.str_of_Z z = String "-" ds).
Proof.
  unfold Fetcher.str_of_Z, NilZero.string_of_int.
  destruct (Z.to_int z) as [d|d].
  - exists (NilZero.string_of_uint d). split; [|now left].
    unfold NilZero.string_of_uint. destruct d; try apply uint_digits.
    reflexivity.
  - exists (NilZero.string_of_uint d). split; [|now right].
    unfold NilZero.string_of_uint. destruct d; try apply uint_digits.
    reflexivity.
Qed.

Section WrittenNames.
Variable to_datetime : value -> result date.

Abbreviation resolve_date := (_parse_date_from_df_or_filename to_datetime).

(** X13.  The name of the snapshot that [xans.py] writes carries its
    date: from the file that [main] writes on a calendar day, for any
    faction and directory, [xantaken_diff.py] reads that day back out of
    the name, and this is the reference date of the snapshot whenever
    its date column is absent, empty or unreadable.  Likewise the name
    of the report written by default carries the start date. *)
Theorem written_names_carry_their_date :
  forall outdir faction_id today,
    valid_date (year today) (month today) (day today) = true ->
    date_from_filename (out_path outdir faction_id today) = Ok (Some today)
    /\ (forall df,
          ~ In "export_date" (columns df)
          \/ dropna (column df "export_date") = []
          \/ (exists v l e, dropna (column df "export_date") = v :: l
                            /\ to_datetime v = Raise e) ->
          resolve_date df (out_path outdir faction_id today)
          = Ok (Some today))
    /\ (forall cwd end_date,
          date_from_filename (default_output cwd (Some today) (Some end_date))
          = Ok (Some today)).
Proof.
  intros outdir faction_id today V.
  assert (M : forall rest,
             DATE_RE_search (isoformat today ++ rest)
             = Some (year today, month today, day today)).
  { intros rest.
    pose proof (match_isoformat today rest V) as E.
    destruct (isoformat today ++ rest); cbn [DATE_RE_search]; now rewrite E. }
  assert (F : forall p,
             DATE_RE_search (name p)
             = Some (year today, month today, day today) ->
             date_from_filename p = Ok (Some today)).
  { intros p E. rewrite date_from_filename_eq, E, V. now destruct today. }
  assert (N : date_from_filename (out_path outdir faction_id today)
              = Ok (Some today)).
  { apply F. cbn [name out_path].
    destruct (str_of_Z_digits faction_id) as (ds & Hds & [-> | ->]);
      repeat rewrite ?append_cons, ?append_nil_l;
      rewrite !search_skips_char by reflexivity;
      rewrite search_skips_digits by (exact Hds || reflexivity);
      rewrite !search_skips_char by reflexivity; apply M. }
  split; [exact N|]. split.
  - intros df H. rewrite <- N. unfold _parse_date_from_df_or_filename.
    destruct (has_col "export_date" (columns df)) eqn:E; [|reflexivity].
    destruct H as [H|[H|(v & l & e & H & T)]].
    + apply has_col_In in E. contradiction.
    + now rewrite H.
    + now rewrite H, T.
  - intros cwd end_date. apply F. cbn [name default_output].
    repeat rewrite ?append_cons, ?append_nil_l.
    rewrite !search_skips_char by reflexivity.
    rewrite append_assoc. apply M.
Qed.

End WrittenNames.

(** ** The export of a faction *)

Lemma requests_of_app t1 t2 :
  Fetcher.requests_of (t1 ++ t2)
  = (Fetcher.requests_of t1 ++ Fetcher.requests_of t2)%list.
Proof. unfold Fetcher.requests_of. apply omap_app. Qed.

(** A call of the wrapper with the default five attempts. *)
Lemma torn_get_calls session url api_key params :
  let t := snd (Fetcher.torn_get session url api_key params 30 5) in
  (1 <= length (Fetcher.requests_of t) <= 5)%nat
  /\ forall r, In r (Fetcher.requests_of t) ->
       r = {| Fetcher.req_url := url;
              Fetcher.req_headers := Fetcher.headers api_key;
              Fetcher.req_params := params; Fetcher.req_timeout := 30 |}.
Proof.
  cbv zeta. unfold Fetcher.torn_get. split; [split|].
  - change (Z.to_nat 5) with 5%nat.
    set (req := {| Fetcher.req_url := url |}).
    destruct (Retry.retryable (session 0%nat req)) eqn:E.
    + rewrite (retryable_step _ _ _ _ _ _ E). cbn. lia.
    + rewrite (decisive_step _ _ _ _ _ _ E). cbn. lia.
  - apply attempts_bounded.
  - intros r. apply attempts_requests.
Qed.

Lemma last_Some {A} (l : list A) x :
  List.last (map Some l) None = Some x <-> exists l', l = (l' ++ [x])%list.
Proof.
  split.
  - induction l as [|a l IH]; [discriminate|].
    destruct l as [|b l].
    + cbn. intros [= ->]. now exists [].
    + intros H. destruct (IH H) as (l' & E). exists (a :: l').
      now rewrite E.
  - intros (l' & ->). rewrite map_app. apply last_last.
Qed.

Section ExportFacts.
Import Exporter.
Variable document : string -> json.
Variable int_of_str : string -> option Z.

Abbreviation member_id := (Exporter.member_id int_of_str).
Abbreviation get_faction_members :=
  (Exporter.get_faction_members document).
Abbreviation get_member_xantaken :=
  (Exporter.get_member_xantaken document int_of_str).
Abbreviation xantaken_of := (Exporter.xantaken_of int_of_str).
Abbreviation collect := (Exporter.collect document int_of_str).
Abbreviation row_of := (Exporter.row_of document int_of_str).
Abbreviation main := (Exporter.main document int_of_str).

Abbreviation members_url faction_id :=
  (BASE_URL ++ "/faction/" ++ Fetcher.str_of_Z faction_id ++ "/members").
Abbreviation stats_url user_id :=
  (BASE_URL ++ "/user/" ++ Fetcher.str_of_Z user_id ++ "/personalstats").

Lemma members_of_cases doc :
  members_of doc
  = match doc with
    | JDict d =>
        match lookup_key "members" d with
        | Some (JList l) => Returns l
        | Some v =>
            Raises (Fetch (RuntimeError
                             ("Unexpected members payload shape: <class '"
                              ++ type_name v ++ "'>")))
        | None =>
            Raises (Fetch (RuntimeError
                             ("Unexpected members payload shape: <class '"
                              ++ "NoneType" ++ "'>")))
        end
    | v => Raises (AttributeError
                     ("'" ++ type_name v ++ "' object has no attribute 'get'"))
    end.
Proof.
  unfold members_of. destruct doc as [| | | | | |l0|d]; try reflexivity.
  cbn [get]. destruct (lookup_key "members" d) as [v|]; [|reflexivity].
  now destruct v.
Qed.

Lemma members_eq session api_key faction_id :
  get_faction_members session api_key faction_id
  = (match fst (Fetcher.torn_get session (members_url faction_id) api_key
                  [("striptags", "true")] 30 5) with
     | Raise e => Raises (Fetch e)
     | Ok data => members_of (document data)
     end,
     snd (Fetcher.torn_get session (members_url faction_id) api_key
            [("striptags", "true")] 30 5)).
Proof.
  unfold Exporter.get_faction_members.
  now destruct (Fetcher.torn_get _ _ _ _ _ _) as [[data|e] t].
Qed.

Lemma stats_eq session api_key user_id :
  get_member_xantaken session api_key user_id
  = (match fst (Fetcher.torn_get session (stats_url user_id) api_key
                  [("stat", "xantaken")] 30 5) with
     | Raise e => Raises (Fetch e)
     | Ok data => xantaken_of (document data)
     end,
     snd (Fetcher.torn_get session (stats_url user_id) api_key
            [("stat", "xantaken")] 30 5)).
Proof.
  unfold Exporter.get_member_xantaken.
  now destruct (Fetcher.torn_get _ _ _ _ _ _) as [[data|e] t].
Qed.

(** X14.  [get_faction_members] sends what one call of [torn_get] on
    the members address sends.  It returns a list exactly when the
    fetched document is a dictionary that has a list under ["members"],
    and then that list; a document that is not a dictionary raises
    [AttributeError], before the check of the payload is reached; a
    dictionary without a list there raises the [RuntimeError] of the
    check; an exception of [torn_get] is passed on. *)
Theorem get_faction_members_outcome :
  forall session api_key faction_id,
    let fetched :=
      Fetcher.torn_get session (members_url faction_id) api_key
        [("striptags", "true")] 30 5 in
    let run := get_faction_members session api_key faction_id in
    snd run = snd fetched
    /\ (forall l,
          fst run = Returns l <->
          exists data d,
            fst fetched = Ok data /\ document data = JDict d
            /\ lookup_key "members" d = Some (JList l))
    /\ (forall data,
          fst fetched = Ok data -> (forall d, document data <> JDict d) ->
          exists msg, fst run = Raises (AttributeError msg))
    /\ (forall data d,
          fst fetched = Ok data -> document data = JDict d ->
          (forall l, lookup_key "members" d <> Some (JList l)) ->
          exists msg, fst run = Raises (Fetch (RuntimeError msg)))
    /\ (forall e, fst fetched = Raise e -> fst run = Raises (Fetch e)).
Proof.
  intros session api_key faction_id fetched run.
  unfold run. rewrite members_eq. fold fetched. cbn [fst snd].
  split; [reflexivity|].
  destruct (fst fetched) as [data|e].
  - rewrite members_of_cases.
    destruct (document data) as [| | | | | |l0|d] eqn:Doc.
    1-7: (split;
          [intros l; split;
           [discriminate
           |intros (data' & d' & [= <-] & Hd & _); rewrite Doc in Hd;
            discriminate Hd]|];
          split; [intros data' _ _; eauto|];
          split; [|discriminate];
          intros data' d' [= <-] Hd _; rewrite Doc in Hd; discriminate Hd).
    assert (K : forall data' d', Ok data = Ok data' ->
                                 document data' = JDict d' -> d' = d).
    { intros data' d' [= <-] Hd. rewrite Doc in Hd. now injection Hd. }
    destruct (lookup_key "members" d) as [v|] eqn:L.
    + destruct v as [| | | | | |l0|d0].
      1-6, 8: (split;
               [intros l; split;
                [discriminate
                |intros (data' & d' & Hf & Hd & Hl);
                 rewrite (K _ _ Hf Hd), L in Hl; discriminate Hl]|];
               split; [intros data' [= <-] N; now destruct (N d)|];
               split; [intros; eauto | discriminate]).
      split.
      * intros l. split; [intros [= ->]; eauto|].
        intros (data' & d' & Hf & Hd & Hl).
        rewrite (K _ _ Hf Hd), L in Hl. now injection Hl as ->.
      * split; [intros data' [= <-] N; now destruct (N d)|].
        split; [|discriminate].
        intros data' d' Hf Hd N. rewrite (K _ _ Hf Hd) in N.
        now destruct (N l0).
    + split.
      * intros l. split; [discriminate|].
        intros (data' & d' & Hf & Hd & Hl).
        rewrite (K _ _ Hf Hd), L in Hl. discriminate Hl.
      * split; [intros data' [= <-] N; now destruct (N d)|].
        split; [intros; eauto | discriminate].
  - split.
    + intros l. split; [discriminate|].
      intros (data' & d' & Hf & _). discriminate Hf.
    + split; [discriminate|]. split; [discriminate|]. now intros ? [= <-].
Qed.

(** What [get_member_xantaken] makes of a document. *)
Lemma xantaken_of_returns doc v :
  xantaken_of doc = Returns v <->
  exists d l dl,
    doc = JDict d
    /\ lookup_key "personalstats" d = Some (JList (l ++ [JDict dl]))
    /\ let val := default JNull (lookup_key "value" dl) in
       if is_number val then exists z, int int_of_str val = Returns z
                                       /\ v = Some z
       else v = None.
Proof.
  unfold Exporter.xantaken_of. split.
  - destruct doc as [| | | | | |l0|d]; try discriminate. cbn [get].
    destruct (lookup_key "personalstats" d) as [ps|] eqn:L;
      [|cbn [default from_option id pop]; discriminate].
    cbn [default from_option id]. destruct ps as [| | | | | |l|d0]; try discriminate.
    cbn [pop]. destruct (List.last (map Some l) None) as [x|] eqn:E;
      [|cbv beta iota; discriminate].
    apply last_Some in E as (l' & ->).
    destruct x as [| | | | | |l0|dl]; try discriminate. cbn [get].
    intros H. exists d, l', dl. split; [reflexivity|].
    split; [exact L|]. cbv zeta. revert H.
    destruct (is_number _); [|now intros [= <-]].
    destruct (int int_of_str _) as [z|]; [|discriminate].
    intros [= <-]. eauto.
  - intros (d & l & dl & -> & L & H). cbn [get]. rewrite L. cbn [default from_option id pop].
    rewrite (proj2 (last_Some (l ++ [JDict dl]) (JDict dl)))
      by now exists l.
    cbn [get]. cbv zeta in H.
    destruct (is_number _); [|now subst].
    destruct H as (z & -> & ->). reflexivity.
Qed.

(** X15.  [get_member_xantaken] sends what one call of [torn_get] on
    the member's address sends.  It returns exactly when the fetched
    document is a dictionary whose ["personalstats"] is a list that is
    not empty and whose last element is a dictionary; the result is
    then read from the ["value"] of that last element only: its integer
    when it is a number, null otherwise.  A dictionary without
    ["personalstats"] raises [TypeError]: the default [{}] has no [pop]
    without argument. *)
Theorem get_member_xantaken_outcome :
  forall session api_key user_id,
    let fetched :=
      Fetcher.torn_get session (stats_url user_id) api_key
        [("stat", "xantaken")] 30 5 in
    let run := get_member_xantaken session api_key user_id in
    snd run = snd fetched
    /\ (forall v,
          fst run = Returns v <->
          exists data d l dl,
            fst fetched = Ok data /\ document data = JDict d
            /\ lookup_key "personalstats" d
               = Some (JList (l ++ [JDict dl]))
            /\ let val := default JNull (lookup_key "value" dl) in
               if is_number val
               then exists z, int int_of_str val = Returns z /\ v = Some z
               else v = None)
    /\ (forall data d,
          fst fetched = Ok data -> document data = JDict d ->
          lookup_key "personalstats" d = None ->
          fst run
          = Raises (Fetch (TypeError
                             "pop expected at least 1 argument, got 0")))
    /\ (forall e, fst fetched = Raise e -> fst run = Raises (Fetch e)).
Proof.
  intros session api_key user_id fetched run.
  unfold run. rewrite stats_eq. fold fetched. cbn [fst snd].
  split; [reflexivity|].
  destruct (fst fetched) as [data|e].
  - split.
    + intros v. rewrite xantaken_of_returns. split.
      * intros (d & l & dl & Hd & Hl & Hv). exists data, d, l, dl. auto.
      * intros (data' & d & l & dl & [= <-] & Hd & Hl & Hv).
        exists d, l, dl. auto.
    + split; [|discriminate].
      intros data' d [= <-] Hd Hl. unfold Exporter.xantaken_of.
      rewrite Hd. cbn [get]. rewrite Hl. reflexivity.
  - split.
    + intros v. split; [discriminate|].
      intros (data' & d & l & dl & Hf & _). discriminate Hf.
    + split; [discriminate|]. now intros ? [= <-].
Qed.

(** *** The loop of [main] *)

Abbreviation fixed_credential := "ApiKey xOZ42wvjt01rhnl9".

Lemma call_requests session url api_key params r :
  In r (Fetcher.requests_of
          (snd (Fetcher.torn_get session url api_key params 30 5))) ->
  Fetcher.authorization r = Some fixed_credential
  /\ Fetcher.req_timeout r = 30.
Proof.
  intros H. apply (torn_get_calls session url api_key params) in H.
  now subst r.
Qed.

Lemma member_id_dict m z :
  member_id m = Returns z ->
  exists d, m = JDict d
            /\ forall k, get m k JNull
                         = Returns (default JNull (lookup_key k d)).
Proof.
  unfold Exporter.member_id. destruct m; try discriminate. eauto.
Qed.

Lemma collect_rows session api_key sleep today members : forall sent,
  (forall m, In m members -> exists z, member_id m = Returns z) ->
  exists rows,
    fst (collect session api_key sleep today members sent) = Returns rows
    /\ Forall2 (row_of session api_key today) members rows.
Proof.
  induction members as [|m rest IH]; intros sent Hm.
  - exists []. split; [reflexivity | constructor].
  - cbn [Exporter.collect].
    destruct (Hm m ltac:(now left)) as (z & Hz). rewrite Hz.
    destruct (member_id_dict m z Hz) as (d & -> & G). rewrite !G.
    destruct (get_member_xantaken (later session sent) api_key z)
      as [x t] eqn:X.
    set (t1 := (t ++ _)%list).
    destruct (IH (sent + length (Fetcher.requests_of t1))%nat
                ltac:(intros; apply Hm; now right)) as (rows & E & F).
    destruct (collect session api_key sleep today rest _) as [r t'].
    cbn [fst] in E |- *. subst r. eexists. split; [reflexivity|].
    constructor; [|exact F].
    unfold row_of. cbn [row_user_id row_name row_position row_level
                          row_xantaken row_export_date].
    rewrite !G. repeat (split; [reflexivity || exact Hz|]).
    exists sent. now rewrite X.
Qed.

Lemma collect_fails session api_key sleep today members : forall sent e,
  fst (collect session api_key sleep today members sent) = Raises e ->
  exists good bad rest,
    members = (good ++ bad :: rest)%list
    /\ (forall m, In m good -> exists z, member_id m = Returns z)
    /\ member_id bad = Raises e
    /\ (length good
        <= length (Fetcher.requests_of
                     (snd (collect session api_key sleep today members
                             sent))))%nat.
Proof.
  induction members as [|m rest IH]; intros sent e; [discriminate|].
  cbn [Exporter.collect].
  destruct (member_id m) as [z|e0] eqn:Hz.
  - destruct (member_id_dict m z Hz) as (d & -> & G). rewrite !G.
    destruct (get_member_xantaken (later session sent) api_key z)
      as [x t] eqn:X.
    set (t1 := (t ++ _)%list).
    assert (T : (1 <= length (Fetcher.requests_of t1))%nat).
    { unfold t1. rewrite requests_of_app, length_app.
      pose proof (f_equal snd X) as S. rewrite stats_eq in S.
      cbn [snd] in S. rewrite <- S.
      pose proof (torn_get_calls (later session sent) (stats_url z) api_key
                    [("stat", "xantaken")]) as (B & _). lia. }
    specialize (IH (sent + length (Fetcher.requests_of t1))%nat e).
    destruct (collect session api_key sleep today rest _) as [r t'].
    cbn [fst snd] in IH |- *. intros H.
    destruct r as [rows|e1]; [discriminate|]. injection H as ->.
    destruct (IH eq_refl) as (good & bad & rest' & -> & Hg & Hb & Hl).
    exists (JDict d :: good), bad, rest'. split; [reflexivity|].
    split; [intros m [<-|Hin]; eauto|]. split; [exact Hb|].
    rewrite requests_of_app, length_app. cbn [length]. lia.
  - cbn [fst snd]. intros [= ->]. exists [], m, rest.
    split; [reflexivity|]. split; [intros ? []|]. split; [exact Hz|].
    cbn. lia.
Qed.

Lemma collect_requests session api_key sleep today members : forall sent,
  (length (Fetcher.requests_of
             (snd (collect session api_key sleep today members sent)))
   <= 5 * length members)%nat
  /\ forall r,
       In r (Fetcher.requests_of
               (snd (collect session api_key sleep today members sent))) ->
       Fetcher.authorization r = Some fixed_credential
       /\ Fetcher.req_timeout r = 30.
Proof.
  induction members as [|m rest IH]; intros sent.
  - cbn. split; [lia | intros r []].
  - cbn [Exporter.collect].
    destruct (member_id m) as [z|e0]; [|cbn; split; [lia | intros r []]].
    destruct (get m "name" JNull); [|cbn; split; [lia | intros r []]].
    destruct (get m "position" JNull); [|cbn; split; [lia | intros r []]].
    destruct (get m "level" JNull); [|cbn; split; [lia | intros r []]].
    destruct (get_member_xantaken (later session sent) api_key z)
      as [x t] eqn:X.
    set (t1 := (t ++ _)%list).
    pose proof (f_equal snd X) as S. rewrite stats_eq in S. cbn [snd] in S.
    assert (R1 : Fetcher.requests_of t1 = Fetcher.requests_of t).
    { unfold t1. rewrite requests_of_app.
      destruct (negb _); cbn; now rewrite app_nil_r. }
    specialize (IH (sent + length (Fetcher.requests_of t1))%nat).
    destruct (collect session api_key sleep today rest _) as [r t'].
    cbn [snd] in IH |- *. destruct IH as (IL & IR).
    rewrite requests_of_app, R1, <- S. split.
    + rewrite length_app.
      pose proof (torn_get_calls (later session sent) (stats_url z) api_key
                    [("stat", "xantaken")]) as (B & _).
      cbn [length]. lia.
    + intros r0 Hr. apply in_app_iff in Hr as [Hr|Hr]; [|now apply IR].
      now apply call_requests in Hr.
Qed.

(** X16.  Given a key, when the members are fetched and each of them
    has an identifier that [int] converts, [main] writes the snapshot of
    the day with one row for each member, in the order of the members,
    whatever the calls for the statistics do: a call that raises leaves
    a null [xantaken] and the run goes on. *)
Theorem main_one_row_per_member :
  forall session api_key faction_id sleep outdir today members,
    api_key <> "" ->
    fst (get_faction_members session api_key faction_id) = Returns members ->
    (forall m, In m members -> exists z, member_id m = Returns z) ->
    exists rows,
      fst (main session (Some api_key) faction_id sleep outdir today)
      = Wrote (out_path outdir faction_id today) rows
      /\ length rows = length members
      /\ Forall2 (row_of session api_key (isoformat today)) members rows.
Proof.
  intros session api_key faction_id sleep outdir today members Hk Hf Hm.
  unfold Exporter.main. apply String.eqb_neq in Hk. rewrite Hk.
  destruct (get_faction_members session api_key faction_id) as [r t].
  cbn [fst] in Hf. subst r.
  destruct (collect_rows session api_key sleep (isoformat today) members
              (length (Fetcher.requests_of t)) Hm) as (rows & E & F).
  destruct (collect session api_key sleep (isoformat today) members _)
    as [r' t'].
  cbn [fst] in E |- *. subst r'. exists rows. split; [reflexivity|].
  split; [symmetry; eapply Forall2_length; exact F | exact F].
Qed.

(** X17.  A run of [main] that ends with an exception has failed to
    fetch the members, or has met a member without an identifier that
    [int] converts; no exception of a call for the statistics ends it.
    In the second case the members before that one have all been asked
    for, at one request or more each after the request for the members,
    and nothing is written. *)
Theorem main_fails_only_on_members :
  forall session key faction_id sleep outdir today e,
    fst (main session key faction_id sleep outdir today) = Failed e ->
    exists api_key,
      key = Some api_key /\ api_key <> ""
      /\ (fst (get_faction_members session api_key faction_id) = Raises e
          \/ exists good bad rest,
               fst (get_faction_members session api_key faction_id)
               = Returns (good ++ bad :: rest)%list
               /\ (forall m, In m good -> exists z, member_id m = Returns z)
               /\ member_id bad = Raises e
               /\ (1 + length good
                   <= length (Fetcher.requests_of
                                (snd (main session key faction_id sleep
                                        outdir today))))%nat).
Proof.
  intros session key faction_id sleep outdir today e.
  unfold Exporter.main. destruct key as [api_key|]; [|discriminate].
  destruct (String.eqb_spec api_key "") as [->|Hk]; [discriminate|].
  intros H. exists api_key. split; [reflexivity|]. split; [exact Hk|].
  pose proof (members_eq session api_key faction_id) as M.
  destruct (get_faction_members session api_key faction_id) as [r t].
  destruct r as [members|e0]; [|left; now injection H as ->].
  right.
  pose proof (collect_fails session api_key sleep (isoformat today) members
                (length (Fetcher.requests_of t)) e) as C.
  destruct (collect session api_key sleep (isoformat today) members _)
    as [r' t'].
  cbn [fst snd] in *. destruct r' as [rows|e1]; [discriminate|].
  injection H as ->.
  destruct (C eq_refl) as (good & bad & rest & -> & Hg & Hb & Hl).
  exists good, bad, rest. repeat (split; [assumption || reflexivity|]).
  rewrite requests_of_app, length_app.
  injection M as _ ->.
  pose proof (torn_get_calls session (members_url faction_id) api_key
                [("striptags", "true")]) as (B & _). lia.
Qed.

(** X18.  Without a key [main] sends nothing and ends with the exit
    code 2.  With a key, every request of the run carries the fixed
    credential of [torn_get], not the key, and the timeout 30; the first
    request is the one for the members; and the run sends at most five
    requests for the members and five for each member. *)
Theorem main_requests :
  forall session key faction_id sleep outdir today,
    let t := snd (main session key faction_id sleep outdir today) in
    (key = None \/ key = Some "" ->
     main session key faction_id sleep outdir today = (MissingKey, []))
    /\ (forall r, In r (Fetcher.requests_of t) ->
          Fetcher.authorization r = Some fixed_credential
          /\ Fetcher.req_timeout r = 30)
    /\ (forall api_key, key = Some api_key -> api_key <> "" ->
          nth_error (Fetcher.requests_of t) 0
          = Some {| Fetcher.req_url := members_url faction_id;
                    Fetcher.req_headers := Fetcher.headers api_key;
                    Fetcher.req_params := [("striptags", "true")];
                    Fetcher.req_timeout := 30 |})
    /\ (forall api_key members,
          key = Some api_key ->
          fst (get_faction_members session api_key faction_id)
          = Returns members ->
          (length (Fetcher.requests_of t) <= 5 * (1 + length members))%nat).
Proof.
  intros session key faction_id sleep outdir today t.
  split; [intros [-> | ->]; reflexivity|].
  unfold t, Exporter.main. clear t.
  destruct key as [api_key|];
    [|cbn; split; [intros r []|]; split; [discriminate | discriminate]].
  destruct (String.eqb_spec api_key "") as [->|Hk].
  { cbn. split; [intros r []|]. split; [intros ? [= <-] N; now destruct N|].
    intros ? ? [= <-]. lia. }
  pose proof (members_eq session api_key faction_id) as M.
  pose proof (torn_get_calls session (members_url faction_id) api_key
                [("striptags", "true")]) as (B & Q).
  destruct (get_faction_members session api_key faction_id) as [r t] eqn:G.
  injection M as _ M. rewrite <- M in B, Q.
  assert (H0 : forall t', nth_error (Fetcher.requests_of (t ++ t')) 0
               = Some {| Fetcher.req_url := members_url faction_id;
                         Fetcher.req_headers := Fetcher.headers api_key;
                         Fetcher.req_params := [("striptags", "true")];
                         Fetcher.req_timeout := 30 |}).
  { intros t'. rewrite requests_of_app.
    destruct (Fetcher.requests_of t) as [|r0 l] eqn:E; [cbn in B; lia|].
    cbn. f_equal. apply Q. now left. }
  destruct r as [members|e0].
  - pose proof (collect_requests session api_key sleep (isoformat today)
                  members (length (Fetcher.requests_of t))) as (CL & CR).
    destruct (collect session api_key sleep (isoformat today) members _)
      as [r' t'].
    cbn [fst snd] in *. split; [|split; [|]].
    + intros r0 Hr. rewrite requests_of_app in Hr.
      apply in_app_iff in Hr as [Hr|Hr]; [|now apply CR].
      rewrite (Q r0 Hr). split; reflexivity.
    + intros ? [= <-] _. apply H0.
    + intros ? ? [= <-] H. rewrite G in H. cbn [fst] in H. injection H as <-.
      rewrite requests_of_app, length_app. lia.
  - cbn [fst snd]. split; [|split].
    + intros r0 Hr. rewrite (Q r0 Hr). split; reflexivity.
    + intros ? [= <-] _. rewrite <- (app_nil_r t). apply H0.
    + intros ? ? [= <-] H. rewrite G in H. discriminate H.
Qed.

Lemma collect_groups session api_key sleep today members : forall sent,
  (forall m, In m members -> exists z, member_id m = Returns z) ->
  exists groups,
    Fetcher.requests_of
      (snd (collect session api_key sleep today members sent))
    = concat groups
    /\ Forall2 (fun m g =>
                  g <> []
                  /\ forall r, In r g ->
                       exists z,
                         member_id m = Returns z
                         /\ r = {| Fetcher.req_url := stats_url z;
                                   Fetcher.req_headers :=
                                     Fetcher.headers api_key;
                                   Fetcher.req_params :=
                                     [("stat", "xantaken")];
                                   Fetcher.req_timeout := 30 |})
         members groups.
Proof.
  induction members as [|m rest IH]; intros sent Hm.
  - exists []. split; [reflexivity | constructor].
  - cbn [Exporter.collect].
    destruct (Hm m ltac:(now left)) as (z & Hz). rewrite Hz.
    destruct (member_id_dict m z Hz) as (d & -> & G). rewrite !G.
    destruct (get_member_xantaken (later session sent) api_key z)
      as [x t] eqn:X.
    set (t1 := (t ++ _)%list).
    pose proof (f_equal snd X) as S. rewrite stats_eq in S. cbn [snd] in S.
    assert (R1 : Fetcher.requests_of t1 = Fetcher.requests_of t).
    { unfold t1. rewrite requests_of_app.
      destruct (negb _); cbn; now rewrite app_nil_r. }
    destruct (IH (sent + length (Fetcher.requests_of t1))%nat
                ltac:(intros; apply Hm; now right)) as (groups & E & F).
    destruct (collect session api_key sleep today rest _) as [r t'].
    cbn [snd] in E |- *.
    exists (Fetcher.requests_of t :: groups). split.
    + rewrite requests_of_app, R1, E. reflexivity.
    + constructor; [|exact F].
      pose proof (torn_get_calls (later session sent) (stats_url z) api_key
                    [("stat", "xantaken")]) as (B & Q).
      rewrite S in B, Q. split.
      * intros N. rewrite N in B. cbn in B. lia.
      * intros r0 Hr. exists z. split; [exact Hz | now apply Q].
Qed.

(** X20.  In a run that fetches the members, each with an identifier
    that [int] converts, the requests are those for the members
    followed, member by member in the order of the list, by the requests
    for the statistics of that member: at least one for each member, all
    of them to the address of its own identifier with the parameter
    [stat=xantaken]. *)
Theorem main_asks_for_each_member_in_order :
  forall session api_key faction_id sleep outdir today members,
    api_key <> "" ->
    fst (get_faction_members session api_key faction_id) = Returns members ->
    (forall m, In m members -> exists z, member_id m = Returns z) ->
    exists groups,
      Fetcher.requests_of
        (snd (main session (Some api_key) faction_id sleep outdir today))
      = (Fetcher.requests_of
           (snd (get_faction_members session api_key faction_id))
         ++ concat groups)%list
      /\ Forall2 (fun m g =>
                    g <> []
                    /\ forall r, In r g ->
                         exists z,
                           member_id m = Returns z
                           /\ r = {| Fetcher.req_url := stats_url z;
                                     Fetcher.req_headers :=
                                       Fetcher.headers api_key;
                                     Fetcher.req_params :=
                                       [("stat", "xantaken")];
                                     Fetcher.req_timeout := 30 |})
           members groups.
Proof.
  intros session api_key faction_id sleep outdir today members Hk Hf Hm.
  unfold Exporter.main. apply String.eqb_neq in Hk. rewrite Hk.
  destruct (get_faction_members session api_key faction_id) as [r t].
  cbn [fst snd] in Hf |- *. subst r.
  destruct (collect_groups session api_key sleep (isoformat today) members
              (length (Fetcher.requests_of t)) Hm) as (groups & E & F).
  destruct (collect session api_key sleep (isoformat today) members _)
    as [r' t'].
  cbn [snd] in E |- *. exists groups. split; [|exact F].
  now rewrite requests_of_app, E.
Qed.

End ExportFacts.

(** ** A snapshot compared with itself *)

Lemma NoDup_map_eq {A} (f : A -> string) l x y :
  NoDup (map f l) -> In x l -> In y l -> f x = f y -> x = y.
Proof.
  induction l as [|a l IH]; [intros _ []|].
  cbn [map]. rewrite NoDup_cons, list_elem_of_In.
  intros [Ha Hl] [<-|Hx] [<-|Hy] E; auto.
  - exfalso. apply Ha. rewrite E. now apply in_map.
  - exfalso. apply Ha. rewrite <- E. now apply in_map.
Qed.

Section SelfComparison.
Variable str_of_num : Q -> string.
Variable parse_num : string -> option Q.
Variable to_datetime : value -> result date.
Variable read_csv : Path -> result DataFrame.

Abbreviation load := (_load_snapshot str_of_num parse_num read_csv).
Abbreviation report_of :=
  (build_report str_of_num parse_num to_datetime read_csv).

(** X19.  The report of a snapshot without repeated members against
    itself: the days between are zero, or null when the snapshot has no
    date; there is one row for each row of the snapshot; in every row
    the two values are the same, the difference is zero or null, the
    rate is null, and the status is "Pass" for a member with a value
    and "Never Taken Xan!!!" for a member without. *)
Theorem report_of_a_snapshot_against_itself :
  forall path report s e d df,
    report_of path path = Ok (report, s, e, d) ->
    load path = Ok df ->
    NoDup (member_ids df) ->
    (d = None \/ d = Some 0)
    /\ s = e
    /\ length (rows report) = length (rows df)
    /\ forall r, In r (rows report) ->
         cell r "xantaken_a" = cell r "xantaken_b"
         /\ cell r "avg_xantaken_per_day" = NaN
         /\ (forall q, cell r "xantaken_a" = Num q ->
               cell r "diff_xantaken" = Num (q - q)
               /\ cell r "status" = Str "Pass")
         /\ (cell r "xantaken_a" = NaN ->
               cell r "diff_xantaken" = NaN
               /\ cell r "status" = Str "Never Taken Xan!!!").
Proof.
  intros path report s e d df H L ND.
  destruct (build_report_inv _ _ _ _ _ _ _ _ _ _ H)
    as (df_a & df_b & date_a & date_b & La & Lb & Da & Db & Sp & _).
  assert (df_a = df) by congruence. assert (df_b = df) by congruence.
  subst df_a df_b. assert (date_b = date_a) by congruence. subst date_b.
  assert (Hd : (d = None \/ d = Some 0) /\ s = e).
  { unfold date_span, days_from in Sp. destruct date_a as [a|].
    - rewrite date_leb_refl in Sp. injection Sp as <- <- <-.
      split; [right; f_equal; lia | reflexivity].
    - injection Sp as <- <- <-. auto. }
  destruct Hd as (Hd & Hse). split; [exact Hd|]. split; [exact Hse|].
  split.
  { rewrite (report_length _ _ _ _ _ _ _ _ _ _ _ _ H L L).
    unfold joined, merge_outer. cbn [rows].
    rewrite length_flat_map_ones.
    - unfold merge_keys.
      rewrite <- (Permutation_length (stable_sort_perm String.leb _)).
      rewrite map_app.
      fold (member_ids (side "_a" (meta_cols df df) df)).
      fold (member_ids (side "_b" (meta_cols df df) df)).
      rewrite (side_member_ids df df "_a" "_b"),
        (side_member_ids df df "_b" "_a") by auto.
      assert (R : remove_dups (member_ids df ++ member_ids df)
                  ≡ₚ member_ids df).
      { apply NoDup_Permutation;
          [apply NoDup_remove_dups | exact ND |].
        intros x. rewrite elem_of_remove_dups, elem_of_app. tauto. }
      rewrite R. unfold member_ids. now rewrite length_map.
    - intros k Hk. rewrite merge_group_length.
      rewrite (side_with_key df df "_a" "_b"),
        (side_with_key df df "_b" "_a") by auto.
      apply merge_keys_In in Hk.
      fold (member_ids (side "_a" (meta_cols df df) df)) in Hk.
      fold (member_ids (side "_b" (meta_cols df df) df)) in Hk.
      rewrite (side_member_ids df df "_a" "_b"),
        (side_member_ids df df "_b" "_a") in Hk by auto.
      unfold occurrences.
      rewrite (count_NoDup (fun r => text_of (cell r "user_id")) k _ ND).
      fold (member_ids df). rewrite <- !has_col_In in Hk.
      destruct (has_col k (member_ids df)); [reflexivity|].
      destruct Hk; discriminate. }
  intros r Hr.
  destruct (report_row_joined _ _ _ _ _ _ _ _ _ _ _ _ _ H L L Hr)
    as (m0 & Hm0 & (_ & Ha & Hb & Hdiff & Havg & Hs)).
  assert (E : cell m0 "xantaken_a" = cell m0 "xantaken_b").
  { destruct (joined_row_cases df df m0 Hm0)
      as [(ra & rb & Hra & Hrb & Ka & Kb & _ & -> & ->)
         |[(ra & Hra & N & Ka & _)|(rb & Hrb & N & Kb & _)]].
    - f_equal.
      apply (NoDup_map_eq (fun r => text_of (cell r "user_id")) (rows df));
        [exact ND | exact Hra | exact Hrb | congruence].
    - exfalso. apply N. rewrite <- Ka. unfold member_ids.
      now apply (in_map (fun r => text_of (cell r "user_id"))).
    - exfalso. apply N. rewrite <- Kb. unfold member_ids.
      now apply (in_map (fun r => text_of (cell r "user_id"))). }
  assert (A : cell r "avg_xantaken_per_day" = NaN).
  { rewrite Havg. now destruct Hd as [-> | ->]. }
  rewrite <- Ha, <- Hb in E, Hdiff.
  split; [exact E|]. split; [exact A|].
  rewrite Hs. unfold _status. rewrite <- E, A, Hdiff, <- E. split.
  - intros q ->. split; reflexivity.
  - intros ->. split; reflexivity.
Qed.

End SelfComparison.

(** ** The statements on the two snapshot files *)

Import Example.

Abbreviation jan1 := {| year := 2024; month := 1; day := 1 |}.
Abbreviation jan4 := {| year := 2024; month := 1; day := 4 |}.
Abbreviation later_first := (report later_path earlier_path).
Abbreviation earlier_first := (report earlier_path later_path).


(** C2 fails as stated.  The file passed first is the later one.  Both
    orders give the same dates, but in the report of this order the row
    of member 7 has in [xantaken_a] the value 15 of the later snapshot
    and in [xantaken_b] the value 3 of the earlier one, and no row of the
    report of the other order is like it: there the row of member 7 has
    3 in [xantaken_a]. *)
Lemma labels_follow_arguments_not_dates :
  _parse_date_from_df_or_filename to_datetime (loaded later_path) later_path
  = Ok (Some jan4)
  /\ _parse_date_from_df_or_filename to_datetime (loaded earlier_path)
       earlier_path
     = Ok (Some jan1)
  /\ report_of later_path earlier_path
     = Ok (later_first, Some jan1, Some jan4, Some 3)
  /\ report_of earlier_path later_path
     = Ok (earlier_first, Some jan1, Some jan4, Some 3)
  /\ (exists r,
        In r (rows later_first)
        /\ cell r "user_id" = Str "7"
        /\ cell r "xantaken_a" = Num 15 /\ cell r "xantaken_b" = Num 3
        /\ cell r "diff_xantaken" = Num (-12))
  /\ forallb (fun r' =>
                implb (value_eqb (cell r' "user_id") (Str "7"))
                  (value_eqb (cell r' "xantaken_a") (Num 3)
                   && value_eqb (cell r' "xantaken_b") (Num 15)
                   && value_eqb (cell r' "diff_xantaken") (Num 12)))
       (rows earlier_first) = true.
Proof.
  do 4 (split; [vm_compute; reflexivity|]).
  split.
  - exists (nth 0 (rows later_first) ∅).
    split; [apply nth_In; vm_compute; lia|].
    vm_compute. auto 10.
  - vm_compute. reflexivity.
Qed.

(** C6 on the third file, which lacks the stat column. *)
Lemma load_snapshot_fails_iff_column_missing_witness :
  exists e, _load_snapshot str_of_num parse_num read_csv broken_path = Raise e.
Proof.
  destruct (load_snapshot_fails_iff_column_missing str_of_num parse_num
              read_csv broken_path broken_csv) as (F & _);
    [vm_compute; reflexivity|].
  apply F. right. cbn. intros [H|[H|[]]]; discriminate H.
Defined.

(** C4 on the two files, the later one passed first. *)
Lemma build_report_dates_witness :
  exists df_a df_b,
    _load_snapshot str_of_num parse_num read_csv later_path = Ok df_a
    /\ _load_snapshot str_of_num parse_num read_csv earlier_path = Ok df_b.
Proof.
  destruct (build_report_dates str_of_num parse_num to_datetime read_csv
              later_path earlier_path later_first (Some jan1) (Some jan4)
              (Some 3))
    as (df_a & df_b & _ & _ & La & Lb & _); [vm_compute; reflexivity|].
  exists df_a, df_b. split; [exact La | exact Lb].
Defined.

(** C10 on the second file, which has no position column, passed
    twice. *)
Lemma build_report_needs_position_witness :
  build_report str_of_num parse_num to_datetime read_csv earlier_path
    earlier_path = Raise (KeyError "position").
Proof.
  assert (P : forall raw, read_csv earlier_path = Ok raw ->
                          ~ In "position" (columns raw)).
  { intros raw E. change (Ok earlier_csv = Ok raw) in E.
    injection E as <-. cbn. intros [H|[H|[H|[H|[]]]]]; discriminate H. }
  destruct (build_report_needs_position str_of_num parse_num to_datetime
              read_csv earlier_path earlier_path P P) as (_ & K).
  apply (K (loaded earlier_path) (loaded earlier_path));
    vm_compute; reflexivity.
Defined.

(** C3 on the two files: the row of member 7, with the rate 12/3. *)
Lemma status_precedence_witness :
  cell (nth 0 (rows later_first) ∅) "status" = Str "Exceeds".
Proof.
  destruct (status_precedence str_of_num parse_num to_datetime read_csv
              later_path earlier_path later_first (Some jan1) (Some jan4)
              (Some 3) (nth 0 (rows later_first) ∅))
    as (_ & _ & _ & C & _).
  - vm_compute. reflexivity.
  - apply nth_In. vm_compute. lia.
  - destruct C as (_ & E & _).
    + vm_compute. discriminate.
    + vm_compute. discriminate.
    + apply (E (12 # 3)%Q); [vm_compute; reflexivity|].
      vm_compute. discriminate.
Defined.


(** C8 on the two files: member 8, of the second file only. *)
Lemma outer_join_complete_witness :
  occurrences "8" (rows later_first) = 1%nat.
Proof.
  destruct (outer_join_complete str_of_num parse_num to_datetime read_csv
              later_path earlier_path later_first (Some jan1) (Some jan4)
              (Some 3) (loaded later_path) (loaded earlier_path))
    as (C & _).
  - vm_compute. reflexivity.
  - vm_compute. reflexivity.
  - vm_compute. reflexivity.
  - apply (bool_decide_unpack _). vm_compute. exact I.
  - apply (bool_decide_unpack _). vm_compute. exact I.
  - apply (C "8"). right. vm_compute. auto.
Defined.

(** C2, as the code has it, on the two files in both orders. *)
Lemma report_follows_argument_order_witness :
  exists df_a df_b,
    _load_snapshot str_of_num parse_num read_csv later_path = Ok df_a
    /\ _load_snapshot str_of_num parse_num read_csv earlier_path = Ok df_b.
Proof.
  destruct (report_follows_argument_order str_of_num parse_num to_datetime
              read_csv later_path earlier_path
              later_first (Some jan1) (Some jan4) (Some 3)
              earlier_first (Some jan1) (Some jan4) (Some 3))
    as (df_a & df_b & _ & _ & La & Lb & _);
    [vm_compute; reflexivity | vm_compute; reflexivity |].
  exists df_a, df_b. split; [exact La | exact Lb].
Defined.



(** X3 on the session that is down, with the default five attempts. *)
Lemma torn_get_exhausted_witness :
  fst (Fetcher.torn_get Sessions.down Sessions.members_url "secret"
         [("striptags", "true")] 30 5)
  = Raise (RuntimeError "Request failed: timed out")
  /\ length (Retry.sleeps_of
               (snd (Fetcher.torn_get Sessions.down Sessions.members_url
                       "secret" [("striptags", "true")] 30 5))) = 5%nat.
Proof.
  destruct (torn_get_exhausted Sessions.down Sessions.members_url "secret"
              [("striptags", "true")] 30 5) as (E & _ & L).
  - lia.
  - intros j _. reflexivity.
  - split; [rewrite E; reflexivity | exact L].
Defined.

(** X5 on the two files: the columns of the report. *)
Lemma report_columns_witness :
  columns later_first
  = ["user_id"; "name"; "position"; "xantaken_a"; "xantaken_b";
     "diff_xantaken"; "avg_xantaken_per_day"; "status"].
Proof.
  destruct (report_columns str_of_num parse_num to_datetime read_csv
              later_path earlier_path later_first (Some jan1) (Some jan4)
              (Some 3) (loaded later_path) (loaded earlier_path))
    as (C & _).
  - vm_compute. reflexivity.
  - vm_compute. reflexivity.
  - vm_compute. reflexivity.
  - rewrite C. vm_compute. reflexivity.
Defined.



(** X8 on the two files: member 7, once in each. *)
Lemma repeated_members_multiply_witness :
  occurrences "7" (rows later_first)
  = joined_count_of (occurrences "7" (rows (loaded later_path)))
      (occurrences "7" (rows (loaded earlier_path))).
Proof.
  apply (repeated_members_multiply str_of_num parse_num to_datetime read_csv
           later_path earlier_path later_first (Some jan1) (Some jan4)
           (Some 3) (loaded later_path) (loaded earlier_path) "7").
  - vm_compute. reflexivity.
  - vm_compute. reflexivity.
  - vm_compute. reflexivity.
Defined.

(** X9 on the two files: three members in all. *)
Lemma report_size_witness :
  length (rows later_first)
  = length (remove_dups (member_ids (loaded later_path)
                         ++ member_ids (loaded earlier_path))).
Proof.
  destruct (report_size str_of_num parse_num to_datetime read_csv
              later_path earlier_path later_first (Some jan1) (Some jan4)
              (Some 3) (loaded later_path) (loaded earlier_path))
    as (L & _).
  - vm_compute. reflexivity.
  - vm_compute. reflexivity.
  - vm_compute. reflexivity.
  - apply (bool_decide_unpack _). vm_compute. exact I.
  - apply (bool_decide_unpack _). vm_compute. exact I.
  - exact L.
Defined.

(** X10 on the two files: the row of member 7. *)
Lemma metadata_prefers_second_file_witness :
  let r := nth 0 (rows later_first) ∅ in
  (exists ra rb,
      In ra (rows (loaded later_path)) /\ In rb (rows (loaded earlier_path))
      /\ text_of (cell ra "user_id") = text_of (cell r "user_id")
      /\ text_of (cell rb "user_id") = text_of (cell r "user_id")
      /\ forall c, In c ["name"; "position"; "level"] ->
           cell r c = combine_first (meta_of (loaded earlier_path) rb c)
                        (meta_of (loaded later_path) ra c))
  \/ (exists ra,
        In ra (rows (loaded later_path))
        /\ ~ In (text_of (cell r "user_id")) (member_ids (loaded earlier_path))
        /\ text_of (cell ra "user_id") = text_of (cell r "user_id")
        /\ forall c, In c ["name"; "position"; "level"] ->
             cell r c = meta_of (loaded later_path) ra c)
  \/ (exists rb,
        In rb (rows (loaded earlier_path))
        /\ ~ In (text_of (cell r "user_id")) (member_ids (loaded later_path))
        /\ text_of (cell rb "user_id") = text_of (cell r "user_id")
        /\ forall c, In c ["name"; "position"; "level"] ->
             cell r c = meta_of (loaded earlier_path) rb c).
Proof.
  intros r.
  apply (metadata_prefers_second_file str_of_num parse_num to_datetime
           read_csv later_path earlier_path later_first (Some jan1)
           (Some jan4) (Some 3) (loaded later_path) (loaded earlier_path) r).
  - vm_compute. reflexivity.
  - vm_compute. reflexivity.
  - vm_compute. reflexivity.
  - apply nth_In. vm_compute. lia.
Defined.


(** X12 on the two files: three days from 1 to 4 January. *)
Lemma days_between_of_report_witness :
  exists start_date end_date,
    Some jan1 = Some start_date /\ Some jan4 = Some end_date
    /\ (valid_date (year start_date) (month start_date) (day start_date)
        = true ->
        valid_date (year end_date) (month end_date) (day end_date) = true ->
        3 = toordinal end_date - toordinal start_date
        /\ 0 <= 3
        /\ (3 = 0 <-> start_date = end_date)
        /\ (start_date = end_date ->
            forall r, In r (rows later_first) ->
                      cell r "avg_xantaken_per_day" = NaN)).
Proof.
  apply (days_between_of_report str_of_num parse_num to_datetime read_csv
           later_path earlier_path later_first (Some jan1) (Some jan4) 3).
  vm_compute. reflexivity.
Defined.

(** X13 on the first file, which is named as [xans.py] names the
    snapshot of faction 1 on 4 January 2024. *)
Lemma written_names_carry_their_date_witness :
  date_from_filename later_path = Ok (Some jan4).
Proof.
  destruct (written_names_carry_their_date to_datetime "snapshots" 1 jan4)
    as (N & _); [reflexivity|].
  exact N.
Defined.

(** X16 on the run: two rows, the second without a value. *)
Lemma main_one_row_per_member_witness :
  exists rows,
    fst (Exporter.main Run.document Run.int_of_str Run.api (Some "secret") 1
           0.75 "snapshots" Run.today)
    = Exporter.Wrote (out_path "snapshots" 1 Run.today) rows
    /\ length rows = length Run.members
    /\ Forall2 (Exporter.row_of Run.document Run.int_of_str Run.api "secret"
                  (isoformat Run.today)) Run.members rows.
Proof.
  apply (main_one_row_per_member Run.document Run.int_of_str Run.api "secret"
           1 0.75 "snapshots" Run.today Run.members).
  - discriminate.
  - vm_compute. reflexivity.
  - intros m [<-|[<-|[]]]; eexists; vm_compute; reflexivity.
Defined.

(** X17 on the session that is down: the members cannot be fetched. *)
Lemma main_fails_only_on_members_witness :
  exists api_key,
    Some "secret" = Some api_key /\ api_key <> ""
    /\ (fst (Exporter.get_faction_members Run.document Sessions.down api_key 1)
        = Exporter.Raises
            (Exporter.Fetch (RuntimeError "Request failed: timed out"))
        \/ exists good bad rest,
             fst (Exporter.get_faction_members Run.document Sessions.down
                    api_key 1)
             = Exporter.Returns (good ++ bad :: rest)%list
             /\ (forall m, In m good ->
                   exists z, Exporter.member_id Run.int_of_str m
                             = Exporter.Returns z)
             /\ Exporter.member_id Run.int_of_str bad
                = Exporter.Raises
                    (Exporter.Fetch
                       (RuntimeError "Request failed: timed out"))
             /\ (1 + length good
                 <= length (Fetcher.requests_of
                              (snd (Exporter.main Run.document Run.int_of_str
                                      Sessions.down (Some "secret") 1 0.75
                                      "snapshots" Run.today))))%nat).
Proof.
  apply (main_fails_only_on_members Run.document Run.int_of_str Sessions.down
           (Some "secret") 1 0.75 "snapshots" Run.today).
  vm_compute. reflexivity.
Defined.

(** X19 on the first file against itself. *)
Lemma report_of_a_snapshot_against_itself_witness :
  length (rows (report later_path later_path))
  = length (rows (loaded later_path)).
Proof.
  destruct (report_of_a_snapshot_against_itself str_of_num parse_num
              to_datetime read_csv later_path
              (report later_path later_path) (Some jan4) (Some jan4)
              (Some 0) (loaded later_path)) as (_ & _ & L & _).
  - vm_compute. reflexivity.
  - vm_compute. reflexivity.
  - apply (bool_decide_unpack _). vm_compute. exact I.
  - exact L.
Defined.

(** X1 with no attempt allowed: nothing is sent. *)
Lemma torn_get_bounded_witness :
  Fetcher.torn_get Sessions.throttled Sessions.members_url "secret"
    [("striptags", "true")] 30 0
  = (Raise (RuntimeError "Failed after retries"), []).
Proof.
  destruct (torn_get_bounded Sessions.throttled Sessions.members_url "secret"
              [("striptags", "true")] 30 0) as (_ & _ & _ & Z).
  apply Z. lia.
Defined.


(** X14 on the run: the two members. *)
Lemma get_faction_members_outcome_witness :
  fst (Exporter.get_faction_members Run.document Run.api "secret" 1)
  = Exporter.Returns Run.members.
Proof.
  destruct (get_faction_members_outcome Run.document Run.api "secret" 1)
    as (_ & R & _).
  apply R. exists "members". eexists. split; [vm_compute; reflexivity|].
  split; reflexivity.
Defined.

(** X15 on the run: the answer for member 9 has no statistics. *)
Lemma get_member_xantaken_outcome_witness :
  fst (Exporter.get_member_xantaken Run.document Run.int_of_str
         (Exporter.later Run.api 2) "secret" 9)
  = Exporter.Raises
      (Exporter.Fetch (TypeError "pop expected at least 1 argument, got 0")).
Proof.
  destruct (get_member_xantaken_outcome Run.document Run.int_of_str
              (Exporter.later Run.api 2) "secret" 9) as (_ & _ & T & _).
  apply (T "empty" []); reflexivity.
Defined.

(** X18 without a key. *)
Lemma main_requests_witness :
  Exporter.main Run.document Run.int_of_str Run.api None 1 0.75 "snapshots"
    Run.today
  = (Exporter.MissingKey, []).
Proof.
  destruct (main_requests Run.document Run.int_of_str Run.api None 1 0.75
              "snapshots" Run.today) as (K & _).
  apply K. now left.
Defined.

(** X20 on the run: one request for each of the two members. *)
Lemma main_asks_for_each_member_in_order_witness :
  exists groups,
    Fetcher.requests_of
      (snd (Exporter.main Run.document Run.int_of_str Run.api (Some "secret")
              1 0.75 "snapshots" Run.today))
    = (Fetcher.requests_of
         (snd (Exporter.get_faction_members Run.document Run.api "secret" 1))
       ++ concat groups)%list
    /\ length groups = length Run.members.
Proof.
  destruct (main_asks_for_each_member_in_order Run.document Run.int_of_str
              Run.api "secret" 1 0.75 "snapshots" Run.today Run.members)
    as (groups & E & F).
  - discriminate.
  - vm_compute. reflexivity.
  - intros m [<-|[<-|[]]]; eexists; vm_compute; reflexivity.
  - exists groups. split; [exact E|].
    symmetry. eapply Forall2_length. exact F.
Defined.
